(** * SLCO SharePoint automation: the two updater scripts, embedded and verified

    The development follows the two source files:

    - [point_history_updater.py]  (class [SharePointVRSUpdater]):  module
      [PointHistoryUpdater];
    - [sharepoint_date_updater.py] (class [SharePointPointUpdater]): module
      [SharePointDateUpdater].

    Python text is a sequence of code points.  A character is an [ascii],
    read as a code point below 256 (Latin-1); on that range the character
    classes below are exactly those of CPython's [str] methods and of the
    [re] module on [str] patterns.  The remote service, the backup directory
    and the results file are an abstract world threaded through every
    call; each exchange with them is recorded in a trace. *)

From Stdlib Require Import Ascii String Bool Arith NArith ZArith Lia List.
From Stdlib Require Import Permutation DecimalString.
Import ListNotations.

Set Implicit Arguments.

(** ** Python strings *)

Module Py.

Definition str := list ascii.

(** A literal of the source. *)
Definition lit (s : string) : str := list_ascii_of_string s.

Definition code (c : ascii) : N := N_of_ascii c.

Definition nl : ascii := ascii_of_N 10.
Definition tab : ascii := ascii_of_N 9.

(** [\d] of [re] on a [str] pattern; below 256 only the ASCII digits are
    decimal digits. *)
Definition isdigit (c : ascii) : bool :=
  ((48 <=? code c) && (code c <=? 57))%N.

(** [str.isspace] and [\s]: TAB..CR, FS..US, SPACE, NEL and NBSP. *)
Definition isspace (c : ascii) : bool :=
  let n := code c in
  (((9 <=? n) && (n <=? 13)) || ((28 <=? n) && (n <=? 31))
   || (n =? 32) || (n =? 133) || (n =? 160))%N.

(** A character range [[lo-hi]] of a pattern. *)
Definition between (lo hi : string) (c : ascii) : bool :=
  match lit lo, lit hi with
  | [l], [h] => ((code l <=? code c) && (code c <=? code h))%N
  | _, _ => false
  end.

(** [str.lower] on one code point: A..Z and the Latin-1 capitals
    U+00C0..U+00DE (U+00D7, the multiplication sign, excepted). *)
Definition lower_char (c : ascii) : ascii :=
  let n := code c in
  if (((65 <=? n) && (n <=? 90))
      || ((192 <=? n) && (n <=? 222) && negb (n =? 215)))%N
  then ascii_of_N (n + 32) else c.

Definition lower (s : str) : str := map lower_char s.

Definition str_eqb (a b : str) : bool :=
  if list_eq_dec ascii_dec a b then true else false.

(** [s.startswith(p)] *)
Fixpoint startswith (p s : str) : bool :=
  match p, s with
  | [], _ => true
  | _ :: _, [] => false
  | a :: p', b :: s' => Ascii.eqb a b && startswith p' s'
  end.

(** [s.endswith(p)] *)
Definition endswith (p s : str) : bool := startswith (rev p) (rev s).

(** [p in s] *)
Fixpoint contains (p s : str) : bool :=
  startswith p s ||
  match s with
  | [] => false
  | _ :: t => contains p t
  end.

(** Number of positions of [s] at which [p] occurs. *)
Fixpoint occurrences (p s : str) : nat :=
  (if startswith p s then 1 else 0) +
  match s with
  | [] => 0
  | _ :: t => occurrences p t
  end.

(** [s.split('\n')]: never empty, one more field than there are newlines. *)
Fixpoint split_lines (s : str) : list str :=
  match s with
  | [] => [[]]
  | c :: t =>
      if Ascii.eqb c nl then [] :: split_lines t
      else match split_lines t with
           | l :: ls => (c :: l) :: ls
           | [] => [[c]]
           end
  end.

(** ['\n'.join(ls)] *)
Fixpoint join_lines (ls : list str) : str :=
  match ls with
  | [] => []
  | [l] => l
  | l :: ls' => l ++ nl :: join_lines ls'
  end.

(** [s.split('T')[0]]: the text before the first ['T']. *)
Fixpoint before_T (s : str) : str :=
  match s with
  | [] => []
  | c :: t => if Ascii.eqb c "T" then [] else c :: before_T t
  end.

(** [s.rstrip()]: drop the trailing run of whitespace. *)
Fixpoint rstrip (s : str) : str :=
  match s with
  | [] => []
  | c :: t =>
      match rstrip t with
      | [] => if isspace c then [] else [c]
      | r => c :: r
      end
  end.

(** Truth value of a string: non-empty. *)
Definition truthy (s : str) : bool :=
  match s with [] => false | _ => true end.

(** Decimal numeral of a natural number, and [%02d]-style zero padding. *)
Definition decimal (n : nat) : str :=
  list_ascii_of_string (NilEmpty.string_of_uint (Nat.to_uint n)).

Definition zpad (width n : nat) : str :=
  let d := decimal n in
  repeat "0"%char (width - length d) ++ d.

(** Value of a string of decimal digits, as [int(s)] computes it. *)
Definition digit_val (c : ascii) : nat := N.to_nat (code c) - 48.

Definition int_of_digits (s : str) : nat :=
  fold_left (fun acc c => 10 * acc + digit_val c) s 0.

End Py.

Import Py.

(** ** [datetime]: formatting and parsing *)

Module DateTime.

Record datetime := mk_datetime {
  year : nat; month : nat; day : nat;
  hour : nat; minute : nat; second : nat
}.

(** [d.strftime('%m/%d/%Y')].  From the year 1000 on this is what every
    platform prints; for earlier years the C library decides whether the
    year is padded, and the model pads it to four digits. *)
Definition strftime_mdY (d : datetime) : str :=
  zpad 2 (month d) ++ lit "/" ++ zpad 2 (day d) ++ lit "/" ++ zpad 4 (year d).

(** [d.strftime('%Y-%m-%dT%H:%M:%SZ')] *)
Definition strftime_iso (d : datetime) : str :=
  zpad 4 (year d) ++ lit "-" ++ zpad 2 (month d) ++ lit "-" ++ zpad 2 (day d)
  ++ lit "T" ++ zpad 2 (hour d) ++ lit ":" ++ zpad 2 (minute d) ++ lit ":"
  ++ zpad 2 (second d) ++ lit "Z".

Definition is_leap (y : nat) : bool :=
  (y mod 4 =? 0) && (negb (y mod 100 =? 0) || (y mod 400 =? 0)).

Definition days_in_month (y m : nat) : nat :=
  match m with
  | 1 | 3 | 5 | 7 | 8 | 10 | 12 => 31
  | 4 | 6 | 9 | 11 => 30
  | 2 => if is_leap y then 29 else 28
  | _ => 0
  end.

(** The directive [%m] is the group [1[0-2]|0[1-9]|[1-9]]: every way it can
    match at the head of [s], in the order the engine tries them, each with
    the text that follows. *)
Definition month_alts (s : str) : list (str * str) :=
  match s with
  | a :: b :: r =>
      (if Ascii.eqb a "1" && between "0" "2" b then [([a; b], r)] else [])
      ++ (if Ascii.eqb a "0" && between "1" "9" b then [([a; b], r)] else [])
      ++ (if between "1" "9" a then [([a], b :: r)] else [])
  | [a] => if between "1" "9" a then [([a], [])] else []
  | [] => []
  end.

(** The directive [%d] is the group [3[0-1]|[1-2]\d|0[1-9]|[1-9]| [1-9]]; it
    closes the pattern, so its first matching alternative is the one kept. *)
Definition day_match (s : str) : option (str * str) :=
  match s with
  | a :: b :: r =>
      if Ascii.eqb a "3" && between "0" "1" b then Some ([a; b], r)
      else if between "1" "2" a && isdigit b then Some ([a; b], r)
      else if Ascii.eqb a "0" && between "1" "9" b then Some ([a; b], r)
      else if between "1" "9" a then Some ([a], b :: r)
      else if Ascii.eqb a " " && between "1" "9" b then Some ([b], r)
      else None
  | [a] => if between "1" "9" a then Some ([a], []) else None
  | [] => None
  end.

(** After the year and its dash: the first month alternative after which a
    dash and a day match. *)
Fixpoint month_day (alts : list (str * str)) : option (str * str * str) :=
  match alts with
  | [] => None
  | (m, r) :: more =>
      match r with
      | c :: r' =>
          if Ascii.eqb c "-" then
            match day_match r' with
            | Some (d, rest) => Some (m, d, rest)
            | None => month_day more
            end
          else month_day more
      | [] => month_day more
      end
  end.

(** [datetime.strptime(s, '%Y-%m-%d')]; [None] where Python raises
    [ValueError]: no match, unconverted data left over, or a day or year
    that is no date. *)
Definition strptime_Ymd (s : str) : option datetime :=
  match s with
  | y1 :: y2 :: y3 :: y4 :: c :: r =>
      if isdigit y1 && isdigit y2 && isdigit y3 && isdigit y4 && Ascii.eqb c "-"
      then
        match month_day (month_alts r) with
        | Some (m, d, rest) =>
            let y := int_of_digits [y1; y2; y3; y4] in
            let mo := int_of_digits m in
            let dy := int_of_digits d in
            match rest with
            | [] =>
                if (1 <=? y) && (1 <=? dy) && (dy <=? days_in_month y mo)
                then Some (mk_datetime y mo dy 0 0 0)
                else None
            | _ :: _ => None
            end
        | None => None
        end
      else None
  | _ => None
  end.

End DateTime.

Import DateTime.

(** ** [urllib.parse.quote] *)

Module Url.

(** Characters never quoted: ASCII letters, digits and [_.-~]. *)
Definition always_safe (c : ascii) : bool :=
  between "A" "Z" c || between "a" "z" c || between "0" "9" c
  || Ascii.eqb c "_" || Ascii.eqb c "." || Ascii.eqb c "-" || Ascii.eqb c "~".

(** The default [safe='/'] of [quote]. *)
Definition safe (c : ascii) : bool := always_safe c || Ascii.eqb c "/".

Definition hex_digit (n : N) : ascii :=
  nth (N.to_nat n) (lit "0123456789ABCDEF") "0"%char.

(** [%XX] for one byte. *)
Definition pct (b : N) : str :=
  ["%"%char; hex_digit (b / 16); hex_digit (b mod 16)].

(** One code point: kept when safe, else each byte of its UTF-8 encoding
    as [%XX] (two bytes from U+0080 on). *)
Definition quote_char (c : ascii) : str :=
  let n := code c in
  if (n <? 128)%N then (if safe c then [c] else pct n)
  else pct (192 + n / 64) ++ pct (128 + n mod 64).

Definition quote (s : str) : str := flat_map quote_char s.

End Url.

Import Url.

(** ** The two regular expressions of [update_text_file] *)

Module Re.

(** [\d{2}/\d{2}/\d{4}] anchored at the head of [s]: the text after it. *)
Definition match_date (s : str) : option str :=
  match s with
  | m1 :: m2 :: s1 :: d1 :: d2 :: s2 :: y1 :: y2 :: y3 :: y4 :: rest =>
      if isdigit m1 && isdigit m2 && Ascii.eqb s1 "/"
         && isdigit d1 && isdigit d2 && Ascii.eqb s2 "/"
         && isdigit y1 && isdigit y2 && isdigit y3 && isdigit y4
      then Some rest else None
  | _ => None
  end.

(** [re.search(r'\d{2}/\d{2}/\d{4}', s)], as a truth value. *)
Fixpoint search_date (s : str) : bool :=
  match s with
  | [] => false
  | _ :: t =>
      match match_date s with
      | Some _ => true
      | None => search_date t
      end
  end.

(** The literal [CMS] at the head of [s]. *)
Definition match_CMS (s : str) : option str :=
  match s with
  | c :: m :: s' :: rest =>
      if Ascii.eqb c "C" && Ascii.eqb m "M" && Ascii.eqb s' "S"
      then Some rest else None
  | _ => None
  end.

(** [\s*CMS]: the star is greedy, so one more blank is consumed first and
    the literal is tried here only when that fails. *)
Fixpoint spaces_CMS (s : str) : option str :=
  match s with
  | c :: t =>
      if isspace c then
        match spaces_CMS t with
        | Some rest => Some rest
        | None => match_CMS s
        end
      else match_CMS s
  | [] => None
  end.

(** [(\d{2}/\d{2}/\d{4})\s+CMS] anchored at the head of [s]. *)
Definition match_date_CMS (s : str) : option str :=
  match match_date s with
  | Some (c :: t) => if isspace c then spaces_CMS t else None
  | _ => None
  end.

(** [re.sub(r'(\d{2}/\d{2}/\d{4})\s+CMS', repl, s)] where [repl] has no
    backslash: scan from the left, and at each position either replace the
    match that starts there and resume after it, or copy one character.
    [skip] counts the characters of a replaced match still to be passed
    over. *)
Fixpoint sub_from (repl : str) (skip : nat) (s : str) : str :=
  match s with
  | [] => []
  | c :: t =>
      match skip with
      | S k => sub_from repl k t
      | O =>
          match match_date_CMS s with
          | Some rest => repl ++ sub_from repl (length t - length rest) t
          | None => c :: sub_from repl 0 t
          end
      end
  end.

Definition sub_date_CMS (repl s : str) : str := sub_from repl 0 s.

(** [re.search(r'(\d{2}/\d{2}/\d{4})\s+CMS', s)], as a truth value. *)
Fixpoint search_date_CMS (s : str) : bool :=
  match s with
  | [] => false
  | _ :: t =>
      match match_date_CMS s with
      | Some _ => true
      | None => search_date_CMS t
      end
  end.

(** What the pattern matches: a date [d] and a non-empty run of blanks
    [ws], with the marker to follow. *)
Definition date_blanks (d ws : str) : Prop :=
  match_date d = Some [] /\ ws <> [] /\ forallb isspace ws = true.

(** The substitution, told as a scan from the left: where a date, blanks
    and the marker start, they give way to [repl] and the scan resumes
    after the marker; where they do not, one character is copied. *)
Inductive scan (repl : str) : str -> str -> Prop :=
| scan_end : scan repl [] []
| scan_replace (d ws post post' : str) :
    date_blanks d ws ->
    scan repl post post' ->
    scan repl (d ++ ws ++ lit "CMS" ++ post) (repl ++ post')
| scan_copy (c : ascii) (t t' : str) :
    (forall d ws post,
       date_blanks d ws -> c :: t <> d ++ ws ++ lit "CMS" ++ post) ->
    scan repl t t' ->
    scan repl (c :: t) (c :: t').

End Re.

Import Re.

(** ** The remote service and the local files, as a world *)

Module Remote.

(** A field of a JSON object of a response: absent, [null], or a string. *)
Inductive jfield := Missing | Null | Str (s : str).

(** One element of [d.results], with the fields the scripts read. *)
Record entry := mk_entry {
  Name : jfield;
  ID : option Z;
  Date_x0020_Added : jfield;
  FileLeafRef : jfield;
  Title : jfield;
  Mon_x0020_Description : jfield
}.

(** What [response.json()] gives: it raises, or it is an object without
    [d.results], or it holds a result list. *)
Inductive json_body := NotJson | NoResults | Results (l : list entry).

(** What a call of the session leaves its caller with.  Either a reply:
    [status_ok] then tells whether [raise_for_status] passes, and when it
    does not, the [HTTPError] it raises carries the reply as its
    [response].  Or no reply: the call itself raised one of the exceptions
    of requests (connection error, timeout), whose [response] is [None]. *)
Inductive response :=
| mk_response (status_ok : bool) (text : str) (json : json_body)
| no_reply.

(** False when the request raised or when [raise_for_status] would. *)
Definition status_ok (r : response) : bool :=
  match r with
  | mk_response ok _ _ => ok
  | no_reply => false
  end.

Definition text (r : response) : str :=
  match r with
  | mk_response _ t _ => t
  | no_reply => []
  end.

Definition json (r : response) : json_body :=
  match r with
  | mk_response _ _ j => j
  | no_reply => NotJson
  end.

(** An exchange answered with an error status. *)
Definition error_reply (r : response) : bool :=
  match r with
  | mk_response false _ _ => true
  | _ => false
  end.

(** An exception, as a handler of the form
    [[
      except Exception as e:
          ...
          if hasattr(e, 'response'):
              ... e.response.status_code ... e.response.text ...
          return v
    ]]
    meets it.  [WithReply]: [e.response] is the reply, the handler logs
    it and returns.  [WithoutReply]: [e.response] is [None], so reading
    its [status_code] raises [AttributeError] and the handler is left by
    that exception.  [Plain]: the exception has no [response] attribute
    ([KeyError], [TypeError], [AttributeError], a raised [Exception]) and
    the handler returns. *)
Inductive exn := WithReply | WithoutReply | Plain.

(** The exception of an exchange whose [status_ok] is false. *)
Definition exchange_error (r : response) : exn :=
  match r with
  | mk_response _ _ _ => WithReply
  | no_reply => WithoutReply
  end.

(** A [try] block that returned [a] or was left by an exception, under a
    handler of the form above that returns [default]; [None] when the
    handler itself raises. *)
Definition handled {A : Type} (default : A) (r : A + exn) : option A :=
  match r with
  | inl a => Some a
  | inr WithoutReply => None
  | inr _ => Some default
  end.

Inductive request :=
| GET (url : str)
| POST (url : str) (body : option str)
| PUT (url : str) (body : str).

Inductive event :=
| Http (r : request)
| Backup (point_number file_name content : str)
| SaveResults (successful failed : list (Z * str)).

(** The collaborators: the session, the backup directory (its answer is
    false when creating the directory or writing the file raises), the
    results file, and the installed requests library as far as the scripts
    can tell versions apart: [requests_json_error] says that
    [response.json()] reports a body that is not JSON with the library's
    own [JSONDecodeError] (version 2.27 and later), an exception of
    requests whose [response] is [None], and not with a plain
    [ValueError]. *)
Record ops (W : Type) := mk_ops {
  send : W -> request -> W * response;
  write_backup : W -> str -> str -> str -> W * bool;
  write_results : W -> list (Z * str) -> list (Z * str) -> W * bool;
  requests_json_error : bool
}.

(** The exception of [response.json()] on a body that is not JSON. *)
Definition json_error {W : Type} (o : ops W) : exn :=
  if requests_json_error o then WithoutReply else Plain.

Record state (W : Type) := mk_state { world : W; trace : list event }.

Definition M (W A : Type) : Type := state W -> A * state W.

Definition ret {W A} (a : A) : M W A := fun s => (a, s).

Definition bind {W A B} (c : M W A) (k : A -> M W B) : M W B :=
  fun s => let (a, s') := c s in k a s'.

Definition http {W} (o : ops W) (r : request) : M W response :=
  fun s =>
    let (w, resp) := send o (world s) r in
    (resp, mk_state w (trace s ++ [Http r])).

Definition backup {W} (o : ops W) (pn fn content : str) : M W bool :=
  fun s =>
    let (w, ok) := write_backup o (world s) pn fn content in
    (ok, mk_state w (trace s ++ [Backup pn fn content])).

Definition save {W} (o : ops W) (succ failed : list (Z * str)) : M W bool :=
  fun s =>
    let (w, ok) := write_results o (world s) succ failed in
    (ok, mk_state w (trace s ++ [SaveResults succ failed])).

(** A request that changes the remote library. *)
Definition is_mutation (e : event) : bool :=
  match e with
  | Http (POST _ _) | Http (PUT _ _) => true
  | _ => false
  end.

Definition is_put (e : event) : bool :=
  match e with
  | Http (PUT _ _) => true
  | _ => false
  end.

(** A rename: the only [POST] without a body. *)
Definition is_move (e : event) : bool :=
  match e with
  | Http (POST _ None) => true
  | _ => false
  end.

(** The events a computation adds to the trace when run from [s]. *)
Definition issued {W A} (c : M W A) (s : state W) : list event :=
  skipn (length (trace s)) (trace (snd (c s))).

Definition result {W A} (c : M W A) (s : state W) : A := fst (c s).

(** A service that answers every request with [r], and local files whose
    writes succeed or fail as given; the requests library is a current
    one. *)
Definition const_ops (r : response) (backup_ok save_ok : bool) : ops unit :=
  mk_ops (fun w _ => (w, r)) (fun w _ _ _ => (w, backup_ok))
         (fun w _ _ => (w, save_ok)) true.

Definition start : state unit := mk_state tt [].

(** A service that answers its first [n] requests with [r] and gives no
    reply to any later one; the world counts the requests made. *)
Definition silent_after (n : nat) (r : response) : ops nat :=
  mk_ops (fun w _ => (S w, if w <? n then r else no_reply))
         (fun w _ _ _ => (w, true)) (fun w _ _ => (w, true)) true.

Definition start_at_0 : state nat := mk_state 0 [].

End Remote.

Import Remote.

Declare Scope monad_scope.
Notation "x <- c ;; k" := (bind c (fun x => k))
  (at level 61, c at next level, right associativity) : monad_scope.

(** ** [sharepoint_date_updater.py] *)

Module SharePointDateUpdater.

Local Open Scope monad_scope.

(** The fields of [SharePointPointUpdater] that build requests. *)
Record updater := mk_updater {
  base_url : str;
  site_name : str;
  library_name : str
}.

(** An element of the list [get_points_by_date_range] returns;
    [date_added] is [None] when the item has no such field. *)
Record point := mk_point {
  id : Z;
  date_added : option str;
  point_number : str
}.

(** The [new_date] argument of [update_text_file]: a string, a [datetime],
    or [None]. *)
Inductive date_arg :=
| DateStr (s : str)
| DateObj (d : datetime)
| DateNone.

Record results := mk_results {
  successful : list (Z * str);
  failed : list (Z * str)
}.

Definition date_added_field : str := lit "Date_x0020_Added".

(** Lines 45-49. *)
Definition date_filter (start_date : datetime) (end_date : option datetime)
  : str :=
  match end_date with
  | Some e =>
      date_added_field ++ lit " ge datetime'" ++ strftime_iso start_date
      ++ lit "' and " ++ date_added_field ++ lit " le datetime'"
      ++ strftime_iso e ++ lit "'"
  | None =>
      date_added_field ++ lit " ge datetime'" ++ strftime_iso start_date
      ++ lit "'"
  end.

(** Lines 51-54. *)
Definition query_url (self : updater) (start_date : datetime)
    (end_date : option datetime) : str :=
  base_url self ++ lit "/sites/" ++ site_name self
  ++ lit "/_api/web/lists/getbytitle('" ++ library_name self ++ lit "')/items"
  ++ lit "?$select=ID," ++ date_added_field
  ++ lit ",FileLeafRef,Title&$filter="
  ++ quote (date_filter start_date end_date) ++ lit "&$top=5000".

(** Line 86. *)
Definition folder_url (self : updater) (point_number : str) : str :=
  base_url self ++ lit "/sites/" ++ site_name self
  ++ lit "/_api/web/GetFolderByServerRelativeUrl('/sites/" ++ site_name self
  ++ lit "/" ++ library_name self ++ lit "/" ++ point_number ++ lit "')/Files".

(** Lines 110 and 215. *)
Definition file_url (self : updater) (point_number file_name : str) : str :=
  base_url self ++ lit "/sites/" ++ site_name self
  ++ lit "/_api/web/GetFileByServerRelativeUrl('/sites/" ++ site_name self
  ++ lit "/" ++ library_name self ++ lit "/" ++ point_number ++ lit "/"
  ++ file_name ++ lit "')/$value".

(** Lines 148-151. *)
Definition move_url (self : updater) (point_number old_file_name
    new_file_name : str) : str :=
  let old_file_url :=
    lit "/sites/" ++ site_name self ++ lit "/" ++ library_name self
    ++ lit "/" ++ point_number ++ lit "/" ++ old_file_name in
  let new_file_url :=
    lit "/sites/" ++ site_name self ++ lit "/" ++ library_name self
    ++ lit "/" ++ point_number ++ lit "/" ++ new_file_name in
  base_url self ++ lit "/sites/" ++ site_name self
  ++ lit "/_api/web/GetFileByServerRelativeUrl('" ++ old_file_url
  ++ lit "')/MoveTo(newUrl='" ++ new_file_url ++ lit "',flags=1)".

(** Line 65: [item.get('FileLeafRef', '') or item.get('Title', '')];
    [None] of the model is the value [None] of Python. *)
Definition leaf_or_title (item : entry) : option str :=
  let title :=
    match Title item with
    | Missing => Some []
    | Null => None
    | Str s => Some s
    end in
  match FileLeafRef item with
  | Str s => if truthy s then Some s else title
  | _ => title
  end.

(** Lines 65-72 for one item; [None] where the body raises ([startswith]
    on [None], or no ['ID'] key). *)
Definition point_of_item (item : entry) : option point :=
  match leaf_or_title item, ID item with
  | Some name, Some i =>
      let number :=
        if startswith (lit "Point ") name then skipn 6 name else name in
      let added :=
        match Date_x0020_Added item with
        | Str s => Some s
        | _ => None
        end in
      Some (mk_point i added number)
  | _, _ => None
  end.

(** Lines 63-74: the loop; one raising item loses the whole list. *)
Fixpoint points_of_items (items : list entry) : option (list point) :=
  match items with
  | [] => Some []
  | item :: more =>
      match point_of_item item, points_of_items more with
      | Some p, Some ps => Some (p :: ps)
      | _, _ => None
      end
  end.

(** Line 193, the test: ['CMS' in line and re.search(..., line)]. *)
Definition qualifies (line : str) : bool :=
  contains (lit "CMS") line && search_date line.

(** Line 196, the replacement text. *)
Definition replacement (new_date_str : str) : str :=
  new_date_str ++ [tab; tab] ++ lit "CMS".

(** Lines 192-202, one turn of the loop. *)
Definition patch_step (new_date_str : str) (acc : list str * nat)
    (line : str) : list str * nat :=
  let (updated_lines, updates_made) := acc in
  if qualifies line
  then (updated_lines ++ [sub_date_CMS (replacement new_date_str) line],
        updates_made + 1)
  else (updated_lines ++ [line], updates_made).

(** What one turn of the loop appends for [line]. *)
Definition update_line (new_date_str line : str) : str :=
  if qualifies line then sub_date_CMS (replacement new_date_str) line
  else line.

(** Lines 188-202. *)
Definition patch_lines (new_date_str : str) (content : str)
  : list str * nat :=
  fold_left (patch_step new_date_str) (split_lines content) ([], 0).

(** Lines 183-186; [None] where [strptime] or [strftime] raises. *)
Definition new_date_str_of (new_date : date_arg) : option str :=
  match new_date with
  | DateStr s => option_map strftime_mdY (strptime_Ymd (before_T s))
  | DateObj d => Some (strftime_mdY d)
  | DateNone => None
  end.

(** Line 180. *)
Definition desired_file_name (point_number : str) : str :=
  lit "Point " ++ point_number ++ lit ".txt".

(** Line 181. *)
Definition rename_needed (point_number file_name : str) : bool :=
  negb (str_eqb (lower file_name) (lower (desired_file_name point_number))).

(** The [{'id': ..., 'number': ...}] entry of a point in the results. *)
Definition ident (p : point) : Z * str := (id p, point_number p).

(** Lines 254-255: [if max_points: points = points[:max_points]]. *)
Definition limit_points (max_points : option Z) (points : list point)
  : list point :=
  match max_points with
  | None => points
  | Some n =>
      if (n =? 0)%Z then points
      else if (0 <? n)%Z then firstn (Z.to_nat n) points
      else firstn (length points - Z.to_nat (- n)) points
  end.

Section Run.

Context {W : Type}.
Variable o : ops W.
Variable self : updater.

(** Lines 41-74, the [try] block: the list it returns, or the exception
    that leaves it.  An answer without [d.results] gives the empty list
    through the defaults of [get]. *)
Definition get_points_by_date_range_try (start_date : datetime)
    (end_date : option datetime) : M W (list point + exn) :=
  response <- http o (GET (query_url self start_date end_date)) ;;
  ret (if status_ok response then
         match json response with
         | NotJson => inr (json_error o)
         | NoResults => inl []
         | Results items =>
             match points_of_items items with
             | Some ps => inl ps
             | None => inr Plain
             end
         end
       else inr (exchange_error response)).

(** Lines 39-81: the block under the handler of lines 76-81, which returns
    [[]]; [None] when the handler raises, which neither
    [process_multiple_points] nor [main] catches. *)
Definition get_points_by_date_range (start_date : datetime)
    (end_date : option datetime) : M W (option (list point)) :=
  r <- get_points_by_date_range_try start_date end_date ;;
  ret (handled [] r).

(** Lines 94-101: the first name that ends in [.txt]; the outer [None] is
    an exception ([lower] on a [null] name). *)
Fixpoint first_txt (files : list entry) : option (option str) :=
  match files with
  | [] => Some None
  | file :: more =>
      match Name file with
      | Missing => first_txt more
      | Null => None
      | Str file_name =>
          if endswith (lit ".txt") (lower file_name)
          then Some (Some file_name) else first_txt more
      end
  end.

(** Lines 83-105. *)
Definition get_text_file_name (point_number : str) : M W (option str) :=
  response <- http o (GET (folder_url self point_number)) ;;
  ret (if status_ok response then
         match json response with
         | NotJson => None
         | NoResults => None
         | Results files =>
             match first_txt files with
             | Some r => r
             | None => None
             end
         end
       else None).

(** Lines 107-119. *)
Definition get_text_file_content (point_number file_name : str)
  : M W (option str) :=
  response <- http o (GET (file_url self point_number file_name)) ;;
  ret (if status_ok response then Some (text response) else None).

(** Lines 121-143. *)
Definition download_original_file (point_number file_name : str)
  : M W bool :=
  content <- get_text_file_content point_number file_name ;;
  match content with
  | None => ret false
  | Some content => backup o point_number file_name content
  end.

(** Lines 172-178 on their own: the backup, then the content the patch
    works on; [None] when either fails. *)
Definition content_read (point_number file_name : str) : M W (option str) :=
  backed_up <- download_original_file point_number file_name ;;
  if negb backed_up then ret None
  else get_text_file_content point_number file_name.

(** Lines 145-167. *)
Definition rename_sharepoint_file (point_number old_file_name
    new_file_name : str) : M W bool :=
  response <- http o (POST (move_url self point_number old_file_name
                              new_file_name) None) ;;
  ret (status_ok response).

(** Lines 210-228: the optional rename, then the write. *)
Definition write_updated (point_number file_name updated_content : str)
  : M W bool :=
  file_name <-
    (if rename_needed point_number file_name then
       _ <- rename_sharepoint_file point_number file_name
              (desired_file_name point_number) ;;
       ret (desired_file_name point_number)
     else ret file_name) ;;
  response <- http o (PUT (file_url self point_number file_name)
                        updated_content) ;;
  ret (status_ok response).

(** Lines 169-232. *)
Definition update_text_file (point_number file_name : str)
    (new_date : date_arg) : M W bool :=
  backed_up <- download_original_file point_number file_name ;;
  if negb backed_up then ret false
  else
    content <- get_text_file_content point_number file_name ;;
    match content with
    | None => ret false
    | Some content =>
        match new_date_str_of new_date with
        | None => ret false
        | Some new_date_str =>
            let (updated_lines, updates_made) :=
              patch_lines new_date_str content in
            if updates_made =? 0 then ret false
            else write_updated point_number file_name
                   (join_lines updated_lines)
        end
    end.

(** Lines 234-242. *)
Definition process_single_point (point_id : Z) (point_number : str)
    (date_added : option str) : M W bool :=
  file_name <- get_text_file_name point_number ;;
  match file_name with
  | None => ret false
  | Some file_name =>
      if truthy file_name then
        update_text_file point_number file_name
          (match date_added with
           | Some s => DateStr s
           | None => DateNone
           end)
      else ret false
  end.

(** Lines 263-280: the loop over the points; [None] when [save_results]
    raises, which nothing catches. *)
Fixpoint process_points (points : list point) (res : results)
  : M W (option results) :=
  match points with
  | [] => ret (Some res)
  | p :: more =>
      ok <- process_single_point (id p) (point_number p) (date_added p) ;;
      let res' :=
        if ok
        then mk_results (successful res ++ [(id p, point_number p)])
                        (failed res)
        else mk_results (successful res)
                        (failed res ++ [(id p, point_number p)]) in
      saved <- save o (successful res') (failed res') ;;
      if saved then process_points more res' else ret None
  end.

(** Lines 244-282; [None] when the query or [save_results] raises. *)
Definition process_multiple_points (start_date : datetime)
    (end_date : option datetime) (max_points : option Z)
  : M W (option results) :=
  points <- get_points_by_date_range start_date end_date ;;
  match points with
  | None => ret None
  | Some [] => ret (Some (mk_results [] []))
  | Some points =>
      process_points (limit_points max_points points) (mk_results [] [])
  end.

End Run.

End SharePointDateUpdater.

(** ** [point_history_updater.py] *)

Module PointHistoryUpdater.

Local Open Scope monad_scope.

Record VRSObservation := mk_obs {
  document_num : str;
  work_order : str;
  control_used : str;
  point_number : str;
  township_range : str;
  section : str;
  date_observed : str;
  monument_type : option str
}.

Definition set_monument_type (obs : VRSObservation) (mt : option str)
  : VRSObservation :=
  mk_obs (document_num obs) (work_order obs) (control_used obs)
         (point_number obs) (township_range obs) (section obs)
         (date_observed obs) mt.

(** The fields of [SharePointVRSUpdater] that build requests and text. *)
Record updater := mk_updater {
  base_url : str;
  site_name : str;
  library_name : str;
  monument_permit : option str
}.

(** Truth value of an optional string: present and non-empty. *)
Definition truthy_opt (s : option str) : bool :=
  match s with
  | Some s => truthy s
  | None => false
  end.

(** Line 91. *)
Definition permit_text (self : updater) : str :=
  match monument_permit self with
  | Some p => if truthy p then p ++ lit " " else []
  | None => []
  end.

(** Line 92. *)
Definition location_text (obs : VRSObservation) : str :=
  lit "Section " ++ section obs ++ lit ", " ++ township_range obs.

(** Line 93. *)
Definition monument_type_text (obs : VRSObservation) : str :=
  match monument_type obs with
  | Some t => if truthy t then lit " (" ++ t ++ lit ")" else []
  | None => []
  end.

(** Lines 90-97: the entry; [now] is what [datetime.now()] returns. *)
Definition new_entry (self : updater) (obs : VRSObservation)
    (observer initials : str) (now : datetime) : str :=
  let current_date := strftime_mdY now in
  ([nl; nl] ++ current_date ++ [tab] ++ initials ++ [tab]
   ++ lit "This monument" ++ monument_type_text obs
   ++ lit " was observed with VRS (" ++ document_num obs ++ lit ") using "
   ++ control_used obs ++ lit " and Geoid18")
  ++ ([nl; tab; tab; tab] ++ lit "as part of WO " ++ work_order obs
      ++ lit ". The purpose of this work order was to facilitate "
      ++ permit_text self)
  ++ ([nl; tab; tab; tab] ++ location_text obs
      ++ lit ". Monument observed by " ++ observer ++ lit " on "
      ++ date_observed obs ++ lit "." ++ [nl; nl]).

(** Lines 102-106: the text of the template before the entry. *)
Definition header_block (point_number : str) : str :=
  [nl] ++ lit "    POINT HISTORY FILE: for point " ++ point_number
  ++ [nl; nl] ++ lit "(mm/dd/yyyy) " ++ [tab] ++ lit "(initials)"
  ++ [tab; tab] ++ lit "ACTION/REMARKS" ++ [nl]
  ++ repeat "-"%char 89 ++ [nl].

(** The words that name the header line. *)
Definition marker : str := lit "ACTION/REMARKS".

(** A word of the fixed text of every entry. *)
Definition entry_word : str := lit "Geoid18".

(** The texts that come into an entry from outside the composer: the
    initials, the fields of the row, the observer, and the monument type
    and the permit when there are any. *)
Definition entry_fields (self : updater) (obs : VRSObservation)
    (observer initials : str) : list str :=
  [initials; document_num obs; control_used obs; work_order obs;
   section obs; township_range obs; observer; date_observed obs]
  ++ match monument_type obs with
     | Some t => [t]
     | None => []
     end
  ++ match monument_permit self with
     | Some p => [p]
     | None => []
     end.

(** How often [p] occurs inside the texts of [fields]. *)
Definition inside (p : str) (fields : list str) : nat :=
  list_sum (map (occurrences p) fields).

(** Lines 88-108. *)
Definition _create_point_history_content (self : updater)
    (obs : VRSObservation) (observer initials : str)
    (existing_content : option str) (now : datetime) : str :=
  let entry := new_entry self obs observer initials now in
  match existing_content with
  | Some existing =>
      if truthy existing then rstrip existing ++ entry
      else header_block (point_number obs) ++ entry
  | None => header_block (point_number obs) ++ entry
  end.

(** Lines 62-63. *)
Definition monument_url (self : updater) (point_number : str) : str :=
  (base_url self ++ lit "/sites/" ++ site_name self
   ++ lit "/_api/web/lists/getbytitle('" ++ library_name self
   ++ lit "')/items")
  ++ (lit "?$filter=Title eq '" ++ point_number
      ++ lit "'&$select=Mon_x0020_Description").

(** Lines 112 and 149. *)
Definition folder_path (self : updater) (point_number : str) : str :=
  quote (lit "/sites/" ++ site_name self ++ lit "/" ++ library_name self
         ++ lit "/" ++ point_number).

(** Lines 113 and 152. *)
Definition folder_url (self : updater) (point_number : str) : str :=
  base_url self ++ lit "/sites/" ++ site_name self
  ++ lit "/_api/web/GetFolderByServerRelativeUrl('"
  ++ folder_path self point_number ++ lit "')/Files".

(** Lines 124 and 162. *)
Definition file_path (self : updater) (point_number file_name : str) : str :=
  quote (lit "/sites/" ++ site_name self ++ lit "/" ++ library_name self
         ++ lit "/" ++ point_number ++ lit "/" ++ file_name).

(** Lines 125 and 163. *)
Definition file_url (self : updater) (point_number file_name : str) : str :=
  base_url self ++ lit "/sites/" ++ site_name self
  ++ lit "/_api/web/GetFileByServerRelativeUrl('"
  ++ file_path self point_number file_name ++ lit "')/$value".

(** Line 173. *)
Definition create_url (self : updater) (point_number : str) : str :=
  base_url self ++ lit "/sites/" ++ site_name self
  ++ lit "/_api/web/GetFolderByServerRelativeUrl('"
  ++ folder_path self point_number ++ lit "')/Files/Add(url='Point "
  ++ point_number ++ lit ".txt')".

(** Lines 120 and 157: [next((f for f in files if
    f['Name'].lower().endswith('.txt')), None)]; the outer [None] is an
    exception (no ['Name'] key, or a [null] name) met before a match. *)
Fixpoint first_txt (files : list entry) : option (option str) :=
  match files with
  | [] => Some None
  | f :: more =>
      match Name f with
      | Str file_name =>
          if endswith (lit ".txt") (lower file_name)
          then Some (Some file_name) else first_txt more
      | _ => None
      end
  end.

Section Run.

Context {W : Type}.
Variable o : ops W.
Variable self : updater.

(** Lines 61-79, the [try] block: what it returns, or the exception that
    leaves it ([data['d']['results']] raises [KeyError] on an answer
    without that list). *)
Definition get_monument_type_try (point_number : str)
  : M W (option str + exn) :=
  response <- http o (GET (monument_url self point_number)) ;;
  ret (if status_ok response then
         match json response with
         | NotJson => inr (json_error o)
         | NoResults => inr Plain
         | Results [] => inl None
         | Results (first :: _) =>
             match Mon_x0020_Description first with
             | Str t => inl (if truthy t then Some t else None)
             | _ => inl None
             end
         end
       else inr (exchange_error response)).

(** Lines 60-86: the block under the handler of lines 81-86, which returns
    [None]; the outer [None] of the model is the handler raising. *)
Definition get_monument_type (point_number : str)
  : M W (option (option str)) :=
  r <- get_monument_type_try point_number ;;
  ret (handled None r).

(** Lines 119-120 and 156-157: [response.json()['d']['results']], then
    [first_txt]. *)
Definition text_file_of (response : Remote.response) : option str + exn :=
  match json response with
  | NotJson => inr (json_error o)
  | NoResults => inr Plain
  | Results files =>
      match first_txt files with
      | Some text_file => inl text_file
      | None => inr Plain
      end
  end.

(** Lines 111-134, the [try] block. *)
Definition get_existing_content_try (point_number : str)
  : M W (option str + exn) :=
  response <- http o (GET (folder_url self point_number)) ;;
  if status_ok response then
    match text_file_of response with
    | inl (Some file_name) =>
        response <- http o (GET (file_url self point_number file_name)) ;;
        ret (if status_ok response then inl (Some (text response))
             else inr (exchange_error response))
    | inl None => ret (inl None)
    | inr e => ret (inr e)
    end
  else ret (inr (exchange_error response)).

(** Lines 110-141: the block under the handler of lines 136-141, which
    returns [None]; the outer [None] of the model is the handler
    raising. *)
Definition get_existing_content (point_number : str)
  : M W (option (option str)) :=
  r <- get_existing_content_try point_number ;;
  ret (handled None r).

(** Lines 151-171 and 181: the branch that overwrites the file found. *)
Definition update_existing (point_number content : str)
  : M W (bool + exn) :=
  response <- http o (GET (folder_url self point_number)) ;;
  if status_ok response then
    match text_file_of response with
    | inl (Some file_name) =>
        response <- http o (PUT (file_url self point_number file_name)
                              content) ;;
        ret (if status_ok response then inl true
             else inr (exchange_error response))
    | inl None => ret (inr Plain)
    | inr e => ret (inr e)
    end
  else ret (inr (exchange_error response)).

(** Lines 172-181: the branch that creates [Point {point_number}.txt]. *)
Definition create_new (point_number content : str) : M W (bool + exn) :=
  response <- http o (POST (create_url self point_number) (Some content)) ;;
  ret (if status_ok response then inl true
       else inr (exchange_error response)).

(** Lines 144-183, the [try] block.  When the handler of one of the two
    calls of lines 145 and 146 raises, it is an [AttributeError] that
    leaves the block here, an exception without [response]. *)
Definition update_point_history_try (obs : VRSObservation)
    (observer initials : str) (now : datetime) : M W (bool + exn) :=
  mt <- get_monument_type (point_number obs) ;;
  match mt with
  | None => ret (inr Plain)
  | Some mt =>
      let obs := set_monument_type obs mt in
      existing_content <- get_existing_content (point_number obs) ;;
      match existing_content with
      | None => ret (inr Plain)
      | Some existing_content =>
          let content :=
            _create_point_history_content self obs observer initials
              existing_content now in
          if truthy_opt existing_content
          then update_existing (point_number obs) content
          else create_new (point_number obs) content
      end
  end.

(** Lines 143-190: the block under the handler of lines 185-190, which
    returns [False]; [None] when the handler raises. *)
Definition update_point_history (obs : VRSObservation)
    (observer initials : str) (now : datetime) : M W (option bool) :=
  r <- update_point_history_try obs observer initials now ;;
  ret (handled false r).

End Run.

End PointHistoryUpdater.

(** ** Concrete data for the examples *)

Module Scenario.

Definition date_updater : SharePointDateUpdater.updater :=
  SharePointDateUpdater.mk_updater
    (lit "https://sp.example") (lit "Survey") (lit "Points").

Definition vrs_updater : PointHistoryUpdater.updater :=
  PointHistoryUpdater.mk_updater
    (lit "https://sp.example") (lit "Survey") (lit "Points") None.

(** A successful response carrying [t] as its text. *)
Definition ok_text (t : str) : response := mk_response true t NotJson.

(** An exchange answered with an error status. *)
Definition failure : response := mk_response false [] NotJson.

(** An item of a query result or of a folder listing. *)
Definition item (i : Z) (name leaf : string) : entry :=
  mk_entry (Str (lit name)) (Some i) (Str (lit "2024-06-15T00:00:00Z"))
           (Str (lit leaf)) Missing Missing.

(** A response that is at once a listing with one text file, a query
    result with one point, and a file whose line carries the marker. *)
Definition ok_listing : response :=
  mk_response true
    (lit "06/01/2023" ++ [tab; tab] ++ lit "CMS" ++ [tab] ++ lit "note")
    (Results [item 7 "Point 101.txt" "Point 101"]).

Definition june_15 : datetime := mk_datetime 2024 6 15 0 0 0.

(** A row whose point number reads like the header line. *)
Definition row_like_header : PointHistoryUpdater.VRSObservation :=
  PointHistoryUpdater.mk_obs
    (lit "DOC-1") (lit "WO-5") (lit "VRS-Net") (lit "ACTION/REMARKS")
    (lit "T1N R1E") (lit "12") (lit "01/02/2024") None.

(** The row of scenario A, with the monument type the lookup returned. *)
Definition row_A : PointHistoryUpdater.VRSObservation :=
  PointHistoryUpdater.mk_obs
    (lit "DOC-1") (lit "WO-5") (lit "VRS-Net") (lit "101") (lit "T1N R1E")
    (lit "12") (lit "01/02/2024") (Some (lit "Brass Cap")).

End Scenario.

(** ** The constructors, the read-only requests and the CSV loop *)

Module PyText.

(** [s.lstrip()] *)
Fixpoint lstrip (s : str) : str :=
  match s with
  | [] => []
  | c :: t => if isspace c then lstrip t else s
  end.

(** [s.strip()] *)
Definition strip (s : str) : str := rstrip (lstrip s).

(** [s.rstrip('/')] *)
Fixpoint rstrip_slash (s : str) : str :=
  match s with
  | [] => []
  | c :: t =>
      match rstrip_slash t with
      | [] => if Ascii.eqb c "/" then [] else [c]
      | r => c :: r
      end
  end.

End PyText.

Import PyText.

Module Trace.

Definition is_get (e : event) : bool :=
  match e with
  | Http (GET _) => true
  | _ => false
  end.


(** Whatever the state it starts from, [c] only adds events to the trace,
    and every event it adds satisfies [P]. *)
Definition emits {W A} (P : event -> bool) (c : M W A) : Prop :=
  forall s, exists evs,
    trace (snd (c s)) = trace s ++ evs /\ forallb P evs = true.


End Trace.

Import Trace.

Module Construct.

(** Line 15 of [sharepoint_date_updater.py]: the fields of the object that
    reach the requests. *)
Definition SharePointPointUpdater (base_url site_name library_name : str)
  : SharePointDateUpdater.updater :=
  SharePointDateUpdater.mk_updater (rstrip_slash base_url) site_name
    library_name.

(** Lines 29-32 of [point_history_updater.py]. *)
Definition SharePointVRSUpdater (base_url site_name library_name : str)
    (monument_permit : option str) : PointHistoryUpdater.updater :=
  PointHistoryUpdater.mk_updater (rstrip_slash base_url) site_name
    library_name monument_permit.

End Construct.

(** ** [process_vrs_csv] *)

Module VrsCsv.

Import PointHistoryUpdater.

Local Open Scope monad_scope.

(** A row as [csv.DictReader] yields it: the items of its dict, that is
    the cells under the (distinct, already stripped) header names, with
    [None] for a cell the line is too short to fill; and whether the line
    had cells beyond the header, which the reader keeps as a list under
    the key [None]. *)
Record csv_row := mk_row {
  cells : list (str * option str);
  overflow : bool
}.

Definition dict := list (str * str).

(** [d.get(k)] for a dict built pair after pair: a later pair overrides an
    earlier one with the same key. *)
Fixpoint dict_get (d : dict) (k : str) : option str :=
  match d with
  | [] => None
  | (k', v) :: more =>
      match dict_get more k with
      | Some v' => Some v'
      | None => if str_eqb k' k then Some v else None
      end
  end.

(** [results[k] = v] *)
Fixpoint dict_set (r : list (str * bool)) (k : str) (v : bool)
  : list (str * bool) :=
  match r with
  | [] => [(k, v)]
  | (k', v') :: more =>
      if str_eqb k' k then (k', v) :: more else (k', v') :: dict_set more k v
  end.

(** Line 201: [any(row.values())]; the list of extra cells is never
    empty. *)
Definition any_values (row : csv_row) : bool :=
  existsb (fun kv => truthy_opt (snd kv)) (cells row) || overflow row.

(** Line 205, the comprehension over the cells; [None] where [v.strip()]
    raises on a [None] cell. *)
Fixpoint clean_cells (cs : list (str * option str)) : option dict :=
  match cs with
  | [] => Some []
  | (k, Some v) :: more =>
      match clean_cells more with
      | Some d => Some ((strip k, strip v) :: d)
      | None => None
      end
  | (_, None) :: _ => None
  end.

(** Line 205; [None] where it raises: a [None] cell, or the [None] key of
    the extra cells. *)
Definition clean (row : csv_row) : option dict :=
  match clean_cells (cells row) with
  | Some d => if overflow row then None else Some d
  | None => None
  end.

(** Lines 206-207. *)
Definition required_fields : list str :=
  [lit "DOCUMENT_NUM"; lit "WORK_ORDER"; lit "CONTROL_USED";
   lit "PNT_OBSERVED"; lit "Township_Range"; lit "Section";
   lit "Date_Observed"].

(** Line 209. *)
Definition complete (d : dict) : bool :=
  forallb (fun field => truthy_opt (dict_get d field)) required_fields.

(** [cleaned_row[k]], read after line 209 has found the key. *)
Definition field (d : dict) (k : string) : str :=
  match dict_get d (lit k) with
  | Some v => v
  | None => []
  end.

(** Lines 210-218. *)
Definition obs_of (d : dict) : VRSObservation :=
  mk_obs (field d "DOCUMENT_NUM") (field d "WORK_ORDER")
         (field d "CONTROL_USED") (field d "PNT_OBSERVED")
         (field d "Township_Range") (field d "Section")
         (field d "Date_Observed") None.

(** The observations of the rows that reach line 210, in the order of the
    file. *)
Definition observations (rows : list csv_row) : list VRSObservation :=
  flat_map (fun row =>
              if any_values row then
                match clean row with
                | Some d => if complete d then [obs_of d] else []
                | None => []
                end
              else [])
           rows.

(** Line 224: [cleaned_row.get('PNT_OBSERVED', 'unknown')]. *)
Definition point_or_unknown (d : dict) : str :=
  match dict_get d (lit "PNT_OBSERVED") with
  | Some v => v
  | None => lit "unknown"
  end.

Section Run.

Context {W : Type}.
Variable o : ops W.
Variable self : updater.
Variable observer initials : str.

(** What [datetime.now()] returns while the row at a given position is
    processed. *)
Variable clock : nat -> datetime.

(** Lines 200-226: the loop.  [cleaned_row] is the local variable of that
    name: unbound before the first row whose comprehension succeeds, and
    left as it was by a row that is skipped or whose comprehension raises.
    The handler of line 223 reads it; when it is unbound the handler
    itself raises, the outer handler of line 228 takes over and the loop
    is left.  The same handler catches what [update_point_history] raises
    out of its own handler, with [cleaned_row] the row at hand. *)
Fixpoint process_rows (rows : list csv_row) (i : nat)
    (cleaned_row : option dict) (results : list (str * bool))
  : M W (list (str * bool)) :=
  match rows with
  | [] => ret results
  | row :: more =>
      if negb (any_values row)
      then process_rows more (S i) cleaned_row results
      else
        match clean row with
        | Some d =>
            if complete d then
              success <- update_point_history o self (obs_of d) observer
                           initials (clock i) ;;
              process_rows more (S i) (Some d)
                (match success with
                 | Some success =>
                     dict_set results (point_number (obs_of d)) success
                 | None => dict_set results (point_or_unknown d) false
                 end)
            else process_rows more (S i) (Some d) results
        | None =>
            match cleaned_row with
            | Some stale =>
                process_rows more (S i) cleaned_row
                  (dict_set results (point_or_unknown stale) false)
            | None => ret results
            end
        end
  end.

(** Lines 192-231; [None] for a file that cannot be opened or has no
    header line. *)
Definition process_vrs_csv (file : option (list csv_row))
  : M W (list (str * bool)) :=
  match file with
  | Some rows => process_rows rows 0 None []
  | None => ret []
  end.

End Run.

End VrsCsv.

(** ** More concrete data for the examples *)

Module Examples.

(** A file whose only line names the marker before the date. *)
Definition marker_first : response :=
  mk_response true (lit "CMS 01/02/2024") NotJson.

(** A listing with one text file whose content is empty. *)
Definition empty_file : response :=
  mk_response true [] (Results [Scenario.item 7 "Point 101.txt" "Point 101"]).

(** An item that lacks its [ID]. *)
Definition no_id : entry :=
  mk_entry Missing None Missing (Str (lit "Point 102")) Missing Missing.

Definition with_bad_item : response :=
  mk_response true []
    (Results [Scenario.item 7 "Point 101.txt" "Point 101"; no_id]).

Definition point_101 : SharePointDateUpdater.point :=
  SharePointDateUpdater.mk_point 7 (Some (lit "2024-06-15T00:00:00Z"))
    (lit "101").


(** A complete row of the CSV file. *)
Definition full_row : VrsCsv.csv_row :=
  VrsCsv.mk_row
    [(lit "DOCUMENT_NUM", Some (lit "DOC-1"));
     (lit "WORK_ORDER", Some (lit "WO-5"));
     (lit "CONTROL_USED", Some (lit "VRS-Net"));
     (lit "PNT_OBSERVED", Some (lit " 101 "));
     (lit "Township_Range", Some (lit "T1N R1E"));
     (lit "Section", Some (lit "12"));
     (lit "Date_Observed", Some (lit "01/02/2024"))]
    false.

(** What line 205 makes of [full_row]. *)
Definition full_dict : VrsCsv.dict :=
  [(lit "DOCUMENT_NUM", lit "DOC-1"); (lit "WORK_ORDER", lit "WO-5");
   (lit "CONTROL_USED", lit "VRS-Net"); (lit "PNT_OBSERVED", lit "101");
   (lit "Township_Range", lit "T1N R1E"); (lit "Section", lit "12");
   (lit "Date_Observed", lit "01/02/2024")].

(** A line with fewer cells than the header. *)
Definition short_row : VrsCsv.csv_row :=
  VrsCsv.mk_row
    [(lit "DOCUMENT_NUM", Some (lit "DOC-2"));
     (lit "WORK_ORDER", None)]
    false.

(** A row without its work order. *)
Definition partial_row : VrsCsv.csv_row :=
  VrsCsv.mk_row
    [(lit "DOCUMENT_NUM", Some (lit "DOC-3"));
     (lit "WORK_ORDER", Some (lit "  "));
     (lit "PNT_OBSERVED", Some (lit "103"))]
    false.

Definition blank_row : VrsCsv.csv_row :=
  VrsCsv.mk_row [(lit "DOCUMENT_NUM", Some []); (lit "WORK_ORDER", Some [])]
    false.

Definition noon (i : nat) : datetime := mk_datetime 2024 6 15 12 0 i.

End Examples.

(** * Properties *)

Unset Implicit Arguments.

(** ** Strings *)

Section StringFacts.

Lemma skipn_length_app (A : Type) (a b : list A) :
  skipn (length a) (a ++ b) = b.
Proof. induction a as [|x a IH]; simpl; auto. Qed.

Lemma startswith_app (p s : str) : startswith p (p ++ s) = true.
Proof.
  induction p as [|c p IH]; simpl; auto.
  now rewrite Ascii.eqb_refl.
Qed.

Lemma startswith_prefix (p s : str) :
  startswith p s = true -> exists r, s = p ++ r.
Proof.
  revert s; induction p as [|c p IH]; intros s H.
  - now exists s.
  - destruct s as [|d s]; simpl in H; [discriminate|].
    apply andb_true_iff in H as [Hc Hp].
    apply Ascii.eqb_eq in Hc; subst d.
    destruct (IH _ Hp) as [r ->]. now exists r.
Qed.

Lemma startswith_weaken (p a b : str) :
  startswith p a = true -> startswith p (a ++ b) = true.
Proof.
  intros H. destruct (startswith_prefix _ _ H) as [r ->].
  rewrite <- app_assoc. apply startswith_app.
Qed.

Lemma contains_app_r (p a b : str) :
  contains p b = true -> contains p (a ++ b) = true.
Proof.
  intros H; induction a as [|c a IH]; simpl; auto.
  rewrite IH. apply orb_true_r.
Qed.

Lemma contains_app_l (p a b : str) :
  contains p a = true -> contains p (a ++ b) = true.
Proof.
  induction a as [|c a IH]; intros H.
  - destruct p; simpl in H; [|discriminate].
    destruct b; reflexivity.
  - change (startswith p (c :: a) || contains p a = true) in H.
    change (startswith p ((c :: a) ++ b) || contains p (a ++ b) = true).
    apply orb_true_iff in H as [H|H].
    + now rewrite (startswith_weaken _ _ b H).
    + rewrite (IH H). apply orb_true_r.
Qed.

Lemma contains_middle (p a b : str) : contains p (a ++ p ++ b) = true.
Proof.
  apply contains_app_r.
  destruct p, b; simpl; rewrite ?Ascii.eqb_refl, ?startswith_app; auto.
Qed.

(** A pattern that occurs in [s] has all its characters in [s]. *)
Lemma contains_chars (p s : str) :
  contains p s = true -> forall c, In c p -> In c s.
Proof.
  induction s as [|d s IH]; intros H c Hc.
  - destruct p; [destruct Hc | discriminate].
  - change (startswith p (d :: s) || contains p s = true) in H.
    apply orb_true_iff in H as [H|H].
    + destruct (startswith_prefix _ _ H) as [r ->].
      apply in_or_app; now left.
    + right; eauto.
Qed.

Lemma split_lines_nonempty (s : str) : split_lines s <> [].
Proof.
  induction s as [|c s IH]; simpl; [discriminate|].
  destruct (Ascii.eqb c nl); [discriminate|].
  destruct (split_lines s); discriminate.
Qed.

(** Splitting at a newline splits the list of lines. *)
Lemma split_lines_app_nl (a b : str) :
  split_lines (a ++ nl :: b) = split_lines a ++ split_lines b.
Proof.
  induction a as [|c a IH]; simpl.
  - reflexivity.
  - destruct (Ascii.eqb c nl); [now rewrite IH|].
    rewrite IH.
    pose proof (split_lines_nonempty a) as Hne.
    destruct (split_lines a); [contradiction|reflexivity].
Qed.

(** A newline-free prefix stays in the first line. *)
Lemma split_lines_prefix (p r : str) :
  forallb (fun c => negb (Ascii.eqb c nl)) p = true ->
  exists l ls, split_lines (p ++ r) = (p ++ l) :: ls.
Proof.
  induction p as [|c p IH]; simpl; intros H.
  - pose proof (split_lines_nonempty r).
    destruct (split_lines r) as [|l ls]; [contradiction|]. now exists l, ls.
  - apply andb_true_iff in H as [Hc Hp].
    destruct (Ascii.eqb c nl); [discriminate|].
    destruct (IH Hp) as (l & ls & ->). now exists l, ls.
Qed.

Lemma Forall_digits_uint (d : Decimal.uint) :
  Forall (fun c => isdigit c = true)
         (list_ascii_of_string (NilEmpty.string_of_uint d)).
Proof. induction d; simpl; constructor; auto. Qed.

(** A padded numeral is made of ASCII digits. *)
Lemma zpad_digits (w n : nat) : Forall (fun c => isdigit c = true) (zpad w n).
Proof.
  unfold zpad, decimal. apply Forall_app; split.
  - apply Forall_forall; intros c Hc.
    apply repeat_spec in Hc; now subst.
  - apply Forall_digits_uint.
Qed.

Lemma strftime_mdY_chars (d : datetime) (c : ascii) :
  In c (strftime_mdY d) -> isdigit c = true \/ c = "/"%char.
Proof.
  unfold strftime_mdY. rewrite !in_app_iff.
  assert (D : forall w n, In c (zpad w n) -> isdigit c = true).
  { intros w n H. pose proof (zpad_digits w n) as F.
    rewrite Forall_forall in F. now apply F. }
  simpl. intuition eauto.
Qed.

End StringFacts.

(** ** The substitution of [update_text_file] *)

Section Substitution.

Import SharePointDateUpdater.

Variable repl : str.

Lemma sub_from_skip (a b : str) :
  sub_from repl (length a) (a ++ b) = sub_from repl 0 b.
Proof. induction a as [|c a IH]; simpl; auto. Qed.

(** The two equations of the scan. *)
Lemma sub_date_CMS_match (s rest : str) :
  match_date_CMS s = Some rest ->
  (exists m, s = m ++ rest /\ m <> []) ->
  sub_date_CMS repl s = repl ++ sub_date_CMS repl rest.
Proof.
  intros Hm (m & -> & Hne). unfold sub_date_CMS.
  destruct m as [|c m]; [contradiction|].
  change ((c :: m) ++ rest) with (c :: (m ++ rest)) in *.
  cbn [sub_from]. rewrite Hm. f_equal.
  rewrite length_app, Nat.add_sub. apply sub_from_skip.
Qed.

Lemma sub_date_CMS_copy (c : ascii) (t : str) :
  match_date_CMS (c :: t) = None ->
  sub_date_CMS repl (c :: t) = c :: sub_date_CMS repl t.
Proof. intros H. unfold sub_date_CMS. cbn [sub_from]. now rewrite H. Qed.

Lemma match_date_first_digit (c : ascii) (t : str) :
  isdigit c = false -> match_date (c :: t) = None.
Proof.
  intros H. unfold match_date.
  do 9 (destruct t as [|? t]; [reflexivity|]).
  now rewrite H.
Qed.

Lemma match_date_CMS_first_digit (c : ascii) (t : str) :
  isdigit c = false -> match_date_CMS (c :: t) = None.
Proof.
  intros H. unfold match_date_CMS. now rewrite match_date_first_digit.
Qed.

(** Text without a digit is copied. *)
Lemma sub_date_CMS_no_digit (pre s : str) :
  forallb (fun c => negb (isdigit c)) pre = true ->
  sub_date_CMS repl (pre ++ s) = pre ++ sub_date_CMS repl s.
Proof.
  induction pre as [|c pre IH]; simpl; intros H; [reflexivity|].
  apply andb_true_iff in H as [Hc Hp].
  apply negb_true_iff in Hc.
  rewrite sub_date_CMS_copy by now apply match_date_CMS_first_digit.
  now rewrite IH.
Qed.

Lemma match_date_app (d x : str) :
  match_date d = Some [] -> match_date (d ++ x) = Some x /\ length d = 10.
Proof.
  unfold match_date. intros H.
  do 10 (destruct d as [|? d]; [discriminate|]).
  destruct d; simpl in *.
  - destruct (_ && _); [auto | discriminate].
  - destruct (_ && _); discriminate.
Qed.

Lemma spaces_CMS_run (ws post : str) :
  forallb isspace ws = true ->
  spaces_CMS (ws ++ lit "CMS" ++ post) = Some post.
Proof.
  induction ws as [|c ws IH]; intros H; [reflexivity|].
  simpl in H. apply andb_true_iff in H as [Hc Hw].
  change ((c :: ws) ++ lit "CMS" ++ post)
    with (c :: (ws ++ lit "CMS" ++ post)).
  cbn [spaces_CMS]. now rewrite Hc, (IH Hw).
Qed.

(** A date, a non-empty run of blanks and the marker are matched whole. *)
Lemma match_date_CMS_shape (d ws post : str) :
  match_date d = Some [] -> ws <> [] -> forallb isspace ws = true ->
  match_date_CMS (d ++ ws ++ lit "CMS" ++ post) = Some post.
Proof.
  intros Hd Hne Hws. unfold match_date_CMS.
  destruct (match_date_app d (ws ++ lit "CMS" ++ post) Hd) as [-> _].
  destruct ws as [|c ws]; [contradiction|].
  simpl in Hws. apply andb_true_iff in Hws as [Hc Hw].
  change ((c :: ws) ++ lit "CMS" ++ post)
    with (c :: (ws ++ lit "CMS" ++ post)).
  cbv beta iota. rewrite Hc. now apply spaces_CMS_run.
Qed.

Lemma sub_date_CMS_shape (pre d ws post : str) :
  forallb (fun c => negb (isdigit c)) pre = true ->
  match_date d = Some [] -> ws <> [] -> forallb isspace ws = true ->
  sub_date_CMS repl (pre ++ d ++ ws ++ lit "CMS" ++ post)
  = pre ++ repl ++ sub_date_CMS repl post.
Proof.
  intros Hpre Hd Hne Hws.
  rewrite sub_date_CMS_no_digit by assumption. f_equal.
  apply sub_date_CMS_match.
  - now apply match_date_CMS_shape.
  - exists (d ++ ws ++ lit "CMS"). split.
    + now rewrite <- !app_assoc.
    + destruct (match_date_app d [] Hd) as [_ Hl].
      destruct d; [discriminate | discriminate].
Qed.

Lemma match_date_inv (s r : str) :
  match_date s = Some r -> exists d, s = d ++ r /\ match_date d = Some [].
Proof.
  unfold match_date. intros H.
  do 10 (destruct s as [|? s]; [discriminate|]).
  destruct (_ && _) eqn:E; [|discriminate].
  injection H as <-.
  exists [a; a0; a1; a2; a3; a4; a5; a6; a7; a8]. split; [reflexivity|].
  cbn [app]. now rewrite E.
Qed.

Lemma match_CMS_inv (s r : str) :
  match_CMS s = Some r -> s = lit "CMS" ++ r.
Proof.
  unfold match_CMS. intros H.
  do 3 (destruct s as [|? s]; [discriminate|]).
  destruct (Ascii.eqb_spec a "C"); [|discriminate].
  destruct (Ascii.eqb_spec a0 "M"); [|discriminate].
  destruct (Ascii.eqb_spec a1 "S"); [|discriminate].
  injection H as <-. now subst.
Qed.

Lemma spaces_CMS_inv (s r : str) :
  spaces_CMS s = Some r ->
  exists ws, s = ws ++ lit "CMS" ++ r /\ forallb isspace ws = true.
Proof.
  induction s as [|c t IH]; [discriminate|]. cbn [spaces_CMS].
  destruct (isspace c) eqn:Ec.
  - destruct (spaces_CMS t) as [r'|] eqn:Et.
    + intros H; injection H as ->.
      destruct (IH eq_refl) as (ws & -> & Hws).
      exists (c :: ws). split; [reflexivity|]. simpl. now rewrite Ec.
    + intros H. apply match_CMS_inv in H. exists []. now split.
  - intros H. apply match_CMS_inv in H. exists []. now split.
Qed.

(** The anchored match, characterised by the shape of the text. *)
Lemma match_date_CMS_spec (s rest : str) :
  match_date_CMS s = Some rest <->
  exists d ws, date_blanks d ws /\ s = d ++ ws ++ lit "CMS" ++ rest.
Proof.
  split.
  - unfold match_date_CMS. destruct (match_date s) as [[|c t]|] eqn:E;
      try discriminate.
    destruct (isspace c) eqn:Ec; [|discriminate].
    intros H. apply spaces_CMS_inv in H as (ws & -> & Hws).
    apply match_date_inv in E as (d & -> & Hd).
    exists d, (c :: ws). split; [|reflexivity].
    split; [exact Hd|]. split; [discriminate|]. simpl. now rewrite Ec.
  - intros (d & ws & (Hd & Hne & Hws) & ->).
    now apply match_date_CMS_shape.
Qed.

(** The anchored match decides where the scan replaces. *)
Lemma sub_date_CMS_scan (s : str) : scan repl s (sub_date_CMS repl s).
Proof.
  remember (length s) as n eqn:Hn. revert s Hn.
  induction n as [n IH] using lt_wf_ind. intros s Hn.
  destruct s as [|c t]; [constructor|].
  destruct (match_date_CMS (c :: t)) as [rest|] eqn:E.
  - pose proof E as E'.
    apply match_date_CMS_spec in E' as (d & ws & Hshape & Hs).
    assert (Hd : d <> []) by (destruct Hshape as [Hd _]; now destruct d).
    rewrite (sub_date_CMS_match _ rest E).
    + rewrite Hs. constructor; [exact Hshape|].
      apply (IH (length rest)); [|reflexivity].
      rewrite Hn, Hs, !length_app.
      destruct d; [contradiction | simpl; lia].
    + exists (d ++ ws ++ lit "CMS"). split.
      * now rewrite Hs, <- !app_assoc.
      * now destruct d.
  - rewrite sub_date_CMS_copy by exact E. constructor.
    + intros d ws post Hshape Hs.
      assert (X : match_date_CMS (c :: t) = Some post)
        by (apply match_date_CMS_spec; now exists d, ws).
      congruence.
    + apply (IH (length t)); [subst n; simpl; lia | reflexivity].
Qed.

(** The scan has one outcome, the text [re.sub] returns. *)
Lemma scan_iff (s out : str) :
  scan repl s out <-> out = sub_date_CMS repl s.
Proof.
  split; [|intros ->; apply sub_date_CMS_scan].
  induction 1 as [|d ws post post' [Hd [Hne Hws]] _ IH|c t t' Hno _ IH].
  - reflexivity.
  - subst post'. symmetry. apply sub_date_CMS_match.
    + now apply match_date_CMS_shape.
    + exists (d ++ ws ++ lit "CMS"). split.
      * now rewrite <- !app_assoc.
      * destruct d; [discriminate Hd | discriminate].
  - subst t'. symmetry. apply sub_date_CMS_copy.
    destruct (match_date_CMS (c :: t)) as [rest|] eqn:E; [|reflexivity].
    apply match_date_CMS_spec in E as (d & ws & Hshape & Hs).
    now destruct (Hno d ws rest Hshape).
Qed.

(** Where the pattern matches nowhere, the text is returned as it is. *)
Lemma sub_date_CMS_no_match (s : str) :
  search_date_CMS s = false -> sub_date_CMS repl s = s.
Proof.
  induction s as [|c s IH]; [reflexivity|].
  cbn [search_date_CMS].
  destruct (match_date_CMS (c :: s)) eqn:E; [discriminate|].
  intros H. rewrite sub_date_CMS_copy by assumption. now rewrite IH.
Qed.

End Substitution.

Section Patch.

Import SharePointDateUpdater.

Lemma patch_fold (new_date_str : str) (lines acc : list str) (n : nat) :
  fold_left (patch_step new_date_str) lines (acc, n)
  = (acc ++ map (update_line new_date_str) lines,
     n + length (filter qualifies lines)).
Proof.
  revert acc n; induction lines as [|l lines IH]; intros acc n; simpl.
  - now rewrite app_nil_r, Nat.add_0_r.
  - unfold update_line. destruct (qualifies l); simpl; rewrite IH.
    + rewrite <- app_assoc. f_equal. lia.
    + now rewrite <- app_assoc.
Qed.

(** The loop maps [update_line] over the lines and counts those that
    pass the test. *)
Lemma patch_lines_map (new_date_str content : str) :
  patch_lines new_date_str content
  = (map (update_line new_date_str) (split_lines content),
     length (filter qualifies (split_lines content))).
Proof. unfold patch_lines. now rewrite patch_fold. Qed.

End Patch.

(** ** [update_text_file] *)

Section UpdateTextFile.

Import SharePointDateUpdater.

Lemma search_date_app_r (a b : str) :
  search_date b = true -> search_date (a ++ b) = true.
Proof.
  intros H; induction a as [|c a IH]; [exact H|].
  change ((c :: a) ++ b) with (c :: (a ++ b)). cbn [search_date].
  rewrite IH. now destruct (match_date (c :: a ++ b)).
Qed.

Lemma search_date_head (d x : str) :
  match_date d = Some [] -> search_date (d ++ x) = true.
Proof.
  intros H. destruct (match_date_app d x H) as [E L].
  destruct d as [|c d]; [discriminate|].
  change ((c :: d) ++ x) with (c :: (d ++ x)) in *. cbn [search_date].
  now rewrite E.
Qed.

Lemma qualifies_shape (pre d ws post : str) :
  match_date d = Some [] ->
  qualifies (pre ++ d ++ ws ++ lit "CMS" ++ post) = true.
Proof.
  intros H. unfold qualifies. apply andb_true_iff; split.
  - rewrite !app_assoc. rewrite <- (app_assoc _ (lit "CMS") post).
    apply contains_middle.
  - apply search_date_app_r. now apply search_date_head.
Qed.

Variable W : Type.
Variable o : ops W.
Variable self : updater.

Ltac run :=
  unfold result, issued, update_text_file, write_updated, content_read,
    rename_sharepoint_file, download_original_file, get_text_file_content,
    bind, ret, http, backup in *.

Ltac step :=
  cbn beta iota delta [world trace fst snd negb] in *;
  match goal with
  | |- context [send ?o ?w ?r] =>
      let w' := fresh "w" in
      let r' := fresh "r" in
      destruct (send o w r) as [w' r']
  | |- context [write_backup ?o ?w ?a ?b ?c] =>
      let w' := fresh "w" in
      destruct (write_backup o w a b c) as [w' [|]]
  | |- context [if status_ok ?r then _ else _] => destruct (status_ok r)
  end.

Ltac trace_done :=
  cbn beta iota delta [world trace fst snd negb] in *;
  rewrite <- ?app_assoc, ?skipn_length_app.

Lemma issued_download (pn fn : str) (s : state W) :
  existsb is_mutation (issued (download_original_file o self pn fn) s)
  = false /\
  existsb is_move (issued (download_original_file o self pn fn) s) = false.
Proof. run. repeat step; trace_done; now split. Qed.

Lemma issued_content_read (pn fn : str) (s : state W) :
  existsb is_mutation (issued (content_read o self pn fn) s) = false /\
  existsb is_move (issued (content_read o self pn fn) s) = false.
Proof. run. repeat step; trace_done; now split. Qed.

Lemma content_read_extends (pn fn : str) (s : state W) :
  trace (snd (content_read o self pn fn s))
  = trace s ++ issued (content_read o self pn fn) s.
Proof. run. repeat step; trace_done; reflexivity. Qed.

(** The update, once the backup and the fetch are factored out. *)
Lemma update_after_read (pn fn : str) (nd : date_arg) (s : state W) :
  update_text_file o self pn fn nd s =
  let (content, s') := content_read o self pn fn s in
  match content with
  | None => (false, s')
  | Some content =>
      match new_date_str_of nd with
      | None => (false, s')
      | Some new_date_str =>
          let (updated_lines, updates_made) :=
            patch_lines new_date_str content in
          if updates_made =? 0 then (false, s')
          else write_updated o self pn fn (join_lines updated_lines) s'
      end
  end.
Proof.
  unfold update_text_file, content_read, bind, ret.
  destruct (download_original_file o self pn fn s) as [[|] s1]; simpl.
  - destruct (get_text_file_content o self pn fn s1) as [[c|] s2]; auto.
    destruct (new_date_str_of nd) as [new_date_str|]; auto.
    destruct (patch_lines new_date_str c) as [ls n].
    now destruct (n =? 0).
  - reflexivity.
Qed.

Lemma rename_needed_iff (pn fn : str) :
  rename_needed pn fn = true <-> lower fn <> lower (desired_file_name pn).
Proof.
  unfold rename_needed, str_eqb.
  destruct (list_eq_dec ascii_dec (lower fn) (lower (desired_file_name pn)))
    as [e|n]; cbn [negb]; split; intro H;
    try discriminate; try contradiction; auto.
Qed.

(** What the last stage issues: the rename when it is needed, then the
    write, whatever the rename answered. *)
Lemma issued_write_updated (pn fn updated : str) (s : state W) :
  issued (write_updated o self pn fn updated) s
  = (if rename_needed pn fn
     then [Http (POST (move_url self pn fn (desired_file_name pn)) None)]
     else [])
    ++ [Http (PUT (file_url self pn
                     (if rename_needed pn fn then desired_file_name pn
                      else fn)) updated)].
Proof.
  run. destruct (rename_needed pn fn); repeat step; trace_done; reflexivity.
Qed.

Lemma write_updated_extends (pn fn updated : str) (s : state W) :
  trace (snd (write_updated o self pn fn updated s))
  = trace s ++ issued (write_updated o self pn fn updated) s.
Proof.
  run. destruct (rename_needed pn fn); repeat step; trace_done; reflexivity.
Qed.

(** C3: when the backup of the original content fails,
    [update_text_file] returns [False] having issued only what the backup
    attempt itself issued: no rename and no write reaches the service. *)
Theorem backup_failure_aborts_update (pn fn : str) (nd : date_arg)
    (s : state W) :
  result (download_original_file o self pn fn) s = false ->
  result (update_text_file o self pn fn nd) s = false /\
  issued (update_text_file o self pn fn nd) s
  = issued (download_original_file o self pn fn) s /\
  existsb is_mutation (issued (update_text_file o self pn fn nd) s) = false.
Proof.
  intros H.
  assert (E : update_text_file o self pn fn nd s
              = (false, snd (download_original_file o self pn fn s))).
  { unfold update_text_file, bind, result in *.
    destruct (download_original_file o self pn fn s) as [b s1].
    simpl in *. now subst b. }
  unfold result, issued. rewrite E. simpl.
  split; [reflexivity|]. split; [reflexivity|].
  apply (proj1 (issued_download pn fn s)).
Qed.

(** C4: when the text read from the service has no line that both
    contains [CMS] and matches the date pattern, however many lines it
    has, [update_text_file] returns [False] and issues nothing beyond the
    backup and the read: no write and no rename. *)
Theorem no_qualifying_line_no_write (pn fn : str) (nd : date_arg)
    (s : state W) (content : str) :
  result (content_read o self pn fn) s = Some content ->
  length (filter qualifies (split_lines content)) = 0 ->
  result (update_text_file o self pn fn nd) s = false /\
  issued (update_text_file o self pn fn nd) s
  = issued (content_read o self pn fn) s /\
  existsb is_mutation (issued (update_text_file o self pn fn nd) s) = false.
Proof.
  intros Hread Hzero.
  pose proof (proj1 (issued_content_read pn fn s)) as Hmut.
  unfold result, issued in *. rewrite update_after_read.
  destruct (content_read o self pn fn s) as [c s'].
  simpl in Hread; subst c.
  destruct (new_date_str_of nd) as [new_date_str|]; [|now auto].
  rewrite patch_lines_map, Hzero. simpl. now auto.
Qed.

(** C5, as amended: once the backup, the read, the conversion of the date
    and the patch (at least one line counted) have succeeded, a rename is
    issued exactly when the file name differs, case-insensitively, from
    [Point {point_number}.txt]; the write follows it whatever the rename
    answered, and then goes to the canonical name. *)
Theorem rename_then_write_canonical (pn fn : str) (nd : date_arg)
    (s : state W) (content new_date_str : str) :
  result (content_read o self pn fn) s = Some content ->
  new_date_str_of nd = Some new_date_str ->
  snd (patch_lines new_date_str content) <> 0 ->
  (rename_needed pn fn = true
   <-> lower fn <> lower (desired_file_name pn)) /\
  existsb is_move (issued (update_text_file o self pn fn nd) s)
  = rename_needed pn fn /\
  issued (update_text_file o self pn fn nd) s
  = issued (content_read o self pn fn) s
    ++ (if rename_needed pn fn
        then [Http (POST (move_url self pn fn (desired_file_name pn)) None)]
        else [])
    ++ [Http (PUT (file_url self pn
                     (if rename_needed pn fn then desired_file_name pn
                      else fn))
                  (join_lines (fst (patch_lines new_date_str content))))].
Proof.
  intros Hread Hdate Hcount.
  split; [apply rename_needed_iff|].
  assert (E : issued (update_text_file o self pn fn nd) s
            = issued (content_read o self pn fn) s
              ++ issued (write_updated o self pn fn
                   (join_lines (fst (patch_lines new_date_str content))))
                   (snd (content_read o self pn fn s))).
  { unfold issued at 1. rewrite update_after_read.
    unfold result in Hread.
    destruct (content_read o self pn fn s) as [c s'] eqn:Er.
    simpl in Hread; subst c. rewrite Hdate.
    destruct (patch_lines new_date_str content) as [ls n].
    simpl in Hcount. apply Nat.eqb_neq in Hcount. rewrite Hcount.
    cbn [fst snd]. rewrite write_updated_extends.
    pose proof (content_read_extends pn fn s) as Hx.
    rewrite Er in Hx. cbn [snd] in Hx. rewrite Hx.
    now rewrite <- app_assoc, skipn_length_app. }
  rewrite E, issued_write_updated. split; [|reflexivity].
  rewrite existsb_app, (proj2 (issued_content_read pn fn s)).
  now destruct (rename_needed pn fn).
Qed.

End UpdateTextFile.

(** ** The line patcher *)

Section LinePatcher.

Import SharePointDateUpdater.

(** C1, as amended: the loop rewrites the text line by line.  A line that
    fails the test comes out as it went in.  A line that passes it is
    scanned from the left: every date that blanks and [CMS] follow gives
    way, with the blanks, to the new date formatted MM/DD/YYYY and two
    tabs, the marker being kept, and every other character is copied; so
    a line in which no date is followed by blanks and [CMS] comes out as it
    went in, and a line where the first such date follows a digit-free
    prefix comes out with that prefix, the new date, two tabs, [CMS] and
    the rest treated in the same way. *)
Theorem patch_replaces_date_before_marker (new_date : datetime)
    (content : str) :
  fst (patch_lines (strftime_mdY new_date) content)
  = map (update_line (strftime_mdY new_date)) (split_lines content) /\
  (forall line, qualifies line = false ->
     update_line (strftime_mdY new_date) line = line) /\
  (forall line out, qualifies line = true ->
     (update_line (strftime_mdY new_date) line = out
      <-> scan (strftime_mdY new_date ++ [tab; tab] ++ lit "CMS") line out))
  /\
  (forall line, search_date_CMS line = false ->
     update_line (strftime_mdY new_date) line = line) /\
  (forall pre d ws post,
     forallb (fun c => negb (isdigit c)) pre = true ->
     match_date d = Some [] -> ws <> [] -> forallb isspace ws = true ->
     update_line (strftime_mdY new_date) (pre ++ d ++ ws ++ lit "CMS" ++ post)
     = pre ++ strftime_mdY new_date ++ [tab; tab] ++ lit "CMS"
       ++ sub_date_CMS (replacement (strftime_mdY new_date)) post).
Proof.
  split; [now rewrite patch_lines_map|].
  split; [intros line H; unfold update_line; now rewrite H|].
  split.
  { intros line out H. unfold update_line. rewrite H, scan_iff.
    unfold replacement. split; intro E; now symmetry. }
  split.
  - intros line H. unfold update_line.
    destruct (qualifies line); [now apply sub_date_CMS_no_match | reflexivity].
  - intros pre d ws post Hpre Hd Hne Hws. unfold update_line.
    rewrite qualifies_shape by assumption.
    rewrite sub_date_CMS_shape by assumption.
    unfold replacement. now rewrite <- !app_assoc.
Qed.

End LinePatcher.

(** The patched line of scenario B of the specification. *)
Lemma patch_replaces_date_before_marker_witness :
  SharePointDateUpdater.update_line (strftime_mdY Scenario.june_15)
    (lit "06/01/2023" ++ [tab; tab] ++ lit "CMS" ++ [tab] ++ lit "note")
  = lit "06/15/2024" ++ [tab; tab] ++ lit "CMS" ++ [tab] ++ lit "note".
Proof.
  destruct (patch_replaces_date_before_marker Scenario.june_15 [])
    as (_ & _ & _ & _ & H).
  apply (H [] (lit "06/01/2023") [tab; tab] ([tab] ++ lit "note"));
    [reflexivity | reflexivity | discriminate | reflexivity].
Defined.

(** C1 as stated fails: the line [CMS 01/02/2024] contains the marker and
    matches the date pattern, yet no date in it is followed by the marker,
    so it is counted as updated and comes out unchanged, without the new
    date. *)
Lemma marker_before_date_not_patched :
  ~ (forall (new_date : datetime) (line : str),
       SharePointDateUpdater.qualifies line = true ->
       contains (strftime_mdY new_date)
         (SharePointDateUpdater.update_line (strftime_mdY new_date) line)
       = true).
Proof.
  intros H.
  specialize (H Scenario.june_15 (lit "CMS 01/02/2024") eq_refl).
  vm_compute in H. discriminate H.
Qed.

Lemma backup_failure_aborts_update_witness :
  result (SharePointDateUpdater.update_text_file
            (const_ops Scenario.ok_listing false true) Scenario.date_updater
            (lit "101") (lit "Point 101.txt")
            (SharePointDateUpdater.DateObj Scenario.june_15)) start = false.
Proof.
  apply (backup_failure_aborts_update unit
           (const_ops Scenario.ok_listing false true) Scenario.date_updater
           (lit "101") (lit "Point 101.txt")
           (SharePointDateUpdater.DateObj Scenario.june_15) start).
  reflexivity.
Defined.

Lemma no_qualifying_line_no_write_witness :
  existsb is_mutation
    (issued (SharePointDateUpdater.update_text_file
               (const_ops (Scenario.ok_text (lit "no marker here")) true true)
               Scenario.date_updater (lit "101") (lit "Point 101.txt")
               (SharePointDateUpdater.DateObj Scenario.june_15)) start)
  = false.
Proof.
  apply (no_qualifying_line_no_write unit
           (const_ops (Scenario.ok_text (lit "no marker here")) true true)
           Scenario.date_updater (lit "101") (lit "Point 101.txt")
           (SharePointDateUpdater.DateObj Scenario.june_15) start
           (lit "no marker here")); reflexivity.
Defined.

Lemma rename_then_write_canonical_witness :
  existsb is_move
    (issued (SharePointDateUpdater.update_text_file
               (const_ops Scenario.ok_listing true true)
               Scenario.date_updater (lit "101") (lit "history.TXT")
               (SharePointDateUpdater.DateObj Scenario.june_15)) start)
  = true.
Proof.
  apply (rename_then_write_canonical unit
           (const_ops Scenario.ok_listing true true)
           Scenario.date_updater (lit "101") (lit "history.TXT")
           (SharePointDateUpdater.DateObj Scenario.june_15) start
           (text Scenario.ok_listing) (strftime_mdY Scenario.june_15));
    [reflexivity | reflexivity | vm_compute; discriminate].
Defined.

(** C5 as stated fails: a file named [history.txt] is not the canonical
    [Point 101.txt], yet when its text has no qualifying line the update
    stops before the rename and no move is issued. *)
Lemma no_rename_without_patch :
  ~ (forall (o : ops unit) (self : SharePointDateUpdater.updater)
            (pn fn : str) (nd : SharePointDateUpdater.date_arg)
            (s : state unit),
       existsb is_move
         (issued (SharePointDateUpdater.update_text_file o self pn fn nd) s)
       = true
       <-> lower fn <> lower (SharePointDateUpdater.desired_file_name pn)).
Proof.
  intros H.
  destruct (H (const_ops (Scenario.ok_text (lit "no marker here")) true true)
              Scenario.date_updater (lit "101") (lit "history.txt")
              (SharePointDateUpdater.DateObj Scenario.june_15) start)
    as [_ Hback].
  assert (E : false = true) by (apply Hback; vm_compute; discriminate).
  discriminate E.
Qed.

(** ** The date-range query *)

Section DateRange.

Import SharePointDateUpdater.

Lemma strftime_iso_chars (d : datetime) (c : ascii) :
  In c (strftime_iso d) -> isdigit c = true \/ In c (lit "-T:Z").
Proof.
  unfold strftime_iso. rewrite !in_app_iff.
  assert (D : forall w n, In c (zpad w n) -> isdigit c = true).
  { intros w n H. pose proof (zpad_digits w n) as F.
    rewrite Forall_forall in F. now apply F. }
  simpl. intuition eauto.
Qed.

Lemma date_filter_no_l (start_date : datetime) :
  ~ In "l"%char (date_filter start_date None).
Proof.
  unfold date_filter. rewrite !in_app_iff. intros [H|[H|[H|H]]].
  - vm_compute in H. intuition discriminate.
  - vm_compute in H. intuition discriminate.
  - apply strftime_iso_chars in H as [H|H].
    + discriminate H.
    + vm_compute in H. intuition discriminate.
  - vm_compute in H. intuition discriminate.
Qed.

Lemma hex_digit_in (n : N) : In (hex_digit n) (lit "0123456789ABCDEF").
Proof.
  unfold hex_digit.
  destruct (nth_in_or_default (N.to_nat n) (lit "0123456789ABCDEF") "0"%char)
    as [H|H]; [exact H|].
  rewrite H. now left.
Qed.

(** [quote] adds only the percent sign and upper-case hexadecimal digits. *)
Lemma quote_chars (s : str) (c : ascii) :
  In c (quote s) -> In c s \/ In c (lit "%0123456789ABCDEF").
Proof.
  unfold quote. rewrite in_flat_map. intros (x & Hx & Hc).
  assert (P : forall b, In c (pct b) -> In c (lit "%0123456789ABCDEF")).
  { intros b [H|[H|[H|[]]]]; subst c.
    - now left.
    - right. apply hex_digit_in.
    - right. apply hex_digit_in. }
  unfold quote_char in Hc.
  destruct (code x <? 128)%N.
  - destruct (safe x).
    + destruct Hc as [->|[]]. now left.
    + right. eauto.
  - apply in_app_iff in Hc as [H|H]; right; eauto.
Qed.

(** C8: with [end_date=None] the filter is the single clause
    [Date_x0020_Added ge datetime'...'] for every start date; neither it
    nor its quoted form in the request holds an [le] clause, and the one
    request issued carries that filter. *)
Theorem open_range_has_only_lower_bound (W : Type) (o : ops W)
    (self : updater) (start_date : datetime) (s : state W) :
  date_filter start_date None
  = lit "Date_x0020_Added ge datetime'" ++ strftime_iso start_date ++ lit "'"
  /\ contains (lit " ge ") (date_filter start_date None) = true
  /\ contains (lit " le ") (date_filter start_date None) = false
  /\ contains (lit "le") (quote (date_filter start_date None)) = false
  /\ issued (get_points_by_date_range o self start_date None) s
     = [Http (GET (query_url self start_date None))]
  /\ query_url self start_date None
     = base_url self ++ lit "/sites/" ++ site_name self
       ++ lit "/_api/web/lists/getbytitle('" ++ library_name self
       ++ lit "')/items?$select=ID,Date_x0020_Added,FileLeafRef,Title"
       ++ lit "&$filter=" ++ quote (date_filter start_date None)
       ++ lit "&$top=5000".
Proof.
  split; [reflexivity|].
  split; [apply (contains_middle (lit " ge ") (lit "Date_x0020_Added"))|].
  split.
  { destruct (contains (lit " le ") (date_filter start_date None)) eqn:E;
      [|reflexivity].
    exfalso. apply (date_filter_no_l start_date).
    apply (contains_chars _ _ E). right; now left. }
  split.
  { destruct (contains (lit "le") (quote (date_filter start_date None)))
      eqn:E; [|reflexivity].
    exfalso.
    assert (H : In "l"%char (quote (date_filter start_date None)))
      by (apply (contains_chars _ _ E); now left).
    apply quote_chars in H as [H|H].
    - now apply (date_filter_no_l start_date).
    - vm_compute in H. intuition discriminate. }
  split.
  { unfold issued, get_points_by_date_range, get_points_by_date_range_try,
      bind, ret, http.
    destruct (send o (world s) _) as [w r]. simpl.
    now rewrite skipn_length_app. }
  reflexivity.
Qed.

End DateRange.

(** ** [process_multiple_points] *)

Section MaxPoints.

Import SharePointDateUpdater.

Variable W : Type.
Variable o : ops W.
Variable self : updater.



End MaxPoints.


(** ** The content composer *)

Section Composer.

Import PointHistoryUpdater.

Lemma startswith_sep (p a b : str) (c : ascii) :
  ~ In c p -> startswith p (a ++ c :: b) = startswith p a.
Proof.
  revert a; induction p as [|y p IH]; intros a H; [now destruct a|].
  destruct a as [|x a]; simpl.
  - destruct (Ascii.eqb_spec y c) as [->|]; [|reflexivity].
    exfalso; apply H; now left.
  - rewrite IH; [reflexivity|]. intro; apply H; now right.
Qed.

(** A character foreign to the pattern cuts the count in two. *)
Lemma occurrences_sep (p a b : str) (c : ascii) :
  p <> [] -> ~ In c p ->
  occurrences p (a ++ c :: b) = occurrences p a + occurrences p b.
Proof.
  intros Hne Hc. induction a as [|x a IH].
  - destruct p as [|y p]; [contradiction|].
    cbn [app occurrences startswith].
    destruct (Ascii.eqb_spec y c) as [->|]; [|reflexivity].
    exfalso; apply Hc; now left.
  - change ((x :: a) ++ c :: b) with (x :: (a ++ c :: b)).
    cbn [occurrences]. rewrite IH.
    change (x :: a ++ c :: b) with ((x :: a) ++ c :: b).
    rewrite startswith_sep by assumption. lia.
Qed.

Lemma marker_no (c : ascii) :
  In c [nl; tab; " "%char] -> ~ In c marker.
Proof.
  intros [<-|[<-|[<-|[]]]] H; vm_compute in H; intuition discriminate.
Qed.

Lemma marker_nonempty : marker <> [].
Proof. discriminate. Qed.

Lemma occurrences_header (pn e : str) :
  occurrences marker (header_block pn ++ nl :: e)
  = 1 + occurrences marker pn + occurrences marker e.
Proof.
  unfold header_block. rewrite <- !app_assoc.
  change (occurrences marker
            (([nl] ++ lit "    POINT HISTORY FILE: for point") ++ " "%char
               :: (pn ++ nl
                     :: (([nl] ++ lit "(mm/dd/yyyy) " ++ [tab]
                            ++ lit "(initials)" ++ [tab; tab]
                            ++ lit "ACTION/REMARKS") ++ nl
                           :: (repeat "-"%char 89 ++ nl :: ([] ++ nl :: e)))))
          = 1 + occurrences marker pn + occurrences marker e).
  rewrite !occurrences_sep;
    try apply marker_nonempty; try (apply marker_no; simpl; tauto).
  change (occurrences marker ([nl] ++ lit "    POINT HISTORY FILE: for point"))
    with 0.
  change (occurrences marker
            ([nl] ++ lit "(mm/dd/yyyy) " ++ [tab] ++ lit "(initials)"
               ++ [tab; tab] ++ lit "ACTION/REMARKS")) with 1.
  change (occurrences marker (repeat "-"%char 89)) with 0.
  change (occurrences marker []) with 0.
  lia.
Qed.

Lemma new_entry_head (self : updater) (obs : VRSObservation)
    (observer initials : str) (now : datetime) :
  exists e, new_entry self obs observer initials now = nl :: e.
Proof. unfold new_entry. eexists. reflexivity. Qed.

Lemma occurrences_nl (e : str) :
  occurrences marker (nl :: e) = occurrences marker e.
Proof. reflexivity. Qed.

Lemma occurrences_head_absent (p s : str) (h : ascii) :
  hd_error p = Some h -> ~ In h s -> occurrences p s = 0.
Proof.
  destruct p as [|x p]; [discriminate|]. intros [= ->] H.
  induction s as [|c s IH]; [reflexivity|].
  cbn [occurrences startswith].
  destruct (Ascii.eqb_spec h c) as [->|_]; [exfalso; apply H; now left|].
  cbn [andb]. apply IH. intros Hin; apply H; now right.
Qed.

Lemma contains_occurrences (p s : str) :
  contains p s = false -> occurrences p s = 0.
Proof.
  induction s as [|c s IH]; cbn [contains occurrences]; intros H;
    apply orb_false_iff in H as [-> H]; [reflexivity | now apply IH].
Qed.

Lemma inside_nil (p : str) : inside p [] = 0.
Proof. reflexivity. Qed.

Lemma inside_cons (p f : str) (fields : list str) :
  inside p (f :: fields) = occurrences p f + inside p fields.
Proof. reflexivity. Qed.

Lemma inside_app (p : str) (a b : list str) :
  inside p (a ++ b) = inside p a + inside p b.
Proof. unfold inside. now rewrite map_app, list_sum_app. Qed.

Lemma inside_clean (p : str) (fields : list str) :
  Forall (fun f => contains p f = false) fields -> inside p fields = 0.
Proof.
  induction 1 as [|f fields Hf _ IH]; [reflexivity|].
  now rewrite inside_cons, (contains_occurrences p f Hf), IH.
Qed.

(** Counting a word none of whose characters is one of those that
    surround the fields in the header block and in the entry. *)
Section Counting.

Variable p : str.
Hypothesis p_nonempty : p <> [].
Hypothesis p_foreign :
  forall c, In c [nl; tab; " "; "("; ")"; "."; ","]%char -> ~ In c p.

Lemma occurrences_nil : occurrences p [] = 0.
Proof. destruct p; [contradiction | reflexivity]. Qed.

Lemma occurrences_cut (a b : str) (c : ascii) :
  In c [nl; tab; " "; "("; ")"; "."; ","]%char ->
  occurrences p (a ++ c :: b) = occurrences p a + occurrences p b.
Proof. intros H. apply occurrences_sep; auto. Qed.

Lemma occurrences_header_block (pn e : str) :
  occurrences p (header_block pn ++ nl :: e)
  = occurrences p ([nl] ++ lit "    POINT HISTORY FILE: for point")
    + occurrences p pn
    + occurrences p ([nl] ++ lit "(mm/dd/yyyy) " ++ [tab] ++ lit "(initials)"
                     ++ [tab; tab] ++ lit "ACTION/REMARKS")
    + occurrences p (repeat "-"%char 89)
    + occurrences p e.
Proof.
  unfold header_block. rewrite <- !app_assoc.
  change (occurrences p
            (([nl] ++ lit "    POINT HISTORY FILE: for point") ++ " "%char
               :: (pn ++ nl
                     :: (([nl] ++ lit "(mm/dd/yyyy) " ++ [tab]
                            ++ lit "(initials)" ++ [tab; tab]
                            ++ lit "ACTION/REMARKS") ++ nl
                           :: (repeat "-"%char 89 ++ nl :: ([] ++ nl :: e)))))
          = occurrences p ([nl] ++ lit "    POINT HISTORY FILE: for point")
            + occurrences p pn
            + occurrences p ([nl] ++ lit "(mm/dd/yyyy) " ++ [tab]
                             ++ lit "(initials)" ++ [tab; tab]
                             ++ lit "ACTION/REMARKS")
            + occurrences p (repeat "-"%char 89)
            + occurrences p e).
  rewrite !occurrences_cut by (simpl; tauto).
  rewrite occurrences_nil. lia.
Qed.

Lemma occurrences_monument_type (obs : VRSObservation) :
  occurrences p (lit "This monument" ++ monument_type_text obs)
  = occurrences p (lit "This monument")
    + inside p match monument_type obs with
               | Some t => [t]
               | None => []
               end.
Proof.
  unfold monument_type_text.
  destruct (monument_type obs) as [[|c t]|]; cbn [truthy];
    rewrite ?inside_cons, ?inside_nil.
  - rewrite app_nil_r, occurrences_nil. lia.
  - change (lit "This monument" ++ lit " (" ++ (c :: t) ++ lit ")")
      with (lit "This monument" ++ " "%char
              :: ([] ++ "("%char :: ((c :: t) ++ ")"%char :: []))).
    rewrite !occurrences_cut by (simpl; tauto).
    rewrite occurrences_nil. lia.
  - rewrite app_nil_r. lia.
Qed.

Lemma occurrences_permit (self : updater) :
  occurrences p (permit_text self)
  = inside p match monument_permit self with
             | Some t => [t]
             | None => []
             end.
Proof.
  unfold permit_text.
  destruct (monument_permit self) as [[|c t]|]; cbn [truthy];
    rewrite ?inside_cons, ?inside_nil.
  - rewrite occurrences_nil. lia.
  - change ((c :: t) ++ lit " ") with ((c :: t) ++ " "%char :: []).
    rewrite occurrences_cut by (simpl; tauto).
    rewrite occurrences_nil. lia.
  - now rewrite occurrences_nil.
Qed.

Lemma new_entry_shape (self : updater) (obs : VRSObservation)
    (observer initials : str) (now : datetime) :
  new_entry self obs observer initials now
  = [] ++ nl :: [] ++ nl :: strftime_mdY now ++ tab :: initials ++ tab
    :: (lit "This monument" ++ monument_type_text obs) ++ " "%char
    :: lit "was observed with VRS" ++ " "%char :: [] ++ "("%char
    :: document_num obs ++ ")"%char :: [] ++ " "%char :: lit "using"
    ++ " "%char :: control_used obs ++ " "%char :: lit "and Geoid18"
    ++ nl :: [] ++ tab :: [] ++ tab :: [] ++ tab :: lit "as part of WO"
    ++ " "%char :: work_order obs ++ "."%char
    :: lit " The purpose of this work order was to facilitate" ++ " "%char
    :: permit_text self ++ nl :: [] ++ tab :: [] ++ tab :: [] ++ tab
    :: lit "Section" ++ " "%char :: section obs ++ ","%char :: [] ++ " "%char
    :: township_range obs ++ "."%char :: lit " Monument observed by"
    ++ " "%char :: observer ++ " "%char :: lit "on" ++ " "%char
    :: date_observed obs ++ "."%char :: [] ++ nl :: [] ++ nl :: [].
Proof.
  unfold new_entry, location_text. cbv zeta.
  rewrite <- !app_assoc. reflexivity.
Qed.

(** The occurrences of the word in an entry: those of its date, those of
    its fixed text, and those inside the texts it is given. *)
Lemma occurrences_new_entry (self : updater) (obs : VRSObservation)
    (observer initials : str) (now : datetime) :
  occurrences p (new_entry self obs observer initials now)
  = occurrences p (strftime_mdY now)
    + (occurrences p (lit "This monument")
       + occurrences p (lit "was observed with VRS")
       + occurrences p (lit "using")
       + occurrences p (lit "and Geoid18")
       + occurrences p (lit "as part of WO")
       + occurrences p
           (lit " The purpose of this work order was to facilitate")
       + occurrences p (lit "Section")
       + occurrences p (lit " Monument observed by")
       + occurrences p (lit "on"))
    + inside p (entry_fields self obs observer initials).
Proof.
  rewrite new_entry_shape.
  rewrite !occurrences_cut by (simpl; tauto).
  rewrite occurrences_monument_type, occurrences_permit, !occurrences_nil.
  unfold entry_fields.
  rewrite !inside_app, !inside_cons, inside_nil. lia.
Qed.

End Counting.

Lemma marker_foreign (c : ascii) :
  In c [nl; tab; " "; "("; ")"; "."; ","]%char -> ~ In c marker.
Proof.
  intros H Hin. cbn in H.
  repeat (destruct H as [<-|H];
          [vm_compute in Hin; intuition discriminate|]).
  exact H.
Qed.

Lemma entry_word_foreign (c : ascii) :
  In c [nl; tab; " "; "("; ")"; "."; ","]%char -> ~ In c entry_word.
Proof.
  intros H Hin. cbn in H.
  repeat (destruct H as [<-|H];
          [vm_compute in Hin; intuition discriminate|]).
  exact H.
Qed.

Lemma entry_word_nonempty : entry_word <> [].
Proof. discriminate. Qed.

(** The date of an entry holds neither word. *)
Lemma date_holds_no_word (now : datetime) :
  occurrences marker (strftime_mdY now) = 0 /\
  occurrences entry_word (strftime_mdY now) = 0.
Proof.
  split.
  - apply (occurrences_head_absent _ _ "A"%char); [reflexivity|].
    intros H. apply strftime_mdY_chars in H as [H|H]; discriminate H.
  - apply (occurrences_head_absent _ _ "G"%char); [reflexivity|].
    intros H. apply strftime_mdY_chars in H as [H|H]; discriminate H.
Qed.

(** An entry holds the words of the header as often as the texts it is
    given do, and its own word once more than they do. *)
Lemma words_of_new_entry (self : updater) (obs : VRSObservation)
    (observer initials : str) (now : datetime) :
  occurrences marker (new_entry self obs observer initials now)
  = inside marker (entry_fields self obs observer initials) /\
  occurrences entry_word (new_entry self obs observer initials now)
  = 1 + inside entry_word (entry_fields self obs observer initials).
Proof.
  destruct (date_holds_no_word now) as [Dm De]. split.
  - rewrite (occurrences_new_entry marker marker_nonempty marker_foreign).
    rewrite Dm. reflexivity.
  - rewrite (occurrences_new_entry entry_word entry_word_nonempty
               entry_word_foreign).
    rewrite De. reflexivity.
Qed.

(** C2: with no existing content, or with empty existing content, the
    composed text is the header block followed by the new entry.  It holds
    the words [ACTION/REMARKS] once, and the word of an entry once, beyond
    what the point number and the texts given to the entry hold of them:
    exactly one header and exactly one entry when those texts hold
    neither.  With non-empty existing content the text is
    [rstrip(existing) + new_entry]: beyond what the texts given to the
    entry hold, it has the words of the header as often as the stripped
    content, so no header is added, and the word of an entry once more
    than the stripped content, so one entry is added. *)
Theorem composer_header_once_or_append (self : updater)
    (obs : VRSObservation) (observer initials : str) (now : datetime) :
  let entry := new_entry self obs observer initials now in
  let fields := entry_fields self obs observer initials in
  let fresh := header_block (point_number obs) ++ entry in
  _create_point_history_content self obs observer initials None now
  = fresh /\
  _create_point_history_content self obs observer initials (Some []) now
  = fresh /\
  occurrences marker fresh = 1 + inside marker (point_number obs :: fields) /\
  occurrences entry_word fresh
  = 1 + inside entry_word (point_number obs :: fields) /\
  (Forall (fun f => contains marker f = false) (point_number obs :: fields) ->
   occurrences marker fresh = 1) /\
  (Forall (fun f => contains entry_word f = false)
          (point_number obs :: fields) ->
   occurrences entry_word fresh = 1) /\
  (forall existing : str,
     existing <> [] ->
     let text :=
       _create_point_history_content self obs observer initials
         (Some existing) now in
     text = rstrip existing ++ entry /\
     occurrences marker text
     = occurrences marker (rstrip existing) + inside marker fields /\
     occurrences entry_word text
     = occurrences entry_word (rstrip existing) + 1
       + inside entry_word fields).
Proof.
  intros entry fields fresh.
  destruct (new_entry_head self obs observer initials now) as [e He].
  destruct (words_of_new_entry self obs observer initials now) as [Wm We].
  fold entry fields in Wm, We.
  assert (Fm : occurrences marker fresh
               = 1 + inside marker (point_number obs :: fields)).
  { subst fresh. fold entry in He. rewrite He.
    rewrite (occurrences_header_block marker marker_nonempty marker_foreign).
    rewrite <- (occurrences_nl e), <- He, Wm, inside_cons.
    change (occurrences marker
              ([nl] ++ lit "    POINT HISTORY FILE: for point")) with 0.
    change (occurrences marker
              ([nl] ++ lit "(mm/dd/yyyy) " ++ [tab] ++ lit "(initials)"
                 ++ [tab; tab] ++ lit "ACTION/REMARKS")) with 1.
    change (occurrences marker (repeat "-"%char 89)) with 0.
    lia. }
  assert (Fe : occurrences entry_word fresh
               = 1 + inside entry_word (point_number obs :: fields)).
  { subst fresh. fold entry in He. rewrite He.
    rewrite (occurrences_header_block entry_word entry_word_nonempty
               entry_word_foreign).
    assert (N : occurrences entry_word e = occurrences entry_word (nl :: e))
      by reflexivity.
    rewrite N, <- He, We, inside_cons.
    change (occurrences entry_word
              ([nl] ++ lit "    POINT HISTORY FILE: for point")) with 0.
    change (occurrences entry_word
              ([nl] ++ lit "(mm/dd/yyyy) " ++ [tab] ++ lit "(initials)"
                 ++ [tab; tab] ++ lit "ACTION/REMARKS")) with 0.
    change (occurrences entry_word (repeat "-"%char 89)) with 0.
    lia. }
  split; [reflexivity|]. split; [reflexivity|].
  split; [exact Fm|]. split; [exact Fe|].
  split; [intros H; now rewrite Fm, (inside_clean _ _ H)|].
  split; [intros H; now rewrite Fe, (inside_clean _ _ H)|].
  intros existing Hne text.
  assert (E : text = rstrip existing ++ entry).
  { subst text. destruct existing; [contradiction | reflexivity]. }
  split; [exact E|]. rewrite E. fold entry in He.
  split.
  - rewrite <- Wm, He, occurrences_nl.
    apply occurrences_sep; [apply marker_nonempty|].
    apply marker_no; simpl; tauto.
  - rewrite He.
    rewrite (occurrences_cut entry_word entry_word_nonempty
               entry_word_foreign) by (simpl; tauto).
    assert (N : occurrences entry_word e = occurrences entry_word (nl :: e))
      by reflexivity.
    rewrite N, <- He, We. lia.
Qed.

(** C7: for the row of scenario A with monument type [Brass Cap] and no
    existing content, whoever the observer and whatever the date, the
    composed text contains the narrative sentence and has a line that
    contains [as part of WO WO-5]. *)
Theorem scenario_A_content (self : updater) (observer initials : str)
    (now : datetime) :
  contains
    (lit "This monument (Brass Cap) was observed with VRS (DOC-1) using VRS-Net and Geoid18")
    (_create_point_history_content self Scenario.row_A observer initials
       None now) = true /\
  exists line,
    In line (split_lines
               (_create_point_history_content self Scenario.row_A observer
                  initials None now)) /\
    contains (lit "as part of WO WO-5") line = true.
Proof.
  split.
  - unfold _create_point_history_content, new_entry.
    apply contains_app_r. apply contains_app_l.
    change (contains
              (lit "This monument (Brass Cap) was observed with VRS (DOC-1) using VRS-Net and Geoid18")
              ([nl; nl] ++ strftime_mdY now ++ [tab] ++ initials ++ [tab]
               ++ lit "This monument (Brass Cap) was observed with VRS (DOC-1) using VRS-Net and Geoid18"
               ++ []) = true).
    apply (contains_app_r _ [nl; nl]).
    apply (contains_app_r _ (strftime_mdY now)).
    apply (contains_app_r _ [tab]).
    apply (contains_app_r _ initials).
    apply (contains_middle _ [tab] []).
  - set (rest := lit ". The purpose of this work order was to facilitate "
                 ++ permit_text self
                 ++ [nl; tab; tab; tab] ++ lit "Section 12, T1N R1E"
                 ++ lit ". Monument observed by " ++ observer
                 ++ lit " on 01/02/2024." ++ [nl; nl]).
    assert (E : _create_point_history_content self Scenario.row_A observer
                  initials None now
                = (header_block (lit "101") ++ [nl; nl] ++ strftime_mdY now
                   ++ [tab] ++ initials ++ [tab]
                   ++ lit "This monument (Brass Cap) was observed with VRS (DOC-1) using VRS-Net and Geoid18")
                  ++ nl :: (([tab; tab; tab] ++ lit "as part of WO WO-5")
                            ++ rest)).
    { unfold _create_point_history_content, new_entry, rest.
      cbv zeta. rewrite <- !app_assoc. reflexivity. }
    destruct (split_lines_prefix
                ([tab; tab; tab] ++ lit "as part of WO WO-5") rest eq_refl)
      as (l & ls & Hsplit).
    exists (([tab; tab; tab] ++ lit "as part of WO WO-5") ++ l). split.
    + rewrite E, split_lines_app_nl, Hsplit.
      apply in_or_app; right; now left.
    + apply contains_app_l.
      apply (contains_middle (lit "as part of WO WO-5") [tab; tab; tab] []).
Qed.

End Composer.

Lemma composer_header_once_or_append_witness :
  occurrences PointHistoryUpdater.marker
    (PointHistoryUpdater._create_point_history_content Scenario.vrs_updater
       Scenario.row_A (lit "J. Doe") (lit "JD") None Scenario.june_15) = 1 /\
  occurrences PointHistoryUpdater.entry_word
    (PointHistoryUpdater._create_point_history_content Scenario.vrs_updater
       Scenario.row_A (lit "J. Doe") (lit "JD") None Scenario.june_15) = 1 /\
  PointHistoryUpdater._create_point_history_content Scenario.vrs_updater
    Scenario.row_A (lit "J. Doe") (lit "JD")
    (Some (lit "old text" ++ [nl; nl])) Scenario.june_15
  = lit "old text"
    ++ PointHistoryUpdater.new_entry Scenario.vrs_updater Scenario.row_A
         (lit "J. Doe") (lit "JD") Scenario.june_15.
Proof.
  destruct (composer_header_once_or_append Scenario.vrs_updater
              Scenario.row_A (lit "J. Doe") (lit "JD") Scenario.june_15)
    as (_ & _ & _ & _ & Hm & He & H).
  split; [|split].
  - apply Hm. repeat constructor.
  - apply He. repeat constructor.
  - destruct (H (lit "old text" ++ [nl; nl])) as [E _]; [discriminate|].
    exact E.
Defined.

(** C2 as stated fails: for a row whose point number reads
    [ACTION/REMARKS], the text composed without existing content holds
    the words of the header twice. *)
Lemma header_words_twice :
  ~ (forall (self : PointHistoryUpdater.updater)
            (obs : PointHistoryUpdater.VRSObservation)
            (observer initials : str) (now : datetime),
       occurrences PointHistoryUpdater.marker
         (PointHistoryUpdater._create_point_history_content self obs
            observer initials None now)
       = 1).
Proof.
  intros H.
  specialize (H Scenario.vrs_updater Scenario.row_like_header
                (lit "J. Doe") (lit "JD") Scenario.june_15).
  vm_compute in H. discriminate H.
Qed.

(** ** [update_point_history] *)

Section UpdatePointHistory.

Import PointHistoryUpdater.

Variable W : Type.
Variable o : ops W.
Variable self : updater.









End UpdatePointHistory.



(** ** Paths inside the request URLs *)

Section Paths.

(** What [quote] returns holds only safe characters and percent signs. *)
Lemma quote_only_safe (s : str) (c : ascii) :
  In c (quote s) -> safe c = true \/ c = "%"%char.
Proof.
  unfold quote. rewrite in_flat_map. intros (x & _ & Hc).
  assert (P : forall b, In c (pct b) -> safe c = true \/ c = "%"%char).
  { assert (Hx : forall n, safe (hex_digit n) = true).
    { intros n. pose proof (hex_digit_in n) as H.
      set (h := hex_digit n) in *. clearbody h.
      repeat (destruct H as [<-|H]; [reflexivity|]). destruct H. }
    intros b [H|[H|[H|[]]]]; subst c; [now right | left | left];
      apply Hx. }
  unfold quote_char in Hc. destruct (code x <? 128)%N.
  - destruct (safe x) eqn:E.
    + destruct Hc as [<-|[]]. now left.
    + eauto.
  - apply in_app_iff in Hc as [H|H]; eauto.
Qed.

(** [point_history_updater.py] quotes the folder and file paths it puts in
    the listing, fetch and update URLs. *)
Lemma vrs_paths_quoted (self : PointHistoryUpdater.updater)
    (pn fn : str) (c : ascii) :
  In c (PointHistoryUpdater.folder_path self pn)
  \/ In c (PointHistoryUpdater.file_path self pn fn) ->
  safe c = true \/ c = "%"%char.
Proof. intros [H|H]; exact (quote_only_safe _ c H). Qed.

(** [sharepoint_date_updater.py] puts the point number and the file name
    in its URLs as they are. *)
Lemma date_updater_paths_raw (self : SharePointDateUpdater.updater)
    (pn fn : str) (c : ascii) :
  In c pn \/ In c fn ->
  In c (SharePointDateUpdater.file_url self pn fn).
Proof.
  unfold SharePointDateUpdater.file_url. rewrite !in_app_iff. tauto.
Qed.

(** C6, evaluated where it fails: for the canonical file of point 101 the
    date updater builds the fetch and write URL with the space of
    [Point 101.txt] left as it is, where the history updater, for the same
    file, writes [%20]; and the history updater's own create URL quotes
    the folder but not the name of the file it adds. *)
Theorem date_updater_url_not_quoted :
  SharePointDateUpdater.file_url Scenario.date_updater (lit "101")
    (lit "Point 101.txt")
  = lit "https://sp.example/sites/Survey/_api/web/GetFileByServerRelativeUrl('/sites/Survey/Points/101/Point 101.txt')/$value"
  /\ PointHistoryUpdater.file_url Scenario.vrs_updater (lit "101")
       (lit "Point 101.txt")
     = lit "https://sp.example/sites/Survey/_api/web/GetFileByServerRelativeUrl('/sites/Survey/Points/101/Point%20101.txt')/$value"
  /\ SharePointDateUpdater.folder_url Scenario.date_updater (lit "12 A")
     = lit "https://sp.example/sites/Survey/_api/web/GetFolderByServerRelativeUrl('/sites/Survey/Points/12 A')/Files"
  /\ PointHistoryUpdater.create_url Scenario.vrs_updater (lit "12 A")
     = lit "https://sp.example/sites/Survey/_api/web/GetFolderByServerRelativeUrl('/sites/Survey/Points/12%20A')/Files/Add(url='Point 12 A.txt')".
Proof. repeat split; vm_compute; reflexivity. Qed.

End Paths.

(** * Further properties *)

(** ** What a computation adds to the trace *)

Section Emits.

Variable W : Type.

Lemma emits_ret (A : Type) (P : event -> bool) (a : A) :
  emits P (ret (W:=W) a).
Proof. intros s. exists []. simpl. now rewrite app_nil_r. Qed.

Lemma emits_bind (A B : Type) (P : event -> bool) (c : M W A)
    (k : A -> M W B) :
  emits P c -> (forall a, emits P (k a)) -> emits P (bind c k).
Proof.
  intros Hc Hk s. unfold bind.
  destruct (Hc s) as (e1 & H1 & F1).
  destruct (c s) as [a s1]. cbn [snd] in H1.
  destruct (Hk a s1) as (e2 & H2 & F2).
  exists (e1 ++ e2). split.
  - now rewrite H2, H1, app_assoc.
  - now rewrite forallb_app, F1, F2.
Qed.

Lemma emits_http (P : event -> bool) (o : ops W) (r : request) :
  P (Http r) = true -> emits P (http o r).
Proof.
  intros H s. unfold http. destruct (send o (world s) r) as [w resp].
  exists [Http r]. simpl. now rewrite H.
Qed.

Lemma emits_backup (P : event -> bool) (o : ops W) (pn fn c : str) :
  P (Backup pn fn c) = true -> emits P (backup o pn fn c).
Proof.
  intros H s. unfold backup.
  destruct (write_backup o (world s) pn fn c) as [w ok].
  exists [Backup pn fn c]. simpl. now rewrite H.
Qed.

Lemma emits_save (P : event -> bool) (o : ops W)
    (a b : list (Z * str)) :
  P (SaveResults a b) = true -> emits P (save o a b).
Proof.
  intros H s. unfold save.
  destruct (write_results o (world s) a b) as [w ok].
  exists [SaveResults a b]. simpl. now rewrite H.
Qed.


Lemma emits_extends (A : Type) (P : event -> bool) (c : M W A) :
  emits P c -> forall s, trace (snd (c s)) = trace s ++ issued c s.
Proof.
  intros H s. destruct (H s) as (evs & E & F).
  unfold issued. now rewrite E, skipn_length_app.
Qed.

End Emits.

Ltac emits_auto :=
  repeat first
    [ apply emits_ret
    | apply emits_http; reflexivity
    | apply emits_backup; reflexivity
    | apply emits_save; reflexivity
    | apply emits_bind; [|intro]
    | match goal with
      | |- emits _ (if ?b then _ else _) => destruct b
      | |- emits _ (match ?x with _ => _ end) => destruct x
      | |- emits _ (let (_, _) := ?x in _) => destruct x
      end ].

(** ** Lines in, lines out *)

Section LineStructure.

Import SharePointDateUpdater.

Lemma join_split (s : str) : join_lines (split_lines s) = s.
Proof.
  induction s as [|c s IH]; [reflexivity|]. cbn [split_lines].
  destruct (Ascii.eqb_spec c nl) as [->|Hc].
  - pose proof (split_lines_nonempty s) as Hne.
    cbn [join_lines]. destruct (split_lines s) as [|l ls]; [contradiction|].
    now rewrite IH.
  - pose proof (split_lines_nonempty s) as Hne.
    destruct (split_lines s) as [|l ls]; [contradiction|].
    destruct ls as [|l' ls']; cbn [join_lines] in *; now rewrite <- IH.
Qed.

Lemma split_no_newline (s : str) :
  Forall (fun l => ~ In nl l) (split_lines s).
Proof.
  induction s as [|c s IH]; [constructor; auto|]. cbn [split_lines].
  destruct (Ascii.eqb_spec c nl) as [->|Hc].
  - constructor; auto.
  - destruct (split_lines s) as [|l ls]; [constructor; auto; intros [H|[]]; auto|].
    inversion IH; subst. constructor; [|assumption].
    intros [H|H]; [now apply Hc | contradiction].
Qed.

Lemma split_line (l : str) : ~ In nl l -> split_lines l = [l].
Proof.
  induction l as [|c l IH]; intros H; [reflexivity|]. cbn [split_lines].
  destruct (Ascii.eqb_spec c nl) as [->|Hc]; [exfalso; apply H; now left|].
  rewrite IH; [reflexivity|]. intro; apply H; now right.
Qed.

Lemma split_join (ls : list str) :
  ls <> [] -> Forall (fun l => ~ In nl l) ls ->
  split_lines (join_lines ls) = ls.
Proof.
  induction ls as [|l ls IH]; intros Hne H; [contradiction|].
  inversion H as [|? ? Hl Hls]; subst.
  destruct ls as [|l' ls'].
  - cbn [join_lines]. now apply split_line.
  - cbn [join_lines] in *. rewrite split_lines_app_nl, IH;
      [|discriminate|assumption].
    now rewrite split_line.
Qed.

(** The substitution brings in no character beyond those of the text and
    of the replacement. *)
Lemma sub_from_chars (repl : str) (s : str) :
  forall k c, In c (sub_from repl k s) -> In c s \/ In c repl.
Proof.
  induction s as [|x s IH]; intros k c H; [destruct H|].
  cbn [sub_from] in H. destruct k as [|k].
  - destruct (match_date_CMS (x :: s)).
    + apply in_app_or in H as [H|H]; [now right|].
      destruct (IH _ _ H); [left; now right | now right].
    + destruct H as [<-|H]; [left; now left|].
      destruct (IH _ _ H); [left; now right | now right].
  - destruct (IH _ _ H); [left; now right | now right].
Qed.

Lemma update_line_no_newline (d : datetime) (line : str) :
  ~ In nl line -> ~ In nl (update_line (strftime_mdY d) line).
Proof.
  intros Hl H. unfold update_line in H.
  destruct (qualifies line); [|contradiction].
  apply sub_from_chars in H as [H|H]; [contradiction|].
  unfold replacement in H. apply in_app_or in H as [H|H].
  - apply strftime_mdY_chars in H as [H|H]; discriminate H.
  - vm_compute in H. intuition discriminate.
Qed.

(** X2: The patch neither joins nor splits lines: the text that is written,
    split again, gives back the patched lines, as many as the original
    text has. *)
Theorem patch_keeps_lines (d : datetime) (content : str) :
  split_lines (join_lines (fst (patch_lines (strftime_mdY d) content)))
  = map (update_line (strftime_mdY d)) (split_lines content) /\
  length (split_lines
            (join_lines (fst (patch_lines (strftime_mdY d) content))))
  = length (split_lines content).
Proof.
  rewrite patch_lines_map. cbn [fst].
  assert (E : split_lines
                (join_lines (map (update_line (strftime_mdY d))
                               (split_lines content)))
              = map (update_line (strftime_mdY d)) (split_lines content)).
  { apply split_join.
    - pose proof (split_lines_nonempty content).
      destruct (split_lines content); [contradiction | discriminate].
    - pose proof (split_no_newline content) as F.
      induction F; constructor; auto using update_line_no_newline. }
  rewrite E. split; [reflexivity | apply length_map].
Qed.

(** Where no line holds a date followed by blanks and [CMS], the patched
    text is the text itself, however many lines passed the test of line
    193 and were counted. *)
Lemma patch_without_match (new_date_str content : str) :
  forallb (fun l => negb (search_date_CMS l)) (split_lines content) = true ->
  join_lines (fst (patch_lines new_date_str content)) = content.
Proof.
  intros H. rewrite patch_lines_map. cbn [fst].
  rewrite <- (join_split content) at 2. f_equal.
  rewrite forallb_forall in H.
  rewrite <- (map_id (split_lines content)) at 2.
  apply map_ext_in. intros l Hl. unfold update_line.
  destruct (qualifies l); [|reflexivity].
  apply sub_date_CMS_no_match. specialize (H l Hl).
  now apply negb_true_iff in H.
Qed.

End LineStructure.

(** ** One point of the date updater *)

Section OnePoint.

Import SharePointDateUpdater.

Variable W : Type.
Variable o : ops W.
Variable self : updater.

Lemma emits_update_text_file (P : event -> bool) (pn fn : str)
    (nd : date_arg) :
  (forall r, P (Http r) = true) ->
  (forall a b c, P (Backup a b c) = true) ->
  emits P (update_text_file o self pn fn nd).
Proof.
  intros Hh Hb.
  unfold update_text_file, write_updated, rename_sharepoint_file,
    download_original_file, get_text_file_content.
  repeat first
    [ apply emits_ret
    | apply emits_http; apply Hh
    | apply emits_backup; apply Hb
    | apply emits_bind; [|intro]
    | match goal with
      | |- emits _ (if ?b then _ else _) => destruct b
      | |- emits _ (match ?x with _ => _ end) => destruct x
      end ].
Qed.

Lemma emits_process_single_point (P : event -> bool) (i : Z) (pn : str)
    (added : option str) :
  (forall r, P (Http r) = true) ->
  (forall a b c, P (Backup a b c) = true) ->
  emits P (process_single_point o self i pn added).
Proof.
  intros Hh Hb. unfold process_single_point, get_text_file_name.
  apply emits_bind.
  - apply emits_bind; [apply emits_http; apply Hh | intro; apply emits_ret].
  - intros [fn|]; [|apply emits_ret].
    destruct (truthy fn); [|apply emits_ret].
    now apply emits_update_text_file.
Qed.

(** X8: When the folder listing fails, cannot be read or shows no text file,
    the point is given up after that one request: no backup, no fetch, no
    rename and no write. *)
Theorem point_without_text_file (i : Z) (pn : str) (added : option str)
    (s : state W) :
  result (get_text_file_name o self pn) s = None ->
  result (process_single_point o self i pn added) s = false /\
  issued (process_single_point o self i pn added) s
  = [Http (GET (folder_url self pn))].
Proof.
  unfold result, issued, process_single_point, get_text_file_name, bind,
    ret, http.
  destruct (send o (world s) _) as [w r]. cbn [fst snd world trace].
  intros ->. cbn [fst snd trace]. now rewrite skipn_length_app.
Qed.

(** X1: No write without a backup: a run of [update_text_file] that issues a
    rename or a write has first fetched the file, handed the fetched text
    to the backup, seen the backup succeed, and fetched the file again. *)
Theorem no_write_without_backup (pn fn : str) (nd : date_arg)
    (s : state W) :
  existsb is_mutation (issued (update_text_file o self pn fn nd) s) = true ->
  let first := send o (world s) (GET (file_url self pn fn)) in
  snd (write_backup o (fst first) pn fn (text (snd first))) = true /\
  exists rest,
    issued (update_text_file o self pn fn nd) s
    = Http (GET (file_url self pn fn))
      :: Backup pn fn (text (snd first))
      :: Http (GET (file_url self pn fn)) :: rest.
Proof.
  intros H first. subst first.
  pose proof (emits_update_text_file (fun _ => true) pn fn nd
                (fun _ => eq_refl) (fun _ _ _ => eq_refl)) as Hem.
  unfold issued in *. revert H.
  unfold update_text_file, write_updated, rename_sharepoint_file,
    download_original_file, get_text_file_content, bind, ret, http, backup.
  destruct (send o (world s) (GET (file_url self pn fn))) as [w1 r1].
  cbn [fst snd world trace].
  destruct (status_ok r1); cbn [fst snd world trace negb];
    [|rewrite skipn_length_app; discriminate].
  destruct (write_backup o w1 pn fn (text r1)) as [w2 [|]];
    cbn [fst snd world trace negb];
    [|rewrite <- app_assoc, skipn_length_app; discriminate].
  destruct (send o w2 (GET (file_url self pn fn))) as [w3 r3].
  cbn [fst snd world trace].
  intros _. split; [reflexivity|].
  match goal with
  | |- exists rest, skipn _ (trace (snd ?c)) = _ =>
      assert (X : exists evs,
                trace (snd c)
                = ((trace s ++ [Http (GET (file_url self pn fn))])
                   ++ [Backup pn fn (text r1)])
                  ++ [Http (GET (file_url self pn fn))] ++ evs)
  end.
  { destruct (status_ok r3); [|exists []; now rewrite app_nil_r].
    destruct (new_date_str_of nd) as [nds|];
      [|exists []; now rewrite app_nil_r].
    destruct (patch_lines nds (text r3)) as [ls n].
    destruct (n =? 0); [exists []; now rewrite app_nil_r|].
    destruct (rename_needed pn fn); cbn [fst snd world trace].
    - destruct (send o w3 _) as [w4 r4]. cbn [fst snd world trace].
      destruct (send o w4 _) as [w5 r5]. cbn [fst snd world trace].
      eexists. rewrite <- !app_assoc. reflexivity.
    - destruct (send o w3 _) as [w4 r4]. cbn [fst snd world trace].
      eexists. rewrite <- !app_assoc. reflexivity. }
  destruct X as [evs ->]. exists evs.
  now rewrite <- !app_assoc, skipn_length_app.
Qed.

(** X3: A text in which some line passes the test of line 193 but no date is
    followed by blanks and [CMS] is written back as it is: the update goes
    through its rename and its write, and the body of the write is the
    text that was read. *)
Theorem unchanged_text_written_back (pn fn : str) (nd : date_arg)
    (s : state W) (content new_date_str : str) :
  result (content_read o self pn fn) s = Some content ->
  new_date_str_of nd = Some new_date_str ->
  existsb qualifies (split_lines content) = true ->
  forallb (fun l => negb (search_date_CMS l)) (split_lines content) = true ->
  exists before,
    issued (update_text_file o self pn fn nd) s
    = before
      ++ [Http (PUT (file_url self pn
                       (if rename_needed pn fn then desired_file_name pn
                        else fn)) content)].
Proof.
  intros Hread Hdate Hq Hno.
  pose proof (patch_without_match new_date_str content Hno) as Hsame.
  assert (Hcount : snd (patch_lines new_date_str content) <> 0).
  { rewrite patch_lines_map. cbn [snd].
    apply existsb_exists in Hq as (l & Hl & Hql).
    assert (In l (filter qualifies (split_lines content)))
      by (apply filter_In; now split).
    destruct (filter qualifies (split_lines content)); [contradiction|].
    discriminate. }
  unfold issued at 1. rewrite update_after_read.
  unfold result in Hread.
  pose proof (content_read_extends W o self pn fn s) as Hx.
  destruct (content_read o self pn fn s) as [c s'].
  cbn [fst snd] in *. subst c. rewrite Hdate.
  destruct (patch_lines new_date_str content) as [ls n].
  cbn [fst snd] in *. apply Nat.eqb_neq in Hcount. rewrite Hcount.
  rewrite write_updated_extends, issued_write_updated, Hx, Hsame.
  rewrite <- app_assoc, skipn_length_app.
  eexists. rewrite app_assoc. reflexivity.
Qed.

End OnePoint.

(** ** The loop over the points *)

Section PointLoop.

Import SharePointDateUpdater.

Variable W : Type.
Variable o : ops W.
Variable self : updater.




(** X14: When the results file cannot be written after a point, the run ends
    there: nothing is returned, and the requests of that point and the one
    failed save are all that was issued, however many points were left. *)
Theorem failed_save_stops_the_run (p : point) (more : list point)
    (res : results) (s : state W) :
  let run1 := process_single_point o self (id p) (point_number p)
                (date_added p) s in
  let res1 :=
    if fst run1
    then mk_results (successful res ++ [ident p]) (failed res)
    else mk_results (successful res) (failed res ++ [ident p]) in
  snd (write_results o (world (snd run1)) (successful res1) (failed res1))
  = false ->
  result (process_points o self (p :: more) res) s = None /\
  issued (process_points o self (p :: more) res) s
  = issued (process_single_point o self (id p) (point_number p)
              (date_added p)) s
    ++ [SaveResults (successful res1) (failed res1)].
Proof.
  intros run1 res1 H. subst run1 res1.
  pose proof (emits_extends W _ _ _
                (emits_process_single_point W o self (fun _ => true) (id p)
                   (point_number p) (date_added p) (fun _ => eq_refl)
                   (fun _ _ _ => eq_refl)) s) as Hx.
  unfold result, issued at 1. cbn [process_points].
  unfold bind, save, ident in *.
  destruct (process_single_point o self (id p) (point_number p)
              (date_added p) s) as [ok s1] eqn:E.
  cbn [fst snd] in *.
  destruct (write_results o (world s1) _ _) as [w saved].
  cbn [snd] in H. subst saved. cbn [fst snd trace ret].
  split; [reflexivity|].
  rewrite Hx, <- app_assoc, skipn_length_app. reflexivity.
Qed.

End PointLoop.

(** ** The query and the listing *)

Section QueryAndListing.

Import SharePointDateUpdater.

Variable W : Type.
Variable o : ops W.
Variable self : updater.

Lemma points_of_items_bad (items : list entry) (it : entry) :
  In it items -> point_of_item it = None -> points_of_items items = None.
Proof.
  induction items as [|x items IH]; intros Hin Hbad; [destruct Hin|].
  cbn [points_of_items]. destruct Hin as [->|Hin].
  - now rewrite Hbad.
  - rewrite (IH Hin Hbad). now destruct (point_of_item x).
Qed.

(** X10: One item without an [ID], anywhere in the answer, empties the whole
    result of the query: the well-formed items around it are lost with
    it. *)
Theorem item_without_id_loses_all (start_date : datetime)
    (end_date : option datetime) (s : state W) (items : list entry)
    (it : entry) :
  json (snd (send o (world s) (GET (query_url self start_date end_date))))
  = Results items ->
  In it items -> ID it = None ->
  result (get_points_by_date_range o self start_date end_date) s = Some [].
Proof.
  intros Hj Hin Hid.
  unfold result, get_points_by_date_range, get_points_by_date_range_try,
    bind, ret, http.
  destruct (send o (world s) _) as [w r]. cbn [fst snd] in *.
  destruct r as [ok t j|]; [|discriminate Hj]. cbn [json status_ok] in *.
  destruct ok; [|reflexivity]. rewrite Hj.
  rewrite (points_of_items_bad items it Hin); [reflexivity|].
  unfold point_of_item. rewrite Hid. now destruct (leaf_or_title it).
Qed.

Lemma points_of_named_items (items : list entry) :
  Forall (fun it => exists i n,
            ID it = Some i /\ FileLeafRef it = Str (lit "Point " ++ n))
         items ->
  exists ps,
    points_of_items items = Some ps /\
    Forall2 (fun it p =>
               ID it = Some (id p) /\
               FileLeafRef it = Str (lit "Point " ++ point_number p))
            items ps.
Proof.
  induction 1 as [|it items (i & n & Hi & Hn) _ (ps & Hps & F)].
  - exists []. split; [reflexivity | constructor].
  - exists (mk_point i
              (match Date_x0020_Added it with Str d => Some d | _ => None end)
              n :: ps).
    split.
    + cbn [points_of_items]. unfold point_of_item, leaf_or_title.
      rewrite Hn, Hi, Hps.
      change (truthy (lit "Point " ++ n)) with true. cbv beta iota.
      rewrite (startswith_app (lit "Point ") n).
      change (skipn 6 (lit "Point " ++ n)) with n. reflexivity.
    + constructor; [|exact F]. now split.
Qed.

(** X11: When the query succeeds and every item has an [ID] and a leaf name
    [Point <n>], the points come back one per item and in the order of
    the answer, each with the item's [ID] and with [<n>] as its number:
    the prefix is taken off once, and nothing else is. *)
Theorem points_follow_items (start_date : datetime)
    (end_date : option datetime) (s : state W) (items : list entry) :
  let reply :=
    snd (send o (world s) (GET (query_url self start_date end_date))) in
  status_ok reply = true ->
  json reply = Results items ->
  Forall (fun it => exists i n,
            ID it = Some i /\ FileLeafRef it = Str (lit "Point " ++ n))
         items ->
  exists points,
    result (get_points_by_date_range o self start_date end_date) s
    = Some points /\
    Forall2 (fun it p =>
               ID it = Some (id p) /\
               FileLeafRef it = Str (lit "Point " ++ point_number p))
            items points.
Proof.
  intros reply Hok Hj Hitems. subst reply.
  unfold result, get_points_by_date_range, get_points_by_date_range_try,
    bind, ret, http.
  destruct (send o (world s) _) as [w r]. cbn [fst snd] in *.
  rewrite Hok, Hj.
  destruct (points_of_named_items items Hitems) as (ps & -> & F).
  exists ps. split; [reflexivity | exact F].
Qed.

(** X9: What [get_text_file_name] picks from a listing: the name of the first
    entry, in the order of the listing, that ends in [.txt] whatever the
    case of its letters; entries before it have no name or another
    ending. *)
Theorem first_txt_is_first (files : list entry) (name : str) :
  first_txt files = Some (Some name) <->
  exists before e after,
    files = before ++ e :: after /\
    Name e = Str name /\
    endswith (lit ".txt") (lower name) = true /\
    Forall (fun x => Name x = Missing \/
                     exists m, Name x = Str m /\
                               endswith (lit ".txt") (lower m) = false)
           before.
Proof.
  split.
  - induction files as [|f files IH]; [discriminate|].
    cbn [first_txt]. destruct (Name f) as [| |m] eqn:En.
    + intros H. destruct (IH H) as (b & e & a & -> & He & Het & Hb).
      exists (f :: b), e, a. repeat split; auto.
    + discriminate.
    + destruct (endswith (lit ".txt") (lower m)) eqn:Em.
      * intros H; injection H as <-.
        exists [], f, files. repeat split; auto.
      * intros H. destruct (IH H) as (b & e & a & -> & He & Het & Hb).
        exists (f :: b), e, a. repeat split; auto.
        constructor; [right; now exists m | exact Hb].
  - intros (b & e & a & -> & He & Het & Hb).
    induction Hb as [|x b [Hx|(m & Hx & Hm)] _ IH]; cbn [app first_txt].
    + now rewrite He, Het.
    + now rewrite Hx.
    + now rewrite Hx, Hm.
Qed.

(** X12: Whatever limit is given, the points that are processed are the first
    ones of the query, in its order: a positive limit keeps that many
    (all, when there are fewer), and a negative limit, which nothing
    rejects, drops that many from the end. *)
Theorem limit_keeps_a_prefix (max_points : option Z) (points : list point) :
  (exists dropped, points = limit_points max_points points ++ dropped) /\
  (forall n, max_points = Some n -> (0 < n)%Z ->
     length (limit_points max_points points)
     = Nat.min (Z.to_nat n) (length points)) /\
  (forall n, max_points = Some n -> (n < 0)%Z ->
     length (limit_points max_points points)
     = length points - Z.to_nat (- n)).
Proof.
  split; [|split].
  - destruct max_points as [n|]; cbn [limit_points].
    + destruct (n =? 0)%Z; [exists []; now rewrite app_nil_r|].
      destruct (0 <? n)%Z; eexists; symmetry; apply firstn_skipn.
    + exists []. now rewrite app_nil_r.
  - intros n -> Hn. cbn [limit_points].
    destruct (Z.eqb_spec n 0); [lia|].
    destruct (Z.ltb_spec 0 n); [|lia]. apply length_firstn.
  - intros n -> Hn. cbn [limit_points].
    destruct (Z.eqb_spec n 0); [lia|].
    destruct (Z.ltb_spec 0 n); [lia|]. rewrite length_firstn. lia.
Qed.

End QueryAndListing.

(** ** The conversion of the date *)

Section DateConversion.

Import SharePointDateUpdater.

Lemma isdigit_in (c : ascii) :
  isdigit c = true -> In c (lit "0123456789").
Proof.
  destruct c as [b0 b1 b2 b3 b4 b5 b6 b7].
  destruct b0, b1, b2, b3, b4, b5, b6, b7; vm_compute; intros H;
    try discriminate H; auto 12.
Qed.

Lemma str_eqb_eq (a b : str) : str_eqb a b = true -> a = b.
Proof.
  unfold str_eqb. now destruct (list_eq_dec ascii_dec a b).
Qed.

Lemma digit_not_T (c : ascii) : isdigit c = true -> Ascii.eqb c "T" = false.
Proof.
  intros H. apply isdigit_in in H.
  repeat (destruct H as [<-|H]; [reflexivity|]). destruct H.
Qed.

(** Four digits are the padded numeral of their value. *)
Lemma zpad4_digits (a b c d : ascii) :
  forallb isdigit [a; b; c; d] = true ->
  zpad 4 (int_of_digits [a; b; c; d]) = [a; b; c; d].
Proof.
  intros H. apply forallb_forall with (x := a) in H as Ha; [|simpl; auto].
  apply forallb_forall with (x := b) in H as Hb; [|simpl; auto].
  apply forallb_forall with (x := c) in H as Hc; [|simpl; auto].
  apply forallb_forall with (x := d) in H as Hd; [|simpl; auto].
  apply isdigit_in in Ha, Hb, Hc, Hd.
  assert (K : forallb (fun a => forallb (fun b => forallb (fun c =>
                forallb (fun d =>
                  str_eqb (zpad 4 (int_of_digits [a; b; c; d])) [a; b; c; d])
                (lit "0123456789")) (lit "0123456789")) (lit "0123456789"))
              (lit "0123456789") = true) by (vm_compute; reflexivity).
  rewrite forallb_forall in K. specialize (K a Ha).
  rewrite forallb_forall in K. specialize (K b Hb).
  rewrite forallb_forall in K. specialize (K c Hc).
  rewrite forallb_forall in K. specialize (K d Hd).
  now apply str_eqb_eq.
Qed.

(** Month and day, two digits each: how the pattern reads them. *)
Lemma month_day_digits (m1 m2 d1 d2 : ascii) :
  forallb isdigit [m1; m2; d1; d2] = true ->
  let valid := 1 <= int_of_digits [m1; m2] <= 12 /\
               1 <= int_of_digits [d1; d2] <= 31 in
  (valid ->
   month_day (month_alts ([m1; m2] ++ lit "-" ++ [d1; d2]))
   = Some ([m1; m2], [d1; d2], []) /\
   zpad 2 (int_of_digits [m1; m2]) = [m1; m2] /\
   zpad 2 (int_of_digits [d1; d2]) = [d1; d2]) /\
  (~ valid ->
   match month_day (month_alts ([m1; m2] ++ lit "-" ++ [d1; d2])) with
   | Some (_, _, rest) => rest <> []
   | None => True
   end).
Proof.
  intros H. apply forallb_forall with (x := m1) in H as Ha; [|simpl; auto].
  apply forallb_forall with (x := m2) in H as Hb; [|simpl; auto].
  apply forallb_forall with (x := d1) in H as Hc; [|simpl; auto].
  apply forallb_forall with (x := d2) in H as Hd; [|simpl; auto].
  apply isdigit_in in Ha, Hb, Hc, Hd.
  pose (validb := fun m1 m2 d1 d2 =>
          (1 <=? int_of_digits [m1; m2]) && (int_of_digits [m1; m2] <=? 12)
          && (1 <=? int_of_digits [d1; d2])
          && (int_of_digits [d1; d2] <=? 31)).
  assert (K : forallb (fun m1 => forallb (fun m2 => forallb (fun d1 =>
                forallb (fun d2 =>
                  match month_day
                          (month_alts ([m1; m2] ++ lit "-" ++ [d1; d2])) with
                  | Some (m, d, rest) =>
                      if validb m1 m2 d1 d2 then
                        str_eqb m [m1; m2] && str_eqb d [d1; d2]
                        && str_eqb rest []
                        && str_eqb (zpad 2 (int_of_digits [m1; m2])) [m1; m2]
                        && str_eqb (zpad 2 (int_of_digits [d1; d2])) [d1; d2]
                      else negb (str_eqb rest [])
                  | None => negb (validb m1 m2 d1 d2)
                  end)
                (lit "0123456789")) (lit "0123456789")) (lit "0123456789"))
              (lit "0123456789") = true) by (vm_compute; reflexivity).
  rewrite forallb_forall in K. specialize (K m1 Ha).
  rewrite forallb_forall in K. specialize (K m2 Hb).
  rewrite forallb_forall in K. specialize (K d1 Hc).
  rewrite forallb_forall in K. specialize (K d2 Hd).
  assert (V : validb m1 m2 d1 d2 = true <->
              (1 <= int_of_digits [m1; m2] <= 12 /\
               1 <= int_of_digits [d1; d2] <= 31)).
  { unfold validb. rewrite !andb_true_iff, !Nat.leb_le. tauto. }
  intros valid. subst valid. split.
  - intros Hv. apply V in Hv.
    destruct (month_day (month_alts ([m1; m2] ++ lit "-" ++ [d1; d2])))
      as [[[m d] rest]|]; rewrite Hv in K; [|discriminate K].
    repeat (apply andb_true_iff in K as [K ?]).
    repeat match goal with
           | E : str_eqb _ _ = true |- _ => apply str_eqb_eq in E
           end.
    subst. auto.
  - intros Hv.
    destruct (month_day (month_alts ([m1; m2] ++ lit "-" ++ [d1; d2])))
      as [[[m d] rest]|]; [|exact I].
    destruct (validb m1 m2 d1 d2) eqn:E; [exfalso; apply Hv; now apply V|].
    intros ->. discriminate K.
Qed.

Lemma days_in_month_le (y m : nat) : days_in_month y m <= 31.
Proof.
  unfold days_in_month.
  do 13 (destruct m as [|m]; [try destruct (is_leap y); lia|]). lia.
Qed.

Lemma days_in_month_pos (y m : nat) : 1 <= days_in_month y m -> 1 <= m <= 12.
Proof.
  unfold days_in_month.
  do 13 (destruct m as [|m]; [try destruct (is_leap y); lia|]). lia.
Qed.

Lemma before_T_date (y1 y2 y3 y4 m1 m2 d1 d2 : ascii) (time : str) :
  forallb isdigit [y1; y2; y3; y4; m1; m2; d1; d2] = true ->
  before_T ([y1; y2; y3; y4] ++ lit "-" ++ [m1; m2] ++ lit "-" ++ [d1; d2]
            ++ lit "T" ++ time)
  = [y1; y2; y3; y4] ++ lit "-" ++ [m1; m2] ++ lit "-" ++ [d1; d2].
Proof.
  intros H. cbn [forallb] in H.
  repeat (apply andb_true_iff in H as [?%digit_not_T H]).
  cbn [app lit list_ascii_of_string before_T].
  repeat match goal with
         | E : Ascii.eqb _ "T" = false |- _ => rewrite E; clear E
         end.
  reflexivity.
Qed.

(** X5: A timestamp [YYYY-MM-DDT...] of the service that names a real day,
    from the year 1000 on, is turned into [MM/DD/YYYY] with the same
    digits; what follows the [T] plays no part. *)
Theorem iso_date_becomes_mdY (y1 y2 y3 y4 m1 m2 d1 d2 : ascii)
    (time : str) :
  forallb isdigit [y1; y2; y3; y4; m1; m2; d1; d2] = true ->
  1000 <= int_of_digits [y1; y2; y3; y4] ->
  1 <= int_of_digits [d1; d2]
    <= days_in_month (int_of_digits [y1; y2; y3; y4])
                     (int_of_digits [m1; m2]) ->
  new_date_str_of
    (DateStr ([y1; y2; y3; y4] ++ lit "-" ++ [m1; m2] ++ lit "-" ++ [d1; d2]
              ++ lit "T" ++ time))
  = Some ([m1; m2] ++ lit "/" ++ [d1; d2] ++ lit "/" ++ [y1; y2; y3; y4]).
Proof.
  intros Hdig Hy Hd. cbn [new_date_str_of].
  rewrite before_T_date by exact Hdig.
  pose proof Hdig as Hall. cbn [forallb] in Hall.
  repeat (apply andb_true_iff in Hall as [? Hall]).
  assert (Hmd : forallb isdigit [m1; m2; d1; d2] = true)
    by (cbn [forallb]; rewrite !andb_true_iff; repeat split; assumption).
  assert (Hyd : forallb isdigit [y1; y2; y3; y4] = true)
    by (cbn [forallb]; rewrite !andb_true_iff; repeat split; assumption).
  pose proof (month_day_digits m1 m2 d1 d2 Hmd) as Hm.
  pose proof (zpad4_digits y1 y2 y3 y4 Hyd) as Hz.
  pose proof (days_in_month_le (int_of_digits [y1; y2; y3; y4])
                (int_of_digits [m1; m2])) as Hle.
  pose proof (days_in_month_pos (int_of_digits [y1; y2; y3; y4])
                (int_of_digits [m1; m2])) as Hpos.
  set (y := int_of_digits [y1; y2; y3; y4]) in *.
  set (mo := int_of_digits [m1; m2]) in *.
  set (dy := int_of_digits [d1; d2]) in *.
  unfold strptime_Ymd.
  change ([y1; y2; y3; y4] ++ lit "-" ++ [m1; m2] ++ lit "-" ++ [d1; d2])
    with (y1 :: y2 :: y3 :: y4 :: "-"%char
          :: ([m1; m2] ++ lit "-" ++ [d1; d2])).
  cbv beta iota.
  repeat match goal with
         | E : isdigit _ = true |- _ => rewrite E; clear E
         end.
  change (Ascii.eqb "-" "-") with true. cbn [andb].
  destruct Hm as [Hm _]. destruct Hm as (-> & Zm & Zd); [lia|].
  cbv beta iota. fold y mo dy.
  assert (E1 : (1 <=? y) = true) by (apply Nat.leb_le; lia).
  assert (E2 : (1 <=? dy) = true) by (apply Nat.leb_le; lia).
  assert (E3 : (dy <=? days_in_month y mo) = true)
    by (apply Nat.leb_le; lia).
  rewrite E1, E2, E3. cbn [andb option_map].
  unfold strftime_mdY. cbn [month day year]. now rewrite Zm, Zd, Hz.
Qed.

(** X6: A date of the service in the same form that names no real day (the
    thirtieth of February, a month 13, a day 00) cannot be converted. *)
Theorem impossible_date_not_converted (y1 y2 y3 y4 m1 m2 d1 d2 : ascii)
    (time : str) :
  forallb isdigit [y1; y2; y3; y4; m1; m2; d1; d2] = true ->
  ~ (1 <= int_of_digits [d1; d2]
       <= days_in_month (int_of_digits [y1; y2; y3; y4])
                        (int_of_digits [m1; m2])) ->
  new_date_str_of
    (DateStr ([y1; y2; y3; y4] ++ lit "-" ++ [m1; m2] ++ lit "-" ++ [d1; d2]
              ++ lit "T" ++ time))
  = None.
Proof.
  intros Hdig Hbad. cbn [new_date_str_of].
  rewrite before_T_date by exact Hdig.
  pose proof Hdig as Hall. cbn [forallb] in Hall.
  repeat (apply andb_true_iff in Hall as [? Hall]).
  assert (Hmd : forallb isdigit [m1; m2; d1; d2] = true)
    by (cbn [forallb]; rewrite !andb_true_iff; repeat split; assumption).
  pose proof (month_day_digits m1 m2 d1 d2 Hmd) as Hm.
  set (y := int_of_digits [y1; y2; y3; y4]) in *.
  set (mo := int_of_digits [m1; m2]) in *.
  set (dy := int_of_digits [d1; d2]) in *.
  unfold strptime_Ymd.
  change ([y1; y2; y3; y4] ++ lit "-" ++ [m1; m2] ++ lit "-" ++ [d1; d2])
    with (y1 :: y2 :: y3 :: y4 :: "-"%char
          :: ([m1; m2] ++ lit "-" ++ [d1; d2])).
  cbv beta iota.
  repeat match goal with
         | E : isdigit _ = true |- _ => rewrite E; clear E
         end.
  change (Ascii.eqb "-" "-") with true. cbn [andb].
  pose proof (days_in_month_le y mo) as Hle.
  pose proof (days_in_month_pos y mo) as Hpos.
  destruct Hm as [Hyes Hno].
  destruct (Nat.le_gt_cases 1 mo) as [M1|M1];
    [destruct (Nat.le_gt_cases mo 12) as [M2|M2]|];
    [destruct (Nat.le_gt_cases 1 dy) as [D1|D1];
       [destruct (Nat.le_gt_cases dy 31) as [D2|D2]|]| |].
  - destruct Hyes as (-> & _ & _); [lia|]. cbv beta iota. fold y mo dy.
    destruct (1 <=? y); [|reflexivity].
    destruct (1 <=? dy) eqn:E2; [|reflexivity].
    destruct (dy <=? days_in_month y mo) eqn:E3; [|reflexivity].
    exfalso. apply Hbad. apply Nat.leb_le in E2, E3. lia.
  - assert (N : ~ (1 <= mo <= 12 /\ 1 <= dy <= 31)) by lia.
    specialize (Hno N).
    destruct (month_day _) as [[[m d] rest]|]; [|reflexivity].
    now destruct rest.
  - assert (N : ~ (1 <= mo <= 12 /\ 1 <= dy <= 31)) by lia.
    specialize (Hno N).
    destruct (month_day _) as [[[m d] rest]|]; [|reflexivity].
    now destruct rest.
  - assert (N : ~ (1 <= mo <= 12 /\ 1 <= dy <= 31)) by lia.
    specialize (Hno N).
    destruct (month_day _) as [[[m d] rest]|]; [|reflexivity].
    now destruct rest.
  - assert (N : ~ (1 <= mo <= 12 /\ 1 <= dy <= 31)) by lia.
    specialize (Hno N).
    destruct (month_day _) as [[[m d] rest]|]; [|reflexivity].
    now destruct rest.
Qed.

End DateConversion.

(** ** A date that cannot be used *)

Section DateFailure.

Import SharePointDateUpdater.

Variable W : Type.
Variable o : ops W.
Variable self : updater.

(** X7: When the date of the point is missing or cannot be converted, the
    update fails without a rename or a write, but only after the backup
    and the second fetch have been made. *)
Theorem unusable_date_stops_before_write (pn fn : str) (nd : date_arg)
    (s : state W) :
  new_date_str_of nd = None ->
  result (update_text_file o self pn fn nd) s = false /\
  issued (update_text_file o self pn fn nd) s
  = issued (content_read o self pn fn) s /\
  existsb is_mutation (issued (update_text_file o self pn fn nd) s) = false.
Proof.
  intros Hnone.
  pose proof (proj1 (issued_content_read W o self pn fn s)) as Hmut.
  unfold result, issued in *. rewrite update_after_read, Hnone.
  destruct (content_read o self pn fn s) as [[c|] s']; cbn [fst snd] in *;
    auto.
Qed.

End DateFailure.

(** ** The history updater with a file in place *)

Section ExistingFile.

Import PointHistoryUpdater.

Variable W : Type.
Variable o : ops W.
Variable self : updater.

Lemma emits_get_monument_type (pn : str) :
  emits is_get (get_monument_type o self pn).
Proof. unfold get_monument_type, get_monument_type_try. emits_auto. Qed.

Lemma emits_get_existing_content (pn : str) :
  emits is_get (get_existing_content o self pn).
Proof.
  unfold get_existing_content, get_existing_content_try. emits_auto.
Qed.

Lemma str_eqb_refl (a : str) : str_eqb a a = true.
Proof. unfold str_eqb. now destruct (list_eq_dec ascii_dec a a). Qed.



(** X17: A text file that exists but is empty is treated as no file at all:
    when the lookup has returned and the fetch returns the empty text, the
    update goes to the create branch and posts the header block and the
    entry to [Files/Add(url='Point {n}.txt')]. *)
Theorem empty_file_is_created_again (obs : VRSObservation)
    (observer initials : str) (now : datetime) (s : state W)
    (mt : option str) :
  let pn := point_number obs in
  let s1 := snd (get_monument_type o self pn s) in
  result (get_monument_type o self pn) s = Some mt ->
  result (get_existing_content o self pn) s1 = Some (Some []) ->
  issued (update_point_history o self obs observer initials now) s
  = issued (get_monument_type o self pn) s
    ++ issued (get_existing_content o self pn) s1
    ++ [Http (POST (create_url self pn)
                (Some (header_block pn
                       ++ new_entry self (set_monument_type obs mt)
                            observer initials now)))].
Proof.
  intros pn s1 Hmt Hex. subst s1.
  pose proof (emits_extends W _ _ _ (emits_get_monument_type pn) s) as Hm.
  unfold issued at 1.
  unfold update_point_history, update_point_history_try, bind, result in *.
  fold pn. destruct (get_monument_type o self pn s) as [mt' s1].
  cbn [fst snd] in *. subst mt'.
  change (point_number (set_monument_type obs mt)) with pn.
  pose proof (emits_extends W _ _ _ (emits_get_existing_content pn) s1)
    as He.
  destruct (get_existing_content o self pn s1) as [ex s2].
  cbn [fst snd] in *. subst ex.
  cbn [truthy_opt truthy _create_point_history_content].
  unfold create_new, bind, http, ret.
  destruct (send o (world s2) _) as [w r]. cbn [fst snd trace].
  rewrite He, Hm, <- !app_assoc, skipn_length_app. reflexivity.
Qed.

End ExistingFile.

(** ** Composing again on composed text *)

Section ComposeTwice.

Import PointHistoryUpdater.

Lemma rstrip_blanks (ws : str) : forallb isspace ws = true -> rstrip ws = [].
Proof.
  induction ws as [|c ws IH]; [reflexivity|]. cbn [forallb rstrip].
  intros H. apply andb_true_iff in H as [Hc Hw]. now rewrite (IH Hw), Hc.
Qed.

(** [rstrip] takes off the blanks after the last character that is not
    one, and nothing else. *)
Lemma rstrip_after (a ws : str) (c : ascii) :
  isspace c = false -> forallb isspace ws = true ->
  rstrip (a ++ c :: ws) = a ++ [c].
Proof.
  intros Hc Hws. induction a as [|x a IH].
  - cbn [app rstrip]. now rewrite (rstrip_blanks ws Hws), Hc.
  - change ((x :: a) ++ c :: ws) with (x :: (a ++ c :: ws)).
    cbn [rstrip]. rewrite IH. now destruct a.
Qed.

(** Every text the composer returns ends in a full stop and two
    newlines. *)
Lemma composed_ends (self : updater) (obs : VRSObservation)
    (observer initials : str) (existing : option str) (now : datetime) :
  exists body,
    _create_point_history_content self obs observer initials existing now
    = body ++ lit "." ++ [nl; nl].
Proof.
  assert (E : exists e, new_entry self obs observer initials now
                        = e ++ lit "." ++ [nl; nl]).
  { exists (([nl; nl] ++ strftime_mdY now ++ [tab] ++ initials ++ [tab]
             ++ lit "This monument" ++ monument_type_text obs
             ++ lit " was observed with VRS (" ++ document_num obs
             ++ lit ") using " ++ control_used obs ++ lit " and Geoid18")
            ++ ([nl; tab; tab; tab] ++ lit "as part of WO " ++ work_order obs
                ++ lit ". The purpose of this work order was to facilitate "
                ++ permit_text self)
            ++ [nl; tab; tab; tab] ++ location_text obs
            ++ lit ". Monument observed by " ++ observer ++ lit " on "
            ++ date_observed obs).
    unfold new_entry. cbv zeta. now rewrite <- !app_assoc. }
  destruct E as [e He]. unfold _create_point_history_content. cbv zeta.
  rewrite He.
  destruct existing as [[|c x]|]; cbn [truthy].
  - exists (header_block (point_number obs) ++ e). now rewrite <- app_assoc.
  - exists (rstrip (c :: x) ++ e). now rewrite <- app_assoc.
  - exists (header_block (point_number obs) ++ e). now rewrite <- app_assoc.
Qed.

(** X18: Appending to a text this composer returned keeps that text up to its
    full stop, drops only its two final newlines and adds the new entry:
    no second header, and the words [ACTION/REMARKS] occur no more often
    than in the text and in the entry. *)
Theorem appending_to_composed_text (self : updater)
    (obs1 obs2 : VRSObservation) (observer1 initials1 observer2 initials2 :
       str) (existing : option str) (now1 now2 : datetime) :
  let first :=
    _create_point_history_content self obs1 observer1 initials1 existing
      now1 in
  let entry := new_entry self obs2 observer2 initials2 now2 in
  exists body,
    first = body ++ lit "." ++ [nl; nl] /\
    _create_point_history_content self obs2 observer2 initials2 (Some first)
      now2
    = body ++ lit "." ++ entry /\
    occurrences marker
      (_create_point_history_content self obs2 observer2 initials2
         (Some first) now2)
    = occurrences marker first + occurrences marker entry.
Proof.
  intros first entry. subst first entry.
  destruct (composed_ends self obs1 observer1 initials1 existing now1)
    as [body Hb].
  exists body. split; [exact Hb|]. rewrite Hb.
  assert (R : rstrip (body ++ lit "." ++ [nl; nl]) = body ++ lit ".")
    by (apply (rstrip_after body [nl; nl] "."); reflexivity).
  match goal with
  | |- _ /\ occurrences marker ?t = _ =>
      assert (E : t = body ++ lit "."
                      ++ new_entry self obs2 observer2 initials2 now2)
  end.
  { unfold _create_point_history_content. cbv zeta.
    destruct (body ++ lit "." ++ [nl; nl]) eqn:D.
    - destruct body; discriminate D.
    - cbn [truthy]. rewrite R. now rewrite <- app_assoc. }
  split; [exact E|]. rewrite E.
  destruct (new_entry_head self obs2 observer2 initials2 now2) as [e He].
  rewrite He, occurrences_nl.
  rewrite (app_assoc body (lit ".") (nl :: e)).
  rewrite (app_assoc body (lit ".") [nl; nl]).
  rewrite !occurrences_sep;
    try apply marker_nonempty; try (apply marker_no; simpl; tauto).
  change (occurrences marker [nl]) with 0. lia.
Qed.

End ComposeTwice.

(** ** Names that need no quoting, and trailing slashes *)

Section SafeNames.

Lemma quote_char_safe (c : ascii) : safe c = true -> quote_char c = [c].
Proof.
  destruct c as [b0 b1 b2 b3 b4 b5 b6 b7].
  destruct b0, b1, b2, b3, b4, b5, b6, b7; vm_compute; intros H;
    try discriminate H; reflexivity.
Qed.

Lemma quote_safe (s : str) : forallb safe s = true -> quote s = s.
Proof.
  induction s as [|c s IH]; [reflexivity|]. cbn [forallb].
  intros H. apply andb_true_iff in H as [Hc Hs].
  unfold quote in *. cbn [flat_map].
  now rewrite (quote_char_safe c Hc), (IH Hs).
Qed.

(** X20: For a site, a library, a point and a file whose names hold only
    letters, digits and [_.-~/], the two scripts address the same folder
    and the same file: quoting changes nothing there. *)
Theorem scripts_agree_on_plain_names (base site lib pn fn : str)
    (permit : option str) :
  forallb safe site = true -> forallb safe lib = true ->
  forallb safe pn = true -> forallb safe fn = true ->
  PointHistoryUpdater.folder_url
    (PointHistoryUpdater.mk_updater base site lib permit) pn
  = SharePointDateUpdater.folder_url
      (SharePointDateUpdater.mk_updater base site lib) pn /\
  PointHistoryUpdater.file_url
    (PointHistoryUpdater.mk_updater base site lib permit) pn fn
  = SharePointDateUpdater.file_url
      (SharePointDateUpdater.mk_updater base site lib) pn fn.
Proof.
  intros Hs Hl Hp Hf.
  unfold PointHistoryUpdater.folder_url, PointHistoryUpdater.file_url,
    PointHistoryUpdater.folder_path, PointHistoryUpdater.file_path,
    SharePointDateUpdater.folder_url, SharePointDateUpdater.file_url.
  cbn [PointHistoryUpdater.base_url PointHistoryUpdater.site_name
       PointHistoryUpdater.library_name SharePointDateUpdater.base_url
       SharePointDateUpdater.site_name SharePointDateUpdater.library_name].
  rewrite !quote_safe.
  - split; now rewrite <- !app_assoc.
  - rewrite !forallb_app, Hs, Hl, Hp, Hf. reflexivity.
  - rewrite !forallb_app, Hs, Hl, Hp. reflexivity.
Qed.

Lemma rstrip_slash_slashes (n : nat) : rstrip_slash (repeat "/"%char n) = [].
Proof. induction n as [|n IH]; [reflexivity|]. cbn. now rewrite IH. Qed.

Lemma rstrip_slash_app (a : str) (n : nat) :
  rstrip_slash (a ++ repeat "/"%char n) = rstrip_slash a.
Proof.
  induction a as [|c a IH]; [apply rstrip_slash_slashes|].
  cbn [app rstrip_slash]. now rewrite IH.
Qed.

Lemma rstrip_slash_split (a : str) :
  exists n, a = rstrip_slash a ++ repeat "/"%char n.
Proof.
  induction a as [|c a (n & IH)]; [now exists 0|].
  cbn [rstrip_slash]. destruct (rstrip_slash a) as [|x r] eqn:E.
  - destruct (Ascii.eqb_spec c "/") as [->|Hc].
    + exists (S n). cbn. f_equal. exact IH.
    + exists n. cbn. f_equal. exact IH.
  - exists n. cbn [app]. f_equal. exact IH.
Qed.

Lemma rstrip_slash_last (a : str) :
  endswith (lit "/") (rstrip_slash a) = false.
Proof.
  induction a as [|c a IH]; [reflexivity|]. cbn [rstrip_slash].
  destruct (rstrip_slash a) as [|x r] eqn:E.
  - destruct (Ascii.eqb_spec c "/") as [->|Hc]; [reflexivity|].
    unfold endswith.
    change (startswith (rev (lit "/")) (rev [c]))
      with (Ascii.eqb "/" c && true).
    destruct (Ascii.eqb_spec "/" c) as [e|ne]; [|reflexivity].
    exfalso. apply Hc. now symmetry.
  - unfold endswith in *. cbn [rev] in *.
    destruct (rev r ++ [x]) as [|y t] eqn:R.
    + destruct (rev r); discriminate R.
    + cbn [app]. exact IH.
Qed.

(** X21: The base address is kept without the slashes it ends in, however
    many: what was typed is that address followed by slashes only, the
    address kept does not end in one, and two addresses that differ in
    their final slashes give the same updater, hence the same requests. *)
Theorem trailing_slashes_are_dropped (base site lib : str)
    (permit : option str) (n : nat) :
  Construct.SharePointPointUpdater (base ++ repeat "/"%char n) site lib
  = Construct.SharePointPointUpdater base site lib /\
  Construct.SharePointVRSUpdater (base ++ repeat "/"%char n) site lib permit
  = Construct.SharePointVRSUpdater base site lib permit /\
  (exists k,
     base
     = SharePointDateUpdater.base_url
         (Construct.SharePointPointUpdater base site lib)
       ++ repeat "/"%char k) /\
  endswith (lit "/")
    (SharePointDateUpdater.base_url
       (Construct.SharePointPointUpdater base site lib)) = false.
Proof.
  unfold Construct.SharePointPointUpdater, Construct.SharePointVRSUpdater.
  cbn [SharePointDateUpdater.base_url]. rewrite rstrip_slash_app.
  repeat split; [apply rstrip_slash_split | apply rstrip_slash_last].
Qed.

End SafeNames.

(** ** The rows of the CSV file *)

Section CsvRows.

Import PointHistoryUpdater VrsCsv.

Variable W : Type.
Variable o : ops W.
Variable self : updater.
Variable observer initials : str.
Variable clock : nat -> datetime.

(** X22: Blank rows, and rows that lack a required field, leave no trace: no
    request is issued for them and no outcome is recorded. *)
Theorem incomplete_rows_are_skipped (rows : list csv_row) (s : state W) :
  Forall (fun row => any_values row = false \/
                     exists d, clean row = Some d /\ complete d = false)
         rows ->
  process_vrs_csv o self observer initials clock (Some rows) s = ([], s).
Proof.
  intros H. cbn [process_vrs_csv].
  generalize 0 as i, (@None dict) as cleaned.
  induction H as [|row rows [Hb|(d & Hc & Hi)] _ IH]; intros i cleaned.
  - reflexivity.
  - cbn [process_rows]. rewrite Hb. cbn [negb]. apply IH.
  - cbn [process_rows]. destruct (any_values row); cbn [negb]; [|apply IH].
    rewrite Hc, Hi. apply IH.
Qed.

(** X23: A row that is too short or too long, met before any row could be
    cleaned, ends the run at once: nothing is recorded and nothing is
    issued, whatever rows follow it. *)
Theorem broken_first_row_ends_the_run (blanks more : list csv_row)
    (row : csv_row) (s : state W) :
  Forall (fun r => any_values r = false) blanks ->
  any_values row = true ->
  clean row = None ->
  process_vrs_csv o self observer initials clock
    (Some (blanks ++ row :: more)) s
  = ([], s).
Proof.
  intros Hb Ha Hc. cbn [process_vrs_csv]. generalize 0 as i.
  induction Hb as [|b blanks Hbl _ IH]; intros i.
  - cbn [app process_rows]. now rewrite Ha, Hc.
  - cbn [app process_rows]. rewrite Hbl. cbn [negb]. apply IH.
Qed.

Lemma complete_point (d : dict) :
  complete d = true -> point_or_unknown d = point_number (obs_of d).
Proof.
  unfold complete, required_fields, point_or_unknown. cbn [forallb].
  intros H.
  repeat (apply andb_true_iff in H as [? H]).
  cbn [obs_of point_number]. unfold field.
  destruct (dict_get d (lit "PNT_OBSERVED")); [reflexivity | discriminate].
Qed.

(** X24: A row that is too short or too long, coming after a complete row,
    is charged to that earlier row: the outcome recorded for the earlier
    row's point becomes a failure, whatever its update returned, and no
    request is issued for the broken row. *)
Theorem broken_row_fails_the_row_before (row1 row2 : csv_row) (d1 : dict)
    (s : state W) :
  any_values row1 = true -> clean row1 = Some d1 -> complete d1 = true ->
  any_values row2 = true -> clean row2 = None ->
  result (process_vrs_csv o self observer initials clock
            (Some [row1; row2])) s
  = [(point_number (obs_of d1), false)] /\
  issued (process_vrs_csv o self observer initials clock
            (Some [row1; row2])) s
  = issued (update_point_history o self (obs_of d1) observer initials
              (clock 0)) s.
Proof.
  intros Ha1 Hc1 Hd1 Ha2 Hc2.
  unfold result, issued. cbn [process_vrs_csv process_rows].
  rewrite Ha1, Hc1, Hd1, Ha2, Hc2. cbn [negb]. unfold bind, ret.
  destruct (update_point_history o self (obs_of d1) observer initials
              (clock 0) s) as [[ok|] s1];
    cbn [fst snd dict_set]; rewrite (complete_point d1 Hd1);
    cbn [dict_set]; now rewrite str_eqb_refl.
Qed.

Lemma dict_set_keys (r : list (str * bool)) (k : str) (v : bool) (x : str) :
  In x (map fst (dict_set r k v)) <-> x = k \/ In x (map fst r).
Proof.
  induction r as [|[k' v'] r IH]; cbn [dict_set map fst In].
  - intuition.
  - unfold str_eqb. destruct (list_eq_dec ascii_dec k' k) as [->|Hne];
      cbn [map fst In]; [|rewrite IH]; intuition.
Qed.

Lemma dict_set_nodup (r : list (str * bool)) (k : str) (v : bool) :
  NoDup (map fst r) -> NoDup (map fst (dict_set r k v)).
Proof.
  induction r as [|[k' v'] r IH]; cbn [dict_set map fst]; intros H.
  - constructor; [intros [] | constructor].
  - inversion H as [|? ? Hk Hr]; subst.
    unfold str_eqb. destruct (list_eq_dec ascii_dec k' k) as [->|Hne];
      cbn [map fst]; [exact H|].
    constructor; [|now apply IH].
    rewrite dict_set_keys. intros [->|Hin]; [now apply Hne | now apply Hk].
Qed.

Lemma process_rows_keys (rows : list csv_row) :
  Forall (fun row => any_values row = false \/ exists d, clean row = Some d)
         rows ->
  forall (i : nat) (cleaned : option dict) (results : list (str * bool))
         (s : state W),
  NoDup (map fst results) ->
  NoDup (map fst (fst (process_rows o self observer initials clock rows i
                         cleaned results s))) /\
  forall k,
    In k (map fst (fst (process_rows o self observer initials clock rows i
                          cleaned results s)))
    <-> In k (map fst results) \/
        exists row d, In row rows /\ any_values row = true /\
                      clean row = Some d /\ complete d = true /\
                      k = point_number (obs_of d).
Proof.
  induction 1 as [|row rows Hrow _ IH]; intros i cleaned results s Hnd.
  - cbn [process_rows ret fst]. split; [exact Hnd|].
    intros k. split; [now left|]. intros [H|(r & d & [] & _)]. exact H.
  - cbn [process_rows]. destruct (any_values row) eqn:Ea; cbn [negb].
    + destruct Hrow as [Hf|(d & Hc)]; [discriminate|]. rewrite Hc.
      destruct (complete d) eqn:Ed.
      * unfold bind.
        destruct (update_point_history o self (obs_of d) observer initials
                    (clock i) s) as [ok s1].
        assert (exists b,
                  match ok with
                  | Some success =>
                      dict_set results (point_number (obs_of d)) success
                  | None => dict_set results (point_or_unknown d) false
                  end = dict_set results (point_number (obs_of d)) b)
          as [b ->].
        { destruct ok as [b|]; [now exists b|]. exists false.
          now rewrite (complete_point d Ed). }
        destruct (IH (S i) (Some d)
                    (dict_set results (point_number (obs_of d)) b) s1
                    (dict_set_nodup _ _ _ Hnd)) as [N K].
        split; [exact N|]. intros k. rewrite K, dict_set_keys.
        split.
        -- intros [[->|H]|(r & d' & Hin & H)]; auto.
           ++ right. exists row, d. repeat split; auto. now left.
           ++ right. exists r, d'. split; [now right | exact H].
        -- intros [H|(r & d' & [<-|Hin] & Ha & Hc' & Hd' & ->)]; auto.
           ++ left. left. congruence.
           ++ right. exists r, d'. repeat split; auto.
      * destruct (IH (S i) (Some d) results s Hnd) as [N K].
        split; [exact N|]. intros k. rewrite K. split.
        -- intros [H|(r & d' & Hin & H)]; auto.
           right. exists r, d'. split; [now right | exact H].
        -- intros [H|(r & d' & [<-|Hin] & Ha & Hc' & Hd' & ->)]; auto.
           ++ congruence.
           ++ right. exists r, d'. repeat split; auto.
    + destruct (IH (S i) cleaned results s Hnd) as [N K].
      split; [exact N|]. intros k. rewrite K. split.
      * intros [H|(r & d' & Hin & H)]; auto.
        right. exists r, d'. split; [now right | exact H].
      * intros [H|(r & d' & [<-|Hin] & Ha & Hc' & Hd' & ->)]; auto.
        -- congruence.
        -- right. exists r, d'. repeat split; auto.
Qed.

(** X25: When every row is blank or can be cleaned, the results name exactly
    the points of the complete rows, each of them once, however many rows
    name the same point. *)
Theorem results_name_the_complete_rows (rows : list csv_row)
    (s : state W) :
  Forall (fun row => any_values row = false \/ exists d, clean row = Some d)
         rows ->
  NoDup (map fst (result (process_vrs_csv o self observer initials clock
                            (Some rows)) s)) /\
  forall k,
    In k (map fst (result (process_vrs_csv o self observer initials clock
                             (Some rows)) s))
    <-> exists row d, In row rows /\ any_values row = true /\
                      clean row = Some d /\ complete d = true /\
                      k = point_number (obs_of d).
Proof.
  intros H. unfold result. cbn [process_vrs_csv].
  destruct (process_rows_keys rows H 0 None [] s (NoDup_nil _)) as [N K].
  split; [exact N|]. intros k. rewrite K. cbn [map In]. tauto.
Qed.

End CsvRows.

(** ** Paths that cannot break out of the URL, and the empty query *)

Section PathsAndEmptyQuery.

(** X19: In the history updater a name cannot end the quoted argument of the
    URL it is put in, nor start a query or a fragment: the folder path and
    the file path hold no apostrophe, no space, no [?] and no [#],
    whatever the site, library, point and file are called. *)
Theorem history_paths_stay_inside_the_url
    (self : PointHistoryUpdater.updater) (pn fn : str) (c : ascii) :
  In c (lit "' ?#") ->
  ~ In c (PointHistoryUpdater.folder_path self pn) /\
  ~ In c (PointHistoryUpdater.file_path self pn fn).
Proof.
  intros Hc.
  assert (N : ~ (safe c = true \/ c = "%"%char)).
  { cbn in Hc. destruct Hc as [<-|[<-|[<-|[<-|[]]]]]; intros [H|H];
      discriminate H. }
  split; intros H; apply N; exact (quote_only_safe _ c H).
Qed.

(** X15: When the query is answered with an error status, or finds nothing,
    the run ends there with empty results: the one request of the query
    is all that is issued, and no results file is written.  When the
    query gets no reply, the handler of lines 76-81 raises and the run is
    left by that exception, after the same single request. *)
Theorem empty_query_ends_the_run (W : Type) (o : ops W)
    (self : SharePointDateUpdater.updater) (start_date : datetime)
    (end_date : option datetime) (max_points : option Z) (s : state W) :
  let query :=
    SharePointDateUpdater.get_points_by_date_range o self start_date
      end_date in
  let run :=
    SharePointDateUpdater.process_multiple_points o self start_date
      end_date max_points in
  let reply :=
    snd (send o (world s)
           (GET (SharePointDateUpdater.query_url self start_date end_date)))
  in
  (error_reply reply = true -> result query s = Some []) /\
  (reply = no_reply -> result query s = None) /\
  (result query s = Some [] ->
   result run s = Some (SharePointDateUpdater.mk_results [] []) /\
   issued run s
   = [Http (GET (SharePointDateUpdater.query_url self start_date
                   end_date))]) /\
  (result query s = None ->
   result run s = None /\
   issued run s
   = [Http (GET (SharePointDateUpdater.query_url self start_date
                   end_date))]).
Proof.
  intros query run reply. subst query run reply.
  unfold result, issued, SharePointDateUpdater.process_multiple_points,
    SharePointDateUpdater.get_points_by_date_range,
    SharePointDateUpdater.get_points_by_date_range_try, bind, ret, http.
  destruct (send o (world s) _) as [w r]. cbn [fst snd world trace].
  repeat split.
  - intros H. destruct r as [[] t j|]; try discriminate H. reflexivity.
  - intros ->. reflexivity.
  - now rewrite H.
  - rewrite H. cbn [fst snd trace]. now rewrite skipn_length_app.
  - now rewrite H.
  - rewrite H. cbn [fst snd trace]. now rewrite skipn_length_app.
Qed.

End PathsAndEmptyQuery.

(** ** A service that does not reply *)

Section NoReply.

Import PointHistoryUpdater VrsCsv.

Variable W : Type.
Variable o : ops W.
Variable self : updater.

Lemma lookup_raises_run (obs : VRSObservation) (observer initials : str)
    (now : datetime) (s : state W) :
  let exchange := send o (world s) (GET (monument_url self (point_number obs)))
  in
  snd exchange = no_reply
  \/ (status_ok (snd exchange) = true /\ json (snd exchange) = NotJson /\
      requests_json_error o = true) ->
  fst (get_monument_type o self (point_number obs) s) = None /\
  update_point_history o self obs observer initials now s
  = (Some false,
     mk_state (fst exchange)
       (trace s ++ [Http (GET (monument_url self (point_number obs)))])).
Proof.
  intros exchange H. subst exchange.
  unfold update_point_history, update_point_history_try,
    get_monument_type, get_monument_type_try, bind, ret, http.
  destruct (send o (world s) _) as [w r]. cbn [fst snd world trace] in *.
  assert (E : handled None
                (if status_ok r
                 then match json r with
                      | NotJson => inr (json_error o)
                      | NoResults => inr Plain
                      | Results [] => inl None
                      | Results (first :: _) =>
                          match Mon_x0020_Description first with
                          | Str t => inl (if truthy t then Some t else None)
                          | _ => inl None
                          end
                      end
                 else inr (exchange_error r)) = @None (option str)).
  { destruct H as [->|(Hok & Hj & Hv)]; [reflexivity|].
    rewrite Hok, Hj. unfold json_error. now rewrite Hv. }
  rewrite E. split; reflexivity.
Qed.

(** X26: When the monument lookup gets no reply, or its answer is not JSON
    under a requests library that reports this with its own exception,
    the handler of lines 81-86 raises; [update_point_history] catches
    that, returns [False] and issues nothing after the lookup: the history
    of the point is neither fetched nor written. *)
Theorem lookup_without_reply_stops_the_update (obs : VRSObservation)
    (observer initials : str) (now : datetime) (s : state W) :
  let reply :=
    snd (send o (world s) (GET (monument_url self (point_number obs)))) in
  reply = no_reply
  \/ (status_ok reply = true /\ json reply = NotJson /\
      requests_json_error o = true) ->
  result (get_monument_type o self (point_number obs)) s = None /\
  result (update_point_history o self obs observer initials now) s
  = Some false /\
  issued (update_point_history o self obs observer initials now) s
  = [Http (GET (monument_url self (point_number obs)))].
Proof.
  intros reply H. subst reply.
  destruct (lookup_raises_run obs observer initials now s H) as [Hm Hu].
  unfold result, issued. rewrite Hu. cbn [fst snd trace].
  repeat split; [exact Hm|]. now rewrite skipn_length_app.
Qed.

Lemma dict_set_false (r : list (str * bool)) (k : str) :
  Forall (fun kv => snd kv = false) r ->
  Forall (fun kv => snd kv = false) (dict_set r k false).
Proof.
  induction 1 as [|[k' v'] r Hv Hr IH]; cbn [dict_set].
  - constructor; [reflexivity | constructor].
  - destruct (str_eqb k' k); constructor; auto.
Qed.

Variable observer initials : str.
Variable clock : nat -> datetime.

Lemma process_rows_unreachable (rows : list csv_row) :
  (forall w r, snd (send o w r) = no_reply) ->
  Forall (fun row => any_values row = false \/ exists d, clean row = Some d)
         rows ->
  forall (i : nat) (cleaned : option dict) (results : list (str * bool))
         (s : state W),
  Forall (fun kv => snd kv = false) results ->
  Forall (fun kv => snd kv = false)
         (fst (process_rows o self observer initials clock rows i cleaned
                 results s)) /\
  trace (snd (process_rows o self observer initials clock rows i cleaned
                results s))
  = trace s
    ++ map (fun ob => Http (GET (monument_url self (point_number ob))))
         (observations rows).
Proof.
  intros Hsilent.
  induction 1 as [|row rows Hrow _ IH]; intros i cleaned results s Hres.
  - cbn [process_rows ret fst snd observations flat_map map].
    now rewrite app_nil_r.
  - cbn [process_rows observations flat_map].
    fold (observations rows).
    destruct (any_values row) eqn:Ea; cbn [negb app].
    + destruct Hrow as [Hf|(d & Hc)]; [discriminate|]. rewrite Hc.
      destruct (complete d) eqn:Ed; cbn [app].
      * unfold bind.
        destruct (lookup_raises_run (obs_of d) observer initials (clock i) s
                    (or_introl (Hsilent _ _))) as [_ ->].
        destruct (IH (S i) (Some d)
                    (dict_set results (point_number (obs_of d)) false)
                    (mk_state
                       (fst (send o (world s)
                               (GET (monument_url self
                                       (point_number (obs_of d))))))
                       (trace s
                        ++ [Http (GET (monument_url self
                                         (point_number (obs_of d))))]))
                    (dict_set_false _ _ Hres)) as [F T].
        split; [exact F|]. rewrite T. cbn [trace map].
        now rewrite <- app_assoc.
      * apply IH, Hres.
    + apply IH, Hres.
Qed.

(** X27: When no request gets a reply, every row that could be processed is
    recorded as a failure, and one request is issued for each of them,
    the monument lookup: nothing is fetched, created or written. *)
Theorem unreachable_service_fails_every_row (rows : list csv_row)
    (s : state W) :
  (forall w r, snd (send o w r) = no_reply) ->
  Forall (fun row => any_values row = false \/ exists d, clean row = Some d)
         rows ->
  Forall (fun kv => snd kv = false)
         (result (process_vrs_csv o self observer initials clock
                    (Some rows)) s) /\
  issued (process_vrs_csv o self observer initials clock (Some rows)) s
  = map (fun ob => Http (GET (monument_url self (point_number ob))))
      (observations rows).
Proof.
  intros Hsilent Hrows. unfold result, issued. cbn [process_vrs_csv].
  destruct (process_rows_unreachable rows Hsilent Hrows 0 None [] s
              (Forall_nil _)) as [F T].
  split; [exact F|]. now rewrite T, skipn_length_app.
Qed.

End NoReply.

(** ** Examples of the further properties *)

Lemma point_without_text_file_witness :
  issued (SharePointDateUpdater.process_single_point
            (const_ops Scenario.failure true true) Scenario.date_updater
            7%Z (lit "101") None) start
  = [Http (GET (SharePointDateUpdater.folder_url Scenario.date_updater
                  (lit "101")))].
Proof.
  apply (point_without_text_file unit (const_ops Scenario.failure true true)
           Scenario.date_updater 7%Z (lit "101") None start).
  reflexivity.
Defined.

Lemma no_write_without_backup_witness :
  exists rest,
    issued (SharePointDateUpdater.update_text_file
              (const_ops Scenario.ok_listing true true) Scenario.date_updater
              (lit "101") (lit "history.TXT")
              (SharePointDateUpdater.DateObj Scenario.june_15)) start
    = Http (GET (SharePointDateUpdater.file_url Scenario.date_updater
                   (lit "101") (lit "history.TXT")))
      :: Backup (lit "101") (lit "history.TXT") (text Scenario.ok_listing)
      :: Http (GET (SharePointDateUpdater.file_url Scenario.date_updater
                      (lit "101") (lit "history.TXT")))
      :: rest.
Proof.
  apply (no_write_without_backup unit
           (const_ops Scenario.ok_listing true true) Scenario.date_updater
           (lit "101") (lit "history.TXT")
           (SharePointDateUpdater.DateObj Scenario.june_15) start).
  reflexivity.
Defined.

Lemma unchanged_text_written_back_witness :
  exists before,
    issued (SharePointDateUpdater.update_text_file
              (const_ops Examples.marker_first true true)
              Scenario.date_updater (lit "101") (lit "Point 101.txt")
              (SharePointDateUpdater.DateObj Scenario.june_15)) start
    = before
      ++ [Http (PUT (SharePointDateUpdater.file_url Scenario.date_updater
                       (lit "101") (lit "Point 101.txt"))
                    (lit "CMS 01/02/2024"))].
Proof.
  apply (unchanged_text_written_back unit
           (const_ops Examples.marker_first true true)
           Scenario.date_updater (lit "101") (lit "Point 101.txt")
           (SharePointDateUpdater.DateObj Scenario.june_15) start
           (lit "CMS 01/02/2024") (strftime_mdY Scenario.june_15));
    reflexivity.
Defined.


Lemma failed_save_stops_the_run_witness :
  result (SharePointDateUpdater.process_points
            (const_ops Scenario.ok_listing true false) Scenario.date_updater
            [Examples.point_101; Examples.point_101]
            (SharePointDateUpdater.mk_results [] [])) start = None.
Proof.
  apply (failed_save_stops_the_run unit
           (const_ops Scenario.ok_listing true false) Scenario.date_updater
           Examples.point_101 [Examples.point_101]
           (SharePointDateUpdater.mk_results [] []) start).
  reflexivity.
Defined.

Lemma item_without_id_loses_all_witness :
  result (SharePointDateUpdater.get_points_by_date_range
            (const_ops Examples.with_bad_item true true)
            Scenario.date_updater Scenario.june_15 None) start = Some [].
Proof.
  apply (item_without_id_loses_all unit
           (const_ops Examples.with_bad_item true true)
           Scenario.date_updater Scenario.june_15 None start
           [Scenario.item 7 "Point 101.txt" "Point 101"; Examples.no_id]
           Examples.no_id); [reflexivity | right; now left | reflexivity].
Defined.

Lemma points_follow_items_witness :
  exists points,
    result (SharePointDateUpdater.get_points_by_date_range
              (const_ops Scenario.ok_listing true true)
              Scenario.date_updater Scenario.june_15 None) start
    = Some points /\
    Forall2 (fun it p =>
               ID it = Some (SharePointDateUpdater.id p) /\
               FileLeafRef it
               = Str (lit "Point " ++ SharePointDateUpdater.point_number p))
            [Scenario.item 7 "Point 101.txt" "Point 101"] points.
Proof.
  apply (points_follow_items unit (const_ops Scenario.ok_listing true true)
           Scenario.date_updater Scenario.june_15 None start
           [Scenario.item 7 "Point 101.txt" "Point 101"]);
    [reflexivity | reflexivity |].
  constructor; [|constructor].
  exists 7%Z, (lit "101"). split; reflexivity.
Defined.

Lemma first_txt_is_first_witness :
  SharePointDateUpdater.first_txt
    [Examples.no_id; Scenario.item 7 "Point 101.TXT" "Point 101";
     Scenario.item 8 "other.txt" "other"]
  = Some (Some (lit "Point 101.TXT")).
Proof.
  apply (proj2 (first_txt_is_first _ (lit "Point 101.TXT"))).
  exists [Examples.no_id], (Scenario.item 7 "Point 101.TXT" "Point 101"),
    [Scenario.item 8 "other.txt" "other"].
  repeat split; try reflexivity.
  constructor; [now left | constructor].
Defined.

Lemma limit_keeps_a_prefix_witness :
  length (SharePointDateUpdater.limit_points (Some (-1)%Z)
            [Examples.point_101; Examples.point_101; Examples.point_101])
  = 2.
Proof.
  destruct (limit_keeps_a_prefix (Some (-1)%Z)
              [Examples.point_101; Examples.point_101; Examples.point_101])
    as (_ & _ & H).
  apply (H (-1)%Z); [reflexivity | lia].
Defined.

Lemma iso_date_becomes_mdY_witness :
  SharePointDateUpdater.new_date_str_of
    (SharePointDateUpdater.DateStr (lit "2024-06-15T00:00:00Z"))
  = Some (lit "06/15/2024").
Proof.
  apply (iso_date_becomes_mdY "2" "0" "2" "4" "0" "6" "1" "5"
           (lit "00:00:00Z")).
  - reflexivity.
  - apply Nat.leb_le. vm_compute. reflexivity.
  - split; apply Nat.leb_le; vm_compute; reflexivity.
Defined.

Lemma impossible_date_not_converted_witness :
  SharePointDateUpdater.new_date_str_of
    (SharePointDateUpdater.DateStr (lit "2023-02-29T00:00:00Z"))
  = None.
Proof.
  apply (impossible_date_not_converted "2" "0" "2" "3" "0" "2" "2" "9"
           (lit "00:00:00Z")).
  - reflexivity.
  - intros [_ H]. apply Nat.leb_le in H. vm_compute in H. discriminate H.
Defined.

Lemma unusable_date_stops_before_write_witness :
  existsb is_mutation
    (issued (SharePointDateUpdater.update_text_file
               (const_ops Scenario.ok_listing true true)
               Scenario.date_updater (lit "101") (lit "Point 101.txt")
               SharePointDateUpdater.DateNone) start)
  = false.
Proof.
  apply (unusable_date_stops_before_write unit
           (const_ops Scenario.ok_listing true true) Scenario.date_updater
           (lit "101") (lit "Point 101.txt") SharePointDateUpdater.DateNone
           start).
  reflexivity.
Defined.


Lemma empty_file_is_created_again_witness :
  existsb is_mutation
    (issued (PointHistoryUpdater.update_point_history
               (const_ops Examples.empty_file true true)
               Scenario.vrs_updater Scenario.row_A (lit "J. Doe")
               (lit "JD") Scenario.june_15) start)
  = true.
Proof.
  rewrite (empty_file_is_created_again unit
             (const_ops Examples.empty_file true true) Scenario.vrs_updater
               Scenario.row_A (lit "J. Doe") (lit "JD") Scenario.june_15
             start None eq_refl eq_refl).
  reflexivity.
Defined.

Lemma scripts_agree_on_plain_names_witness :
  PointHistoryUpdater.folder_url Scenario.vrs_updater (lit "101")
  = SharePointDateUpdater.folder_url Scenario.date_updater (lit "101").
Proof.
  apply (scripts_agree_on_plain_names (lit "https://sp.example")
           (lit "Survey") (lit "Points") (lit "101") (lit "Point_101.txt")
           None); reflexivity.
Defined.

Lemma incomplete_rows_are_skipped_witness :
  VrsCsv.process_vrs_csv (const_ops Scenario.ok_listing true true)
    Scenario.vrs_updater (lit "J. Doe") (lit "JD") Examples.noon
    (Some [Examples.blank_row; Examples.partial_row]) start
  = ([], start).
Proof.
  apply (incomplete_rows_are_skipped unit
           (const_ops Scenario.ok_listing true true) Scenario.vrs_updater
           (lit "J. Doe") (lit "JD") Examples.noon
           [Examples.blank_row; Examples.partial_row] start).
  constructor; [now left|]. constructor; [|constructor].
  right. eexists. split; reflexivity.
Defined.

Lemma broken_first_row_ends_the_run_witness :
  VrsCsv.process_vrs_csv (const_ops Scenario.ok_listing true true)
    Scenario.vrs_updater (lit "J. Doe") (lit "JD") Examples.noon
    (Some ([Examples.blank_row] ++ Examples.short_row :: [Examples.full_row]))
    start
  = ([], start).
Proof.
  apply (broken_first_row_ends_the_run unit
           (const_ops Scenario.ok_listing true true) Scenario.vrs_updater
           (lit "J. Doe") (lit "JD") Examples.noon [Examples.blank_row]
           [Examples.full_row] Examples.short_row start);
    [constructor; [reflexivity | constructor] | reflexivity | reflexivity].
Defined.

Lemma broken_row_fails_the_row_before_witness :
  result (VrsCsv.process_vrs_csv (const_ops Scenario.ok_listing true true)
            Scenario.vrs_updater (lit "J. Doe") (lit "JD") Examples.noon
            (Some [Examples.full_row; Examples.short_row])) start
  = [(lit "101", false)].
Proof.
  apply (broken_row_fails_the_row_before unit
           (const_ops Scenario.ok_listing true true) Scenario.vrs_updater
           (lit "J. Doe") (lit "JD") Examples.noon Examples.full_row
           Examples.short_row Examples.full_dict start); reflexivity.
Defined.

Lemma results_name_the_complete_rows_witness :
  NoDup (map fst
           (result (VrsCsv.process_vrs_csv
                      (const_ops Scenario.ok_listing true true)
                      Scenario.vrs_updater (lit "J. Doe") (lit "JD")
                      Examples.noon
                      (Some [Examples.blank_row; Examples.full_row;
                             Examples.full_row; Examples.partial_row]))
                   start)).
Proof.
  assert (H : Forall (fun row => VrsCsv.any_values row = false \/
                                 exists d, VrsCsv.clean row = Some d)
                     [Examples.blank_row; Examples.full_row;
                      Examples.full_row; Examples.partial_row]).
  { constructor; [now left|].
    constructor; [right; eexists; reflexivity|].
    constructor; [right; eexists; reflexivity|].
    constructor; [right; eexists; reflexivity | constructor]. }
  destruct (results_name_the_complete_rows unit
              (const_ops Scenario.ok_listing true true) Scenario.vrs_updater
              (lit "J. Doe") (lit "JD") Examples.noon
              [Examples.blank_row; Examples.full_row; Examples.full_row;
               Examples.partial_row] start H) as [N _].
  exact N.
Defined.

Lemma history_paths_stay_inside_the_url_witness :
  ~ In "'"%char
      (PointHistoryUpdater.folder_path Scenario.vrs_updater (lit "O'Neil 7")).
Proof.
  apply (history_paths_stay_inside_the_url Scenario.vrs_updater
           (lit "O'Neil 7") [] "'"%char).
  now left.
Defined.

Lemma empty_query_ends_the_run_witness :
  result (SharePointDateUpdater.process_multiple_points
            (const_ops Scenario.failure true true) Scenario.date_updater
            Scenario.june_15 None (Some 5%Z)) start
  = Some (SharePointDateUpdater.mk_results [] []).
Proof.
  destruct (empty_query_ends_the_run unit
              (const_ops Scenario.failure true true) Scenario.date_updater
              Scenario.june_15 None (Some 5%Z) start) as (Hq & _ & Hr & _).
  exact (proj1 (Hr (Hq eq_refl))).
Defined.

Lemma lookup_without_reply_stops_the_update_witness :
  issued (PointHistoryUpdater.update_point_history
            (silent_after 0 Scenario.ok_listing) Scenario.vrs_updater
            Scenario.row_A (lit "J. Doe") (lit "JD") Scenario.june_15)
         start_at_0
  = [Http (GET (PointHistoryUpdater.monument_url Scenario.vrs_updater
                  (lit "101")))].
Proof.
  apply (lookup_without_reply_stops_the_update nat
           (silent_after 0 Scenario.ok_listing) Scenario.vrs_updater
           Scenario.row_A (lit "J. Doe") (lit "JD") Scenario.june_15
           start_at_0).
  left. reflexivity.
Defined.

Lemma unreachable_service_fails_every_row_witness :
  issued (VrsCsv.process_vrs_csv (silent_after 0 Scenario.ok_listing)
            Scenario.vrs_updater (lit "J. Doe") (lit "JD") Examples.noon
            (Some [Examples.blank_row; Examples.full_row;
                   Examples.partial_row]))
         start_at_0
  = [Http (GET (PointHistoryUpdater.monument_url Scenario.vrs_updater
                  (lit "101")))].
Proof.
  apply (unreachable_service_fails_every_row nat
           (silent_after 0 Scenario.ok_listing) Scenario.vrs_updater
           (lit "J. Doe") (lit "JD") Examples.noon
           [Examples.blank_row; Examples.full_row; Examples.partial_row]
           start_at_0).
  - intros w r. reflexivity.
  - constructor; [now left|].
    constructor; [right; eexists; reflexivity|].
    constructor; [right; eexists; reflexivity | constructor].
Defined.

(** ** Patching what is already patched *)

Section PatchTwice.

Import SharePointDateUpdater.

Variable new : str.
Hypothesis new_is_date : match_date new = Some [].

Lemma digit_not_space (c : ascii) : isdigit c = true -> isspace c = false.
Proof.
  intros H. apply isdigit_in in H.
  repeat (destruct H as [<-|H]; [reflexivity|]). destruct H.
Qed.

Lemma date_facts :
  length new = 10 /\
  (forall c, In c new -> isspace c = false) /\
  exists h tl, new = h :: tl /\ isdigit h = true.
Proof.
  pose proof new_is_date as H. unfold match_date in H.
  destruct new as [|a0 [|a1 [|a2 [|a3 [|a4 [|a5 [|a6 [|a7 [|a8 [|a9 l]]]]]]]]]];
    try discriminate H.
  destruct (_ && _) eqn:E; [|discriminate H]. injection H as ->.
  rewrite !andb_true_iff in E.
  destruct E as [[[[[[[[[D0 D1] S1] D3] D4] S2] D6] D7] D8] D9].
  apply Ascii.eqb_eq in S1, S2. subst a2 a5.
  split; [reflexivity|]. split.
  - intros c Hc. cbn in Hc.
    repeat (destruct Hc as [<-|Hc];
            [first [now apply digit_not_space | reflexivity]|]).
    destruct Hc.
  - now exists a0, [a1; "/"%char; a3; a4; "/"%char; a6; a7; a8; a9].
Qed.

(** The text up to the first replacement is copied. *)
Lemma copied_prefix (t : str) :
  sub_date_CMS (replacement new) t = t \/
  exists p m post,
    t = p ++ m /\ match_date_CMS m = Some post /\
    sub_date_CMS (replacement new) t
    = p ++ replacement new ++ sub_date_CMS (replacement new) post.
Proof.
  induction t as [|c t IH]; [now left|].
  destruct (match_date_CMS (c :: t)) as [post|] eqn:E.
  - right. exists [], (c :: t), post. repeat split; auto.
    apply sub_date_CMS_match; [exact E|].
    apply match_date_CMS_spec in E as (d & ws & (Hd & _) & Hs).
    exists (d ++ ws ++ lit "CMS"). split.
    + now rewrite Hs, <- !app_assoc.
    + destruct d; [discriminate Hd | discriminate].
  - rewrite sub_date_CMS_copy by exact E.
    destruct IH as [IH|(p & m & post & Ht & Hm & Hs)].
    + left. now rewrite IH.
    + right. exists (c :: p), m, post. repeat split; auto.
      * now rewrite Ht.
      * now rewrite Hs.
Qed.

Lemma prefix_of_app (a b c e : str) :
  a ++ b = c ++ e -> length c <= length a -> exists l, a = c ++ l.
Proof.
  revert c; induction a as [|x a IH]; intros c E L.
  - destruct c; [now exists [] | simpl in L; lia].
  - destruct c as [|y c]; [now exists (x :: a)|].
    injection E as -> E. simpl in L.
    destruct (IH c E) as [l ->]; [lia|]. now exists l.
Qed.

(** A match that starts on a copied character of the patched text was a
    match of the text before the patch. *)
Lemma no_new_match (c : ascii) (t r : str) :
  match_date_CMS (c :: sub_date_CMS (replacement new) t) = Some r ->
  exists r', match_date_CMS (c :: t) = Some r'.
Proof.
  intros H.
  apply match_date_CMS_spec in H as (d & ws & (Hd & Hne & Hws) & E).
  destruct (copied_prefix t) as [Hs|(p & m & post & Ht & Hm & Hs)].
  - rewrite Hs in E. exists r. apply match_date_CMS_spec.
    exists d, ws. now repeat split.
  - rewrite Hs in E.
    destruct date_facts as (Ln & Nsp & h & tl & Hh & Dh).
    destruct (match_date_app d [] Hd) as [_ Ld].
    set (X := sub_date_CMS (replacement new) post) in *.
    destruct (le_lt_dec (length (d ++ ws ++ lit "CMS")) (length (c :: p)))
      as [Hle|Hgt].
    + assert (E' : (c :: p) ++ (replacement new ++ X)
                   = (d ++ ws ++ lit "CMS") ++ r)
        by (rewrite <- !app_assoc; exact E).
      destruct (prefix_of_app _ _ _ _ E' Hle) as [l Hl].
      exists (l ++ m). apply match_date_CMS_spec.
      exists d, ws. split; [now repeat split|].
      rewrite Ht. change (c :: p ++ m) with ((c :: p) ++ m).
      rewrite Hl. now rewrite <- !app_assoc.
    + exfalso.
      assert (Eq : forall i,
                 nth i ((c :: p) ++ new ++ ([tab; tab] ++ lit "CMS" ++ X))
                     " "%char
                 = nth i (d ++ (ws ++ lit "CMS") ++ r) " "%char).
      { intros i. f_equal. unfold replacement in E.
        rewrite <- !app_assoc in *. exact E. }
      rewrite !length_app in Hgt.
      change (length (lit "CMS")) with 3 in Hgt.
      assert (Hpos : length (c :: p) = S (length p)) by reflexivity.
      destruct (le_lt_dec (length (c :: p)) 9) as [Hk|Hk].
      * specialize (Eq 10).
        rewrite app_nth2 in Eq by lia.
        rewrite app_nth1 in Eq by lia.
        rewrite (app_nth2 d) in Eq by lia.
        rewrite Ld, Nat.sub_diag in Eq.
        destruct ws as [|w ws]; [contradiction|].
        cbn [app nth] in Eq. cbn [forallb] in Hws.
        apply andb_true_iff in Hws as [Hw _].
        assert (Hin : In (nth (10 - length (c :: p)) new " "%char) new)
          by (apply nth_In; lia).
        apply Nsp in Hin. rewrite Eq in Hin. congruence.
      * specialize (Eq (length (c :: p))).
        rewrite app_nth2 in Eq by lia.
        rewrite Nat.sub_diag, Hh in Eq. cbn [app nth] in Eq.
        rewrite (app_nth2 d) in Eq by lia.
        rewrite app_nth1 in Eq
          by (rewrite length_app; change (length (lit "CMS")) with 3; lia).
        assert (Hin : In h (ws ++ lit "CMS")).
        { rewrite Eq. apply nth_In. rewrite length_app.
          change (length (lit "CMS")) with 3. lia. }
        apply in_app_or in Hin as [Hin|Hin].
        -- rewrite forallb_forall in Hws. apply Hws in Hin.
           apply digit_not_space in Dh. congruence.
        -- cbn in Hin. destruct Hin as [<-|[<-|[<-|[]]]]; discriminate Dh.
Qed.

(** Patching twice is patching once, line by line. *)
Lemma sub_twice (s : str) :
  sub_date_CMS (replacement new) (sub_date_CMS (replacement new) s)
  = sub_date_CMS (replacement new) s.
Proof.
  pose proof (sub_date_CMS_scan (replacement new) s) as H.
  induction H as [|d ws post post' Hshape Hscan IH|c t t' Hno Hscan IH].
  - reflexivity.
  - apply scan_iff in Hscan. subst post'.
    rewrite (sub_date_CMS_match (replacement new) _
               (sub_date_CMS (replacement new) post)).
    + now rewrite IH.
    + set (X := sub_date_CMS (replacement new) post).
      unfold replacement. rewrite <- !app_assoc.
      apply match_date_CMS_shape;
        [exact new_is_date | discriminate | reflexivity].
    + exists (replacement new). split; [reflexivity|].
      unfold replacement. destruct date_facts as (_ & _ & h & tl & -> & _).
      discriminate.
  - apply scan_iff in Hscan. subst t'.
    destruct (match_date_CMS (c :: sub_date_CMS (replacement new) t))
      as [r|] eqn:E.
    + destruct (no_new_match c t r E) as [r' Hr].
      apply match_date_CMS_spec in Hr as (d & ws & Hshape & Hs).
      now destruct (Hno d ws r' Hshape).
    + rewrite sub_date_CMS_copy by exact E. now rewrite IH.
Qed.

Lemma update_line_twice (line : str) :
  update_line new (update_line new line) = update_line new line.
Proof.
  unfold update_line at 2 3. destruct (qualifies line) eqn:Q.
  - unfold update_line.
    destruct (qualifies (sub_date_CMS (replacement new) line));
      [apply sub_twice | reflexivity].
  - unfold update_line. now rewrite Q.
Qed.

End PatchTwice.

Section PatchTwiceText.

Import SharePointDateUpdater.

Lemma split_patched (new : str) (content : str) :
  ~ In nl new ->
  split_lines (join_lines (map (update_line new) (split_lines content)))
  = map (update_line new) (split_lines content).
Proof.
  intros Hn. apply split_join.
  - pose proof (split_lines_nonempty content).
    destruct (split_lines content); [contradiction | discriminate].
  - pose proof (split_no_newline content) as F.
    induction F as [|l ls Hl _ IH]; constructor; [|exact IH].
    intros H. unfold update_line in H.
    destruct (qualifies l); [|contradiction].
    apply sub_from_chars in H as [H|H]; [contradiction|].
    unfold replacement in H. apply in_app_or in H as [H|H];
      [contradiction|].
    vm_compute in H. intuition discriminate.
Qed.

(** X4: Running the update a second time with the same date changes nothing:
    the text the first run writes is left as it is by the patch. *)
Theorem patching_twice_changes_nothing (d : datetime) (content : str) :
  match_date (strftime_mdY d) = Some [] ->
  join_lines
    (fst (patch_lines (strftime_mdY d)
            (join_lines (fst (patch_lines (strftime_mdY d) content)))))
  = join_lines (fst (patch_lines (strftime_mdY d) content)).
Proof.
  intros Hd. rewrite !patch_lines_map. cbn [fst].
  rewrite split_patched.
  - rewrite map_map. f_equal. apply map_ext.
    intros l. now apply update_line_twice.
  - intros H. apply strftime_mdY_chars in H as [H|H]; discriminate H.
Qed.

End PatchTwiceText.

Lemma patching_twice_changes_nothing_witness :
  join_lines
    (fst (SharePointDateUpdater.patch_lines (strftime_mdY Scenario.june_15)
            (join_lines
               (fst (SharePointDateUpdater.patch_lines
                       (strftime_mdY Scenario.june_15)
                       (text Scenario.ok_listing))))))
  = join_lines
      (fst (SharePointDateUpdater.patch_lines (strftime_mdY Scenario.june_15)
              (text Scenario.ok_listing))).
Proof.
  apply (patching_twice_changes_nothing Scenario.june_15
           (text Scenario.ok_listing)).
  reflexivity.
Defined.
